(** * Multi-corpus Tamil verse matcher: a shallow embedding

    Embeds [models/text_processor.py] (class [TamilTextProcessor]) and the
    matching core of [models/semantic_analyzer_multi.py] (class
    [MultiLiteratureSemanticAnalyzer]: [_fuzzy_search_all_books], [analyze],
    [_generate_generic_analysis], [_analyze_sentiment]), its direct lookups
    ([search_by_book_and_number], [search_by_author]), and the single-book
    analyzer of [models/semantic_analyzer.py] (class [SemanticAnalyzer]:
    [_fuzzy_search], [analyze], [_generate_generic_analysis],
    [search_by_number], [get_all_sections]).

    Conventions.
    - A Python [str] is the list of its Unicode code points ([pystr]); [len]
      is [length], [a in b] on strings is [contains], [==] is equality of
      lists.  String constants are written as UTF-8 literals and decoded to
      code points by [u].
    - Python numbers ([int] and [float]) are embedded by their exact value
      in [Q].  Python compares an int with a float by exact value, and the
      products [100 * kamba_boost], [verse_len * 0.8] and [verse_len * 0.5]
      compare against integers exactly as their rational values do.  Where
      the source truncates or rounds a float it has computed (the products
      of the fuzzy branch, the sentiment score) the float operations are
      embedded with their rounding: [fl] gives the float nearest to a
      rational.  A result that is a number of hundredths ([confidence], the
      rounded sentiment score) is embedded by that decimal; the float
      returned is the one nearest to it.
    - The two similarity functions of the imported [fuzzywuzzy] package are
      not part of this repository; they are the two fields of the class
      [Fuzz].
    - The single-book analyzer writes into the verse objects of its
      database through the references it keeps; there the database is
      passed through every call as the store of these objects, and a
      reference is a position in it. *)

From Stdlib Require Import ZArith QArith Qround Qpower Lqa List Bool Lia String
  Ascii.
Import ListNotations.
Open Scope Z_scope.

(** ** Python strings *)

Module PyStr.

Definition pystr := list Z.

(** UTF-8 decoding of a literal: [need] continuation bytes are still due and
    [acc] holds the bits read so far. *)
Fixpoint utf8_go (s : string) (need : nat) (acc : Z) : pystr :=
  match s with
  | EmptyString => []
  | String a rest =>
    let b := Z.of_N (N_of_ascii a) in
    match need with
    | O => if b <? 128 then b :: utf8_go rest 0 0
           else if b <? 224 then utf8_go rest 1 (Z.land b 31)
           else if b <? 240 then utf8_go rest 2 (Z.land b 15)
           else utf8_go rest 3 (Z.land b 7)
    | S O => (acc * 64 + Z.land b 63) :: utf8_go rest 0 0
    | S n => utf8_go rest n (acc * 64 + Z.land b 63)
    end
  end.

Definition u (s : string) : pystr := utf8_go s 0 0.

Definition eqb (a b : pystr) : bool :=
  if list_eq_dec Z.eq_dec a b then true else false.

Definition isEmpty (s : pystr) : bool :=
  match s with [] => true | _ => false end.

(** Whitespace as [str.isspace], [str.strip], [str.split] and the regular
    expression class [\s] on a [str] pattern have it. *)
Definition is_space (c : Z) : bool :=
  ((9 <=? c) && (c <=? 13)) || ((28 <=? c) && (c <=? 32))
  || (c =? 133) || (c =? 160) || (c =? 5760)
  || ((8192 <=? c) && (c <=? 8202))
  || (c =? 8232) || (c =? 8233) || (c =? 8239) || (c =? 8287) || (c =? 12288).

(** The decimal digits that can be met here: ASCII [0-9] and the Tamil
    digits U+0BE6..U+0BEF (the Tamil signs for ten, hundred and thousand,
    U+0BF0..U+0BF2, are numeric but not digits). *)
Definition is_digit_char (c : Z) : bool :=
  ((48 <=? c) && (c <=? 57)) || ((3046 <=? c) && (c <=? 3055)).

(** [s.isdigit()]: every character a digit, and at least one character. *)
Definition isdigit (s : pystr) : bool :=
  negb (isEmpty s) && forallb is_digit_char s.

Fixpoint lstrip (s : pystr) : pystr :=
  match s with
  | [] => []
  | c :: r => if is_space c then lstrip r else s
  end.

Definition rstrip (s : pystr) : pystr := rev (lstrip (rev s)).

(** [s.strip()] *)
Definition strip (s : pystr) : pystr := rstrip (lstrip s).

(** [s.split()]: the maximal runs of non-whitespace; [cur] is the word
    being read. *)
Fixpoint split_go (s cur : pystr) : list pystr :=
  match s with
  | [] => if isEmpty cur then [] else [cur]
  | c :: r =>
    if is_space c
    then (if isEmpty cur then split_go r [] else cur :: split_go r [])
    else split_go r (cur ++ [c])
  end.

Definition split (s : pystr) : list pystr := split_go s [].

(** [' '.join(parts)] *)
Fixpoint join_space (parts : list pystr) : pystr :=
  match parts with
  | [] => []
  | [p] => p
  | p :: rest => p ++ 32 :: join_space rest
  end.

(** [s.startswith(p)] *)
Fixpoint startswith (s p : pystr) : bool :=
  match p, s with
  | [], _ => true
  | _ :: _, [] => false
  | x :: p', y :: s' => (x =? y) && startswith s' p'
  end.

(** [s.endswith(e)] *)
Definition endswith (s e : pystr) : bool := startswith (rev s) (rev e).

(** [sub in s] on strings *)
Fixpoint contains (s sub : pystr) : bool :=
  startswith s sub ||
  match s with
  | [] => false
  | _ :: r => contains r sub
  end.

(** [x in xs] on a list or set of strings *)
Definition mem (x : pystr) (xs : list pystr) : bool := existsb (eqb x) xs.

(** [s.count(c)] for a one-character [c] *)
Definition count_char (c : Z) (s : pystr) : Z :=
  Z.of_nat (List.length (filter (Z.eqb c) s)).

Definition len (s : pystr) : Z := Z.of_nat (List.length s).

(** [set(words)] as the list of distinct words, and the size of
    [a.intersection(b)]. *)
Definition to_set (ws : list pystr) : list pystr :=
  nodup (list_eq_dec Z.eq_dec) ws.

Definition intersection (a b : list pystr) : list pystr :=
  filter (fun w => mem w b) a.

(** [re.sub(r'\s+', ' ', s)]: every maximal run of whitespace becomes one
    space; [in_run] says the previous character was whitespace. *)
Fixpoint collapse_ws (s : pystr) (in_run : bool) : pystr :=
  match s with
  | [] => []
  | c :: r =>
    if is_space c
    then (if in_run then collapse_ws r true else 32 :: collapse_ws r true)
    else c :: collapse_ws r false
  end.

(** [str(n)] for an integer [n]: its decimal digits, most significant
    first; [fuel] bounds the number of digits. *)
Fixpoint digits_go (fuel : nat) (n : Z) (acc : pystr) : pystr :=
  match fuel with
  | O => acc
  | S f =>
    let acc' := (48 + n mod 10) :: acc in
    if n <? 10 then acc' else digits_go f (n / 10) acc'
  end.

Definition str_of_int (n : Z) : pystr :=
  if n <? 0
  then 45 :: digits_go (S (Z.to_nat (Z.log2 (- n)))) (- n) []
  else digits_go (S (Z.to_nat (Z.log2 n))) n [].

End PyStr.
Import PyStr.

(** ** models/text_processor.py *)

Module TamilTextProcessor.

(** The Tamil block, [஀-௿]. *)
Definition is_tamil (c : Z) : bool := (2944 <=? c) && (c <=? 3071).

(** [clean_text] *)
Definition clean_text (text : pystr) : pystr :=
  if isEmpty text then []
  else strip (collapse_ws text false).

(** [tamil_pattern.findall(text)]: the maximal runs of Tamil characters. *)
Fixpoint tamil_runs (s cur : pystr) : list pystr :=
  match s with
  | [] => if isEmpty cur then [] else [cur]
  | c :: r =>
    if is_tamil c then tamil_runs r (cur ++ [c])
    else (if isEmpty cur then tamil_runs r [] else cur :: tamil_runs r [])
  end.

(** [extract_tamil_only] *)
Definition extract_tamil_only (text : pystr) : pystr :=
  join_space (tamil_runs text []).

(** [tokenize_words] *)
Definition tokenize_words (text : pystr) : list pystr :=
  filter (fun w => negb (isEmpty (strip w))) (split text).

(** [normalize_text]: drop what is neither Tamil nor whitespace, collapse
    whitespace, trim. *)
Definition normalize_text (text : pystr) : pystr :=
  let text := filter (fun c => is_tamil c || is_space c) text in
  let text := collapse_ws text false in
  strip text.

(** [is_valid_tamil]: [tamil_pattern.search] finds a Tamil character. *)
Definition is_valid_tamil (text : pystr) : bool := existsb is_tamil text.

(** [count_words] *)
Definition count_words (text : pystr) : Z :=
  Z.of_nat (List.length (tokenize_words text)).

(** [preprocess_for_analysis] *)
Definition preprocess_for_analysis (text : pystr) : pystr :=
  let text := clean_text text in
  if negb (is_valid_tamil text) then [] else text.

End TamilTextProcessor.
Import TamilTextProcessor.

(** ** Python numbers *)

(** [int(x)] on a float: truncation toward zero. *)
Definition py_int (x : Q) : Z := Z.quot (Qnum x) (Zpos (Qden x)).

Definition Qlt_bool (a b : Q) : bool := negb (Qle_bool b a).

(** [max(a, b)]: the first argument unless the second is greater. *)
Definition py_max (a b : Q) : Q := if Qlt_bool a b then b else a.

(** [round(x, 2)] on the float [x]: the hundredth nearest to the exact
    value of [x], an exact tie to the even one (the float returned is the
    one nearest to this hundredth, and prints as it). *)
Definition round_half_even (x : Q) : Z :=
  let f := Qfloor x in
  let d := (x - inject_Z f)%Q in
  if Qlt_bool d (1 # 2) then f
  else if Qlt_bool (1 # 2) d then f + 1
  else if Z.even f then f else f + 1.

Definition py_round2 (x : Q) : Q := (inject_Z (round_half_even (x * 100)) / 100)%Q.

(** *** Floats

    A [float] is a binary64 number: 53 significant bits, every operation
    rounded to the nearest float and an exact tie to the one with an even
    last bit.  The values met here lie far inside the normal range, so
    neither overflow nor the subnormal numbers are modelled. *)

(** The binade of a positive number: the [k] with [2^k <= x < 2^(k+1)]. *)
Definition binade (x : Q) : Z :=
  let k0 := Z.log2 (Qnum x) - Z.log2 (Zpos (Qden x)) in
  if Qle_bool (2 ^ k0) x then k0 else k0 - 1.

(** The float nearest to a positive number. *)
Definition nearest_float (x : Q) : Q :=
  let e := binade x - 52 in
  (inject_Z (round_half_even (x * 2 ^ (- e))) * 2 ^ e)%Q.

(** The float nearest to a number: the value of a decimal literal, of the
    quotient [a / b] of two integers, and of a sum, difference or product
    of two floats. *)
Definition fl (x : Q) : Q :=
  match Qnum x with
  | 0 => 0%Q
  | Zpos _ => nearest_float x
  | Zneg _ => (- nearest_float (- x))%Q
  end.

(** ** The imported similarity functions ([from fuzzywuzzy import fuzz]) *)

Class Fuzz := {
  token_set_ratio : pystr -> pystr -> Z;
  partial_ratio : pystr -> pystr -> Z
}.

(** The package documents both ratios as integers from 0 to 100. *)
Definition fuzz_in_range (F : Fuzz) : Prop :=
  forall a b,
    0 <= token_set_ratio a b <= 100 /\ 0 <= partial_ratio a b <= 100.

(** ** Data model: the JSON databases *)

(** A [verse_number] is stored as a JSON integer or a JSON string. *)
Inductive vnum :=
| VInt (n : Z)
| VStr (s : pystr).

(** One entry of a database's ['verses'] list; a key that is absent is
    [None]. *)
Record verse_record := {
  verse_number : option vnum;
  verse : option pystr;
  meaning : option pystr;
  chapter : option pystr;
  kandam : option pystr;
  section : option pystr;
  summary : option pystr;
  english_meaning : option pystr;
  theme : option pystr;
  moral : option pystr;
  author : option pystr;
  characters : option (list pystr);
  tamil_book_name : option pystr
}.

(** A database's ['metadata'] object. *)
Record metadata := {
  title : option pystr;
  tamil_title : option pystr;
  english_title : option pystr;
  meta_author : option pystr;
  period : option pystr;
  category : option pystr
}.

(** A loaded database; [_load_database] gives the empty object for a
    missing or unreadable file, which is [empty_db]. *)
Record book_db := {
  verses : list verse_record;
  db_metadata : metadata
}.

Definition empty_metadata : metadata :=
  {| title := None; tamil_title := None; english_title := None;
     meta_author := None; period := None; category := None |}.

Definition empty_db : book_db :=
  {| verses := []; db_metadata := empty_metadata |}.

(** The analyzer object: its two databases. *)
Record analyzer := {
  thirukkural_db : book_db;
  kamba_db : book_db
}.

Inductive book_key_t := thirukkural | kamba_ramayanam.

Definition book_key_eqb (a b : book_key_t) : bool :=
  match a, b with
  | thirukkural, thirukkural | kamba_ramayanam, kamba_ramayanam => true
  | _, _ => false
  end.

(** [d.get(key, default)] for a string-valued key. *)
Definition get_str (field : option pystr) (default : pystr) : pystr :=
  match field with Some s => s | None => default end.

(** [str(verse_data.get('verse_number', ''))] *)
Definition verse_num_of (verse_data : verse_record) : pystr :=
  match verse_number verse_data with
  | None => []
  | Some (VInt n) => str_of_int n
  | Some (VStr s) => s
  end.

(** ** Static word lists of [_fuzzy_search_all_books] *)

Definition verb_endings : list pystr := Eval vm_compute in map u
  ["கிறேன்"; "கிறாய்"; "கிறார்"; "கிறோம்"; "கிறீர்"; "கிறார்கள்";
   "கிறது"; "கின்றன";
   "வேன்"; "வாய்"; "வார்"; "வோம்"; "வீர்"; "வார்கள்";
   "தேன்"; "தாய்"; "தார்"; "தோம்"; "தீர்"; "தார்கள்";
   "ந்தேன்"; "ந்தாய்"; "ந்தார்"; "ந்தோம்";
   "ட்டேன்"; "ட்டாய்"; "ட்டார்"; "ட்டோம்";
   "க்கிறேன்"; "ப்பேன்"; "ப்போம்"]%string.

Definition time_indicators : list pystr := Eval vm_compute in map u
  ["இன்று"; "நேற்று"; "நாளை"; "இன்றைக்கு"; "நேற்றைக்கு";
   "காலையில்"; "மாலையில்"; "இரவில்"; "மதியம்";
   "இப்போது"; "அப்போது"; "பிறகு"; "முன்பு"]%string.

Definition modern_words : list pystr := Eval vm_compute in map u
  ["புத்தகம்"; "பள்ளி"; "கார்"; "பேருந்து"; "ரயில்";
   "கணினி"; "போன்"; "டிவி"; "பணம்"; "ஊர்";
   "வீட்டில்"; "கடை"; "மார்க்கெட்"; "ஆபீஸ்"; "வேலை"]%string.

(** The character names of the structural pre-check (the first
    [kamba_characters]). *)
Definition kamba_characters_precheck : list pystr := Eval vm_compute in map u
  ["இராமன்"; "சீதை"; "லட்சுமணன்"; "இராவணன்"; "அனுமன்"; "தசரதன்"]%string.

(** The character names of the per-book detection (the second
    [kamba_characters], assigned inside the loop over the books). *)
Definition kamba_characters : list pystr := Eval vm_compute in map u
  ["இராமன்"; "சீதை"; "லட்சுமணன்"; "இராவணன்"; "அனுமன்"; "தசரதன்";
   "அனுமன்"; "பரதன்"; "சுக்ரீவன்"; "விபீஷணன்"; "கைகேயி"; "வாலி";
   "கும்பகர்ணன்"; "இந்திரஜித்"; "ஜடாயு"; "மாரீசன்"]%string.

(** The two markers of a placeholder verse text. *)
Definition placeholder_plain : pystr := Eval vm_compute in u "திருக்குறள்".
Definition placeholder_bracket : pystr := Eval vm_compute in u "[திருக்குறள்".

Definition thirukkural_title : pystr := Eval vm_compute in u "திருக்குறள்".
Definition kamba_title : pystr := Eval vm_compute in u "கம்ப ராமாயணம்".

(** The third component of an entry of [books_to_search]. *)
Definition default_title (k : book_key_t) : pystr :=
  match k with
  | thirukkural => thirukkural_title
  | kamba_ramayanam => kamba_title
  end.

(** ** Static word sets of [_analyze_sentiment] *)

Definition positive_words : list pystr := Eval vm_compute in map u
  ["மகிழ்ச்சி"; "சந்தோஷம்"; "மகிழ்வு"; "இன்பம்"; "அன்பு"; "பாசம்";
   "நம்பிக்கை"; "தைரியம்"; "ஆர்வம்"; "உற்சாகம்"; "அமைதி"; "நன்மை";
   "நல்ல"; "அழகான"; "சிறந்த"; "மரியாதை"; "நன்றி"; "நட்பு";
   "சிரிப்பு"; "மகிழ்"; "சந்தோஷ"; "இனிமை"; "வெற்றி"; "வளர்ச்சி";
   "ஆரோக்கியம்"; "நலம்"; "செல்வம்"; "புகழ்"; "பெருமை"; "ஆனந்தம்";
   "மகிழ்ந்து"; "சந்தோஷமாக"; "நன்றாக"; "அருமை"; "சிறப்பு";
   "அற்புதம்"; "இனிய"; "நல்வாழ்வு"; "சுகம்"; "இன்"; "பயன்";
   "ஊக்கம்"; "ஆதரவு"; "பாராட்டு"; "வாழ்த்து"; "போற்று"]%string.

Definition negative_words : list pystr := Eval vm_compute in map u
  ["துக்கம்"; "கவலை"; "பயம்"; "கோபம்"; "வருத்தம்"; "ஏமாற்றம்";
   "வெறுப்பு"; "பொறாமை"; "சோர்வு"; "அலுப்பு"; "வெட்கம்"; "துன்பம்";
   "மனபாரம்"; "மனசுமை"; "மனஅழுத்தம்"; "தீமை"; "கெட்ட"; "மோசமாக";
   "வலி"; "நோய்"; "தோல்வி"; "இழப்பு"; "கஷ்டம்"; "சிரமம்";
   "அழுகை"; "கண்ணீர்"; "கசப்பு"; "வேதனை"; "வருந்தி"; "கோபமாக";
   "பாரம்"; "சுமை"; "பளு"; "மன இறுக்கம்"; "அச்சம்"; "பீதி";
   "வெறுப்பு"; "வெறுக்"; "பகை"; "எதிர்"; "கெடு"; "அழி";
   "நஷ்டம்"; "தண்டனை"; "குற்றம்"; "பாவம்"; "தவறு"]%string.

Definition neutral_words : list pystr := Eval vm_compute in map u
  ["செய்"; "போ"; "வா"; "இரு"; "பார்"; "கேள்"; "சொல்"; "எழுது";
   "படி"; "சாப்பிடு"; "குடி"; "தூங்கு"; "நட"; "ஓடு"; "இன்று";
   "நேற்று"; "நாளை"; "இப்போது"; "பிறகு"; "முன்பு"]%string.

(** ** [_fuzzy_search_all_books]: sentence analysis of the query *)

Definition has_modern_verb (query_words : list pystr) : bool :=
  existsb (fun word => existsb (fun ending => endswith word ending) verb_endings)
          query_words.

Definition has_time_indicator (query_words : list pystr) : bool :=
  existsb (fun word => mem word time_indicators) query_words.

Definition has_modern_word (query_words : list pystr) : bool :=
  existsb (fun word => mem word modern_words) query_words.

Definition is_modern_sentence (query_words : list pystr) : bool :=
  let query_word_count := Z.of_nat (List.length query_words) in
  has_modern_verb query_words
  || (has_time_indicator query_words && (2 <=? query_word_count))
  || has_modern_word query_words.

Definition query_word_count (normalized_query : pystr) : Z :=
  Z.of_nat (List.length (split normalized_query)).

(** [normalized_query.count('\n') + 1] *)
Definition query_lines (normalized_query : pystr) : Z :=
  count_char 10 normalized_query + 1.

Definition looks_like_thirukkural (normalized_query : pystr) : bool :=
  (query_lines normalized_query =? 2)
  && ((6 <=? query_word_count normalized_query)
      && (query_word_count normalized_query <=? 10)).

Definition has_kamba_character_precheck (normalized_query : pystr) : bool :=
  existsb (fun char => contains normalized_query char) kamba_characters_precheck.

Definition looks_like_kamba (normalized_query : pystr) : bool :=
  (10 <? query_word_count normalized_query)
  || (2 <? query_lines normalized_query)
  || has_kamba_character_precheck normalized_query.

Definition looks_like_verse (normalized_query : pystr) : bool :=
  looks_like_thirukkural normalized_query || looks_like_kamba normalized_query.

Definition is_short_query (normalized_query : pystr) : bool :=
  query_word_count normalized_query <=? 3.

(** What the sentence analysis hands to the scoring loop. *)
Record verdict := {
  strict_sentence_mode : bool;
  sentence_threshold : Z;
  threshold : Z
}.

(** The length-banded base threshold (the [threshold] argument of the
    Python function is overwritten here before it is ever read). *)
Definition base_threshold (query_length : Z) : Z :=
  if 100 <? query_length then 50
  else if 50 <? query_length then 48
  else 50.

Definition classify_query (normalized_query : pystr) : verdict :=
  let query_length := len normalized_query in
  let query_words := split normalized_query in
  let strict_and_level :=
    if negb (looks_like_verse normalized_query)
       && ((is_modern_sentence query_words
            && (2 <=? query_word_count normalized_query))
           || is_short_query normalized_query)
    then (true, 98)
    else (false, 70) in
  let threshold := base_threshold query_length in
  {| strict_sentence_mode := fst strict_and_level;
     sentence_threshold := snd strict_and_level;
     threshold := if fst strict_and_level then snd strict_and_level
                  else threshold |}.

(** ** [_fuzzy_search_all_books]: per-book structure detection *)

Definition has_kamba_character (normalized_query : pystr) : bool :=
  existsb (fun char => contains normalized_query char) kamba_characters.

Definition is_thirukkural_structure (normalized_query : pystr) : bool :=
  (query_lines normalized_query =? 2)
  && ((6 <=? query_word_count normalized_query)
      && (query_word_count normalized_query <=? 10)).

Definition is_kamba_structure (normalized_query : pystr) : bool :=
  has_kamba_character normalized_query
  || (10 <? query_word_count normalized_query)
  || (2 <? query_lines normalized_query).

(** The boost for one book and the threshold as the book leaves it (the
    assignment to [threshold] outlives the iteration). *)
Definition book_structure (book_key : book_key_t) (normalized_query : pystr)
    (threshold : Z) : Q * Z :=
  if book_key_eqb book_key thirukkural
     && is_thirukkural_structure normalized_query
  then (1.35%Q, Z.min threshold 40)
  else if book_key_eqb book_key kamba_ramayanam
          && is_kamba_structure normalized_query
  then (1.30%Q, Z.min threshold 42)
  else if book_key_eqb book_key thirukkural
          && is_kamba_structure normalized_query
  then (0.75%Q, threshold)
  else if book_key_eqb book_key kamba_ramayanam
          && is_thirukkural_structure normalized_query
  then (0.75%Q, threshold)
  else (1.0%Q, threshold).

(** ** [_fuzzy_search_all_books]: scoring one verse *)

(** [len(common_words) / len(query_words) if query_words else 0] *)
Definition overlap_ratio_of (common_words query_words : list pystr) : Q :=
  match query_words with
  | [] => 0%Q
  | _ => (inject_Z (Z.of_nat (List.length common_words))
          / inject_Z (Z.of_nat (List.length query_words)))%Q
  end.

Definition word_overlap (normalized_query normalized_verse : pystr) : Q :=
  let query_words := to_set (split normalized_query) in
  let verse_words := to_set (split normalized_verse) in
  let common_words := intersection query_words verse_words in
  overlap_ratio_of common_words query_words.

Definition distinct_query_words (normalized_query : pystr) : Z :=
  Z.of_nat (List.length (to_set (split normalized_query))).

(** The substring branch: one text contains the other.  The length tests
    compare exact values; the proportional score is the truncated float
    product. *)
Definition containment_score (normalized_query normalized_verse : pystr) : Q :=
  let query_len := len normalized_query in
  let verse_len := len normalized_verse in
  if Qle_bool (inject_Z verse_len * 0.8) (inject_Z query_len) then 95%Q
  else if Qle_bool (inject_Z verse_len * 0.5) (inject_Z query_len) then 85%Q
  else
    let overlap_ratio := word_overlap normalized_query normalized_verse in
    if Qle_bool 0.5 overlap_ratio then 80%Q
    else inject_Z (py_int (fl (70 * fl overlap_ratio))).

(** The word-overlap validation of a raw fuzzy score [verse_score];
    [n_query_words] is [len(query_words)] for the set of query words and
    [overlap_ratio] the exact quotient of the two counts.  The comparisons
    of a quotient of two counts or lengths with a decimal come out for the
    floats as for the exact values (for counts and lengths below 10^15);
    the products are the rounded products of the floats. *)
Definition fuzzy_validated (verse_score query_len verse_len n_query_words : Z)
    (overlap_ratio : Q) : Z :=
  if 95 <=? verse_score then
    let length_ratio :=
      if 0 <? verse_len then (inject_Z query_len / inject_Z verse_len)%Q
      else 0%Q in
    if Qle_bool 0.6 length_ratio then verse_score
    else if n_query_words <=? 3 then
      (if Qlt_bool overlap_ratio 1.0 then 0 else verse_score)
    else
      (if Qlt_bool overlap_ratio 0.6 then 0 else verse_score)
  else
    if n_query_words <=? 3 then
      (if Qlt_bool overlap_ratio 0.7
       then py_int (fl (inject_Z verse_score * fl overlap_ratio))
       else verse_score)
    else if 85 <=? verse_score then
      (if Qlt_bool overlap_ratio 0.4
       then py_int (fl (fl (inject_Z verse_score * fl overlap_ratio)
                        * fl 1.5))
       else if Qlt_bool overlap_ratio 0.6
       then py_int (fl (inject_Z verse_score * fl 0.85))
       else verse_score)
    else
      (if Qlt_bool overlap_ratio 0.5
       then py_int (fl (fl (inject_Z verse_score * fl overlap_ratio)
                        * fl 1.2))
       else if Qlt_bool overlap_ratio 0.7
       then py_int (fl (inject_Z verse_score * fl 0.65))
       else verse_score).

(** The fuzzy branch: neither equal nor contained. *)
Definition fuzzy_score {F : Fuzz} (normalized_query normalized_verse : pystr) : Z :=
  let token_score := token_set_ratio normalized_query normalized_verse in
  let partial_score := partial_ratio normalized_query normalized_verse in
  let verse_score := Z.max token_score partial_score in
  fuzzy_validated verse_score (len normalized_query) (len normalized_verse)
    (distinct_query_words normalized_query)
    (word_overlap normalized_query normalized_verse).

Definition is_placeholder (verse_text : pystr) : bool :=
  startswith verse_text placeholder_plain
  || startswith verse_text placeholder_bracket.

Definition verse_score_of {F : Fuzz} (kamba_boost : Q)
    (normalized_query verse_text normalized_verse : pystr) : Q :=
  if negb (startswith verse_text placeholder_plain)
     && negb (startswith verse_text placeholder_bracket)
  then
    if eqb normalized_query normalized_verse then (100 * kamba_boost)%Q
    else if contains normalized_verse normalized_query
            || contains normalized_query normalized_verse
    then containment_score normalized_query normalized_verse
    else inject_Z (fuzzy_score normalized_query normalized_verse)
  else 0%Q.

Definition chapter_score_of {F : Fuzz} (normalized_query normalized_chapter : pystr)
    : Z :=
  if len normalized_query <? 30 then
    let chapter_score := partial_ratio normalized_query normalized_chapter in
    if chapter_score <? 70 then 0 else chapter_score
  else 0.

(** [score = max(verse_score, chapter_score)] followed by the sentence
    rejection. *)
Definition final_score (strict_sentence_mode : bool) (verse_score : Q)
    (chapter_score : Z) : Q :=
  let score := py_max verse_score (inject_Z chapter_score) in
  if strict_sentence_mode && Qlt_bool score 95 then 0%Q else score.

(** The score of one verse, up to and including the sentence rejection.
    The meaning is read and normalized, as in the source, and then left
    unused. *)
Definition candidate_score {F : Fuzz} (strict_sentence_mode : bool)
    (kamba_boost : Q) (normalized_query : pystr) (verse_data : verse_record)
    : Q :=
  let verse_text := get_str (verse verse_data) [] in
  let meaning_text := get_str (meaning verse_data) [] in
  let chapter_text :=
    get_str (chapter verse_data) (get_str (kandam verse_data) []) in
  let normalized_verse := normalize_text verse_text in
  let normalized_meaning := normalize_text meaning_text in
  let normalized_chapter := normalize_text chapter_text in
  let verse_score :=
    verse_score_of kamba_boost normalized_query verse_text normalized_verse in
  let chapter_score := chapter_score_of normalized_query normalized_chapter in
  final_score strict_sentence_mode verse_score chapter_score.

(** ** [_fuzzy_search_all_books]: the loops over books and verses *)

(** The dictionary the search returns: the verse's own keys ([m_record])
    and the keys the search writes over them.  [boost_applied] is absent
    from the dictionary of a verse-number hit. *)
Record match_result := {
  m_record : verse_record;
  match_score : Q;
  m_verse_number : pystr;
  book_key : book_key_t;
  book : pystr;
  boost_applied : option Q
}.

(** The local variables the loops update. *)
Record search_state := {
  best_match : option match_result;
  best_score : Q;
  cur_threshold : Z
}.

(** One pass of a loop body either leaves the function ([return]) or goes
    on with the updated locals. *)
Inductive step_result :=
| Return (m : match_result)
| Next (st : search_state).

Definition visit_verse {F : Fuzz} (key : book_key_t) (book_name : pystr)
    (kamba_boost : Q) (strict_sentence_mode is_number_search : bool)
    (normalized_query : pystr) (st : search_state) (verse_data : verse_record)
    : step_result :=
  let verse_num := verse_num_of verse_data in
  if is_number_search then
    if eqb (strip normalized_query) verse_num
    then Return {| m_record := verse_data; match_score := 100;
                   m_verse_number := verse_num; book_key := key;
                   book := book_name; boost_applied := None |}
    else Next st
  else
    let score :=
      candidate_score strict_sentence_mode kamba_boost normalized_query
        verse_data in
    if Qlt_bool (best_score st) score
       && Qle_bool (inject_Z (cur_threshold st)) score
    then Next {| best_match :=
                   Some {| m_record := verse_data; match_score := score;
                           m_verse_number := verse_num; book_key := key;
                           book := book_name;
                           boost_applied := Some kamba_boost |};
                 best_score := score;
                 cur_threshold := cur_threshold st |}
    else Next st.

Fixpoint search_verses {F : Fuzz} (key : book_key_t) (book_name : pystr)
    (kamba_boost : Q) (strict_sentence_mode is_number_search : bool)
    (normalized_query : pystr) (verses_to_search : list verse_record)
    (st : search_state) : step_result :=
  match verses_to_search with
  | [] => Next st
  | verse_data :: rest =>
    match visit_verse key book_name kamba_boost strict_sentence_mode
            is_number_search normalized_query st verse_data with
    | Return m => Return m
    | Next st' =>
      search_verses key book_name kamba_boost strict_sentence_mode
        is_number_search normalized_query rest st'
    end
  end.

Definition db_of (a : analyzer) (key : book_key_t) : book_db :=
  match key with
  | thirukkural => thirukkural_db a
  | kamba_ramayanam => kamba_db a
  end.

(** The body of the loop over [books_to_search]. *)
Definition search_book {F : Fuzz} (a : analyzer)
    (strict_sentence_mode is_number_search : bool) (normalized_query : pystr)
    (key : book_key_t) (st : search_state) : step_result :=
  let book_db := db_of a key in
  match verses book_db with
  | [] => Next st
  | verses_to_search =>
    let book_name := get_str (title (db_metadata book_db)) (default_title key) in
    let '(kamba_boost, threshold) :=
      book_structure key normalized_query (cur_threshold st) in
    search_verses key book_name kamba_boost strict_sentence_mode
      is_number_search normalized_query verses_to_search
      {| best_match := best_match st; best_score := best_score st;
         cur_threshold := threshold |}
  end.

Definition books_to_search : list book_key_t := [thirukkural; kamba_ramayanam].

Fixpoint search_books {F : Fuzz} (a : analyzer)
    (strict_sentence_mode is_number_search : bool) (normalized_query : pystr)
    (books : list book_key_t) (st : search_state) : step_result :=
  match books with
  | [] => Next st
  | key :: rest =>
    match search_book a strict_sentence_mode is_number_search
            normalized_query key st with
    | Return m => Return m
    | Next st' =>
      search_books a strict_sentence_mode is_number_search normalized_query
        rest st'
    end
  end.

Definition _fuzzy_search_all_books {F : Fuzz} (a : analyzer) (query : pystr)
    : option match_result :=
  let normalized_query := normalize_text query in
  let v := classify_query normalized_query in
  let is_number_search := isdigit (strip normalized_query) in
  match search_books a (strict_sentence_mode v) is_number_search
          normalized_query books_to_search
          {| best_match := None; best_score := 0; cur_threshold := threshold v |}
  with
  | Return m => Some m
  | Next st =>
    match best_match st with
    | Some m =>
      if strict_sentence_mode v && Qlt_bool (match_score m) 95
      then None
      else Some m
    | None => None
    end
  end.

(** ** [_analyze_sentiment] *)

Inductive sentiment_label := Neutral | Positive | Negative | Mixed.

Record sentiment_result := {
  label : sentiment_label;
  score : Q;
  n_positive_words : Z;
  n_negative_words : Z;
  n_neutral_words : Z
}.

(** [any(k in word for k in keywords)] *)
Definition matches_any (keywords : list pystr) (word : pystr) : bool :=
  existsb (fun k => contains word k) keywords.

(** [sum(1 for word in words if any(k in word for k in keywords))] *)
Definition count_matching (keywords words : list pystr) : Z :=
  Z.of_nat (List.length (filter (matches_any keywords) words)).

Definition _analyze_sentiment (text : pystr) : sentiment_result :=
  let words := split text in
  let positive_count := count_matching positive_words words in
  let negative_count := count_matching negative_words words in
  let neutral_count := count_matching neutral_words words in
  let total_sentiment_words := positive_count + negative_count in
  let '(sentiment, score) :=
    if total_sentiment_words =? 0 then (Neutral, 0.5%Q)
    else if negative_count <? positive_count then
      (Positive,
       fl (fl 0.7
           + fl (inject_Z positive_count
                 / inject_Z (total_sentiment_words * 2))))
    else if positive_count <? negative_count then
      (Negative,
       fl (fl 0.3
           - fl (inject_Z negative_count
                 / inject_Z (total_sentiment_words * 2))))
    else (Mixed, 0.5%Q) in
  {| label := sentiment; score := py_round2 score;
     n_positive_words := positive_count;
     n_negative_words := negative_count;
     n_neutral_words := neutral_count |}.

(** ** [analyze] and [_generate_generic_analysis] *)

(** The dictionary [analyze] builds from a match. *)
Record found_result := {
  source : book_key_t;
  r_book : pystr;
  r_section : pystr;
  r_chapter : pystr;
  number : pystr;
  r_verse : pystr;
  r_meaning : pystr;
  r_summary : pystr;
  confidence : Q;
  r_english_meaning : option pystr;
  r_theme : option pystr;
  r_moral : option pystr;
  r_author : option pystr;
  r_characters : option (list pystr);
  book_metadata : metadata
}.

(** The results of [analyze]: the two early returns, a match, and the
    generic analysis (source ['random_text'], confidence 0.0) with its
    sentiment block; the gloss text of the generic analysis, built from the
    static dictionary, is not carried. *)
Inductive analysis_result :=
| EmptyText
| InvalidText
| Found (r : found_result)
| Generic (sentiment : sentiment_result).

Definition _generate_generic_analysis (text : pystr) : analysis_result :=
  Generic (_analyze_sentiment text).

Definition found_of_match (a : analyzer) (m : match_result) : found_result :=
  let book_meta := db_metadata (db_of a (book_key m)) in
  {| source := book_key m;
     r_book := get_str (tamil_book_name (m_record m)) (book m);
     r_section := get_str (section (m_record m)) [];
     r_chapter := get_str (chapter (m_record m)) [];
     number := m_verse_number m;
     r_verse := get_str (verse (m_record m)) [];
     r_meaning := get_str (meaning (m_record m)) [];
     r_summary := get_str (summary (m_record m)) [];
     confidence := (match_score m / 100)%Q;
     r_english_meaning := english_meaning (m_record m);
     r_theme := theme (m_record m);
     r_moral := moral (m_record m);
     r_author := author (m_record m);
     r_characters := characters (m_record m);
     book_metadata :=
       {| title := None;
          tamil_title :=
            Some (get_str (tamil_title book_meta)
                    (get_str (title book_meta) []));
          english_title := Some (get_str (english_title book_meta) []);
          meta_author := Some (get_str (meta_author book_meta) []);
          period := Some (get_str (period book_meta) []);
          category := Some (get_str (category book_meta) []) |} |}.

Definition analyze {F : Fuzz} (a : analyzer) (text : pystr) : analysis_result :=
  if isEmpty text || (len (strip text) =? 0) then EmptyText
  else
    let cleaned_text := preprocess_for_analysis text in
    if isEmpty cleaned_text then InvalidText
    else
      match _fuzzy_search_all_books a cleaned_text with
      | Some m => Found (found_of_match a m)
      | None => _generate_generic_analysis cleaned_text
      end.

(** The ['found'] and ['confidence'] keys of a result ([confidence] is
    absent from the two early returns). *)
Definition found (r : analysis_result) : bool :=
  match r with Found _ => true | _ => false end.

Definition confidence_of (r : analysis_result) : option Q :=
  match r with
  | Found f => Some (confidence f)
  | Generic _ => Some 0%Q
  | _ => None
  end.

(** A database with only its verse list, a verse with only its text (and
    number), and an analyzer over two verse lists: shorthands for writing
    concrete corpora. *)
Definition verse_of_text (n : Z) (text : pystr) : verse_record :=
  {| verse_number := Some (VInt n); verse := Some text; meaning := None;
     chapter := None; kandam := None; section := None; summary := None;
     english_meaning := None; theme := None; moral := None; author := None;
     characters := None; tamil_book_name := None |}.

Definition db_of_verses (vs : list verse_record) : book_db :=
  {| verses := vs; db_metadata := empty_metadata |}.

(** A stand-in for the similarity package that finds nothing similar; the
    package itself returns 0 whenever one of the two strings is empty. *)
Definition no_similarity : Fuzz :=
  {| token_set_ratio := fun _ _ => 0; partial_ratio := fun _ _ => 0 |}.

(** ** The containment banding as the specification words it

    The score of a containment match read off the specification: banded by
    the length of the shorter text relative to the longer of the two.  It is
    compared with [containment_score], the banding of the source. *)
Definition spec_containment_score (normalized_query normalized_verse : pystr)
    : Q :=
  let longer := Z.max (len normalized_query) (len normalized_verse) in
  let shorter := Z.min (len normalized_query) (len normalized_verse) in
  if Qle_bool (inject_Z longer * 0.8) (inject_Z shorter) then 95%Q
  else if Qle_bool (inject_Z longer * 0.5) (inject_Z shorter) then 85%Q
  else
    let overlap_ratio := word_overlap normalized_query normalized_verse in
    if Qle_bool 0.5 overlap_ratio then 80%Q
    else (70 * overlap_ratio)%Q.

(** ** Corpora that differ only in the meaning fields *)

(** The verse with its ['meaning'] key replaced. *)
Definition with_meaning (m : option pystr) (v : verse_record) : verse_record :=
  {| verse_number := verse_number v; verse := verse v; meaning := m;
     chapter := chapter v; kandam := kandam v; section := section v;
     summary := summary v; english_meaning := english_meaning v;
     theme := theme v; moral := moral v; author := author v;
     characters := characters v; tamil_book_name := tamil_book_name v |}.

Definition forget_meaning : verse_record -> verse_record := with_meaning None.

Definition same_but_meanings (db1 db2 : book_db) : Prop :=
  map forget_meaning (verses db1) = map forget_meaning (verses db2)
  /\ db_metadata db1 = db_metadata db2.

(** Two snapshots of the corpora that differ at most in meaning fields. *)
Definition differ_only_in_meanings (a1 a2 : analyzer) : Prop :=
  same_but_meanings (thirukkural_db a1) (thirukkural_db a2)
  /\ same_but_meanings (kamba_db a1) (kamba_db a2).

(** A match and a result of [analyze] with the copied meaning left out:
    what remains is the decision, the verse selected and its score. *)
Definition forget_meaning_match (m : match_result) : match_result :=
  {| m_record := forget_meaning (m_record m); match_score := match_score m;
     m_verse_number := m_verse_number m; book_key := book_key m;
     book := book m; boost_applied := boost_applied m |}.

Definition forget_meaning_found (r : found_result) : found_result :=
  {| source := source r; r_book := r_book r; r_section := r_section r;
     r_chapter := r_chapter r; number := number r; r_verse := r_verse r;
     r_meaning := []; r_summary := r_summary r; confidence := confidence r;
     r_english_meaning := r_english_meaning r; r_theme := r_theme r;
     r_moral := r_moral r; r_author := r_author r;
     r_characters := r_characters r; book_metadata := book_metadata r |}.

Definition forget_meaning_result (r : analysis_result) : analysis_result :=
  match r with
  | Found f => Found (forget_meaning_found f)
  | other => other
  end.

(** ** Vocabulary for the properties of the search *)

(** The structural multiplier a book receives for a query (the first
    component of [book_structure], which does not depend on the threshold
    passed in). *)
Definition kamba_boost_for (key : book_key_t) (normalized_query : pystr) : Q :=
  fst (book_structure key normalized_query 0).

(** The book is given the mismatch penalty 0.75 for this query. *)
Definition penalised (key : book_key_t) (normalized_query : pystr) : bool :=
  Qeq_bool (kamba_boost_for key normalized_query) 0.75.

(** The score a verse of book [key] obtains for a query, sentence
    rejection included. *)
Definition score_in {F : Fuzz} (strict_sentence_mode : bool) (key : book_key_t)
    (normalized_query : pystr) (verse_data : verse_record) : Q :=
  candidate_score strict_sentence_mode (kamba_boost_for key normalized_query)
    normalized_query verse_data.

(** The best match and the best score are kept in step. *)
Definition state_ok (st : search_state) : Prop :=
  match best_match st with
  | Some m => match_score m = best_score st
  | None => best_score st = 0%Q
  end.

(** Example texts: the first couplet of the Thirukkural, and a gloss. *)
Definition kural_1 : pystr :=
  Eval vm_compute in u "அகர முதல எழுத்தெல்லாம் ஆதி பகவன் முதற்றே உலகு".
Definition kural_1_gloss : pystr :=
  Eval vm_compute in u "எழுத்துக்கு அகரம் முதல் போல, உலகிற்கு இறைவன் முதல்.".

(** An eleven-word text: the first couplet followed by the opening of
    the second. *)
Definition eleven_words : pystr :=
  Eval vm_compute in
    u "அகர முதல எழுத்தெல்லாம் ஆதி பகவன் முதற்றே உலகு கற்க கசடறக் கற்பவை கற்றபின்".

(** A Kamba-shaped fragment (it names a character of the epic), the same
    fragment followed by one more word, and followed by five more words. *)
Definition rama_fragment : pystr :=
  Eval vm_compute in u "இராமன் வனம் புகுந்தான் என்று கம்பன் பாடினான்".
Definition rama_fragment_plus_one : pystr :=
  Eval vm_compute in u "இராமன் வனம் புகுந்தான் என்று கம்பன் பாடினான் அன்று".
Definition rama_fragment_plus_five : pystr :=
  Eval vm_compute in
    u "இராமன் வனம் புகுந்தான் என்று கம்பன் பாடினான் அவன் பின்னே இளையவனும் சென்றான்".

(** A modern first-person sentence that names Bharata, and the same
    sentence followed by one more word. *)
Definition bharata_sentence : pystr :=
  Eval vm_compute in u "பரதன் அரண்மனைக்கு நான் நடந்து வந்தேன்".
Definition bharata_sentence_plus_one : pystr :=
  Eval vm_compute in u "பரதன் அரண்மனைக்கு நான் நடந்து வந்தேன் அன்று".

(** The first couplet stored under its number written in Tamil digits. *)
Definition kural_1_tamil_number : verse_record :=
  {| verse_number := Some (VStr (u "௧")); verse := Some kural_1;
     meaning := None; chapter := None; kandam := None; section := None;
     summary := None; english_meaning := None; theme := None;
     moral := None; author := None; characters := None;
     tamil_book_name := None |}.

(** ** Vocabulary for the properties of the loops *)

(** The structural pre-check, spelled out on the line and word counts. *)
Definition verse_shaped (normalized_query : pystr) : Prop :=
  (query_lines normalized_query = 2
   /\ 6 <= query_word_count normalized_query <= 10)
  \/ has_kamba_character_precheck normalized_query = true
  \/ 10 < query_word_count normalized_query
  \/ 2 < query_lines normalized_query.

(** The locals of two runs agree up to the meanings copied into the best
    match. *)
Definition states_agree (s1 s2 : search_state) : Prop :=
  option_map forget_meaning_match (best_match s1)
  = option_map forget_meaning_match (best_match s2)
  /\ best_score s1 = best_score s2
  /\ cur_threshold s1 = cur_threshold s2.

Definition steps_agree (r1 r2 : step_result) : Prop :=
  match r1, r2 with
  | Return m1, Return m2 => forget_meaning_match m1 = forget_meaning_match m2
  | Next s1, Next s2 => states_agree s1 s2
  | _, _ => False
  end.

(** What one stretch of the text search does to the locals: the state
    stays in step, the best score does not decrease, the threshold does not
    increase. *)
Definition advances (st st' : search_state) : Prop :=
  (state_ok st -> state_ok st')
  /\ (best_score st <= best_score st')%Q
  /\ cur_threshold st' <= cur_threshold st.

(** What a verse-number hit looks like. *)
Definition number_hit (a : analyzer) (nq : pystr) (key : book_key_t)
    (m : match_result) : Prop :=
  match_score m = 100%Q
  /\ book_key m = key
  /\ m_verse_number m = strip nq
  /\ In (m_record m) (verses (db_of a key))
  /\ verse_num_of (m_record m) = strip nq.

(** The best score is never negative and a best match scores above 0 and
    at most 130. *)
Definition bounded (st : search_state) : Prop :=
  (0 <= best_score st)%Q
  /\ match best_match st with
     | Some m => (0 < match_score m <= 130)%Q
     | None => True
     end.

Definition outcome_bounded (r : step_result) : Prop :=
  match r with
  | Return m => (0 < match_score m <= 130)%Q
  | Next st => bounded st
  end.

(** ** Vocabulary for the properties of the text processor *)

(** A word has no whitespace; a Tamil word is a non-empty run of Tamil
    characters. *)
Definition space_free (w : pystr) : Prop :=
  forall c, In c w -> is_space c = false.

Definition tamil_word (w : pystr) : Prop :=
  w <> [] /\ forall c, In c w -> is_tamil c = true.

(** A text is blank when it is empty or all whitespace. *)
Definition blank (text : pystr) : Prop :=
  forall c, In c text -> is_space c = true.

Definition nonempty (w : pystr) : bool := negb (isEmpty w).

(** The characters [normalize_text] keeps. *)
Definition kept (c : Z) : bool := is_tamil c || is_space c.

(** A text that ends in a character that is not whitespace. *)
Definition ends_in_word (cur : pystr) : Prop :=
  exists s c, cur = s ++ [c] /\ is_space c = false.

(** ** Vocabulary for the properties of a returned match *)

(** The match reports a verse stored in the book it names, under that
    verse's number. *)
Definition stored_match (a : analyzer) (m : match_result) : Prop :=
  In (m_record m) (verses (db_of a (book_key m)))
  /\ m_verse_number m = verse_num_of (m_record m).

(** What the locals of the search satisfy throughout: the threshold never
    falls below [floor], and a best match (there is none in a verse-number
    search) is a stored verse that cleared the threshold in force, carries
    that verse's own score and records the multiplier of its book. *)
Definition search_inv {F : Fuzz} (a : analyzer)
    (strict is_number_search : bool) (nq : pystr) (floor : Z)
    (st : search_state) : Prop :=
  floor <= cur_threshold st
  /\ forall m, best_match st = Some m ->
       is_number_search = false
       /\ stored_match a m
       /\ (inject_Z (cur_threshold st) <= match_score m)%Q
       /\ match_score m = score_in strict (book_key m) nq (m_record m)
       /\ boost_applied m = Some (kamba_boost_for (book_key m) nq).

(** An early return is a verse-number hit. *)
Definition outcome_inv {F : Fuzz} (a : analyzer)
    (strict is_number_search : bool) (nq : pystr) (floor : Z)
    (r : step_result) : Prop :=
  match r with
  | Return m => is_number_search = true
                /\ stored_match a m /\ match_score m = 100%Q
                /\ boost_applied m = None
  | Next st => search_inv a strict is_number_search nq floor st
  end.

(** ** The direct lookups: [search_by_book_and_number] and [search_by_author] *)

(** The book keys as the strings a caller passes. *)
Definition thirukkural_key : pystr := Eval vm_compute in u "thirukkural".
Definition kamba_ramayanam_key : pystr :=
  Eval vm_compute in u "kamba_ramayanam".

(** The copy of a verse that [search_by_book_and_number] returns: the
    verse's own keys ([l_record]) and the two keys written over them. *)
Record lookup_result := {
  l_record : verse_record;
  l_verse_number : pystr;
  l_book_key : pystr
}.

(** [verse_data.get('verse_number') == verse_number] for an integer
    [verse_number]: an absent key ([None]) and a stored string are not
    equal to an integer. *)
Definition number_is (verse_data : verse_record) (verse_number' : Z) : bool :=
  match verse_number verse_data with
  | Some (VInt k) => k =? verse_number'
  | _ => false
  end.

(** [self.thirukkural_db if book_key == 'thirukkural' else self.kamba_db] *)
Definition select_db (a : analyzer) (book_key' : pystr) : book_db :=
  if eqb book_key' thirukkural_key then thirukkural_db a else kamba_db a.

(** The loop over the verses of the selected database. *)
Fixpoint lookup_verses (book_key' : pystr) (verse_number' : Z)
    (verses' : list verse_record) : option lookup_result :=
  match verses' with
  | [] => None
  | verse_data :: rest =>
    if number_is verse_data verse_number'
    then Some {| l_record := verse_data;
                 l_verse_number := str_of_int verse_number';
                 l_book_key := book_key' |}
    else lookup_verses book_key' verse_number' rest
  end.

Definition search_by_book_and_number (a : analyzer) (book_key' : pystr)
    (verse_number' : Z) : option lookup_result :=
  lookup_verses book_key' verse_number' (verses (select_db a book_key')).

(** [search_by_author]: the keys of the books whose metadata author
    contains the given name. *)
Definition search_by_author (a : analyzer) (author' : pystr) : list pystr :=
  (if contains (get_str (meta_author (db_metadata (thirukkural_db a))) [])
        author'
   then [thirukkural_key] else [])
  ++ (if contains (get_str (meta_author (db_metadata (kamba_db a))) []) author'
      then [kamba_ramayanam_key] else []).

(** A text written with characters below the Tamil block only. *)
Definition below_tamil (text : pystr) : Prop :=
  forall c, In c text -> c < 2944.

(** ** models/semantic_analyzer.py: the single-book analyzer *)

Module SemanticAnalyzer.

(** One verse object of the ['thirukkural'] object of the database file,
    with the keys of the sample database, and the two keys the analyzer
    writes into a verse object, ['match_score'] and ['verse_number']; a key
    that is absent is [None]. *)
Record entry := {
  e_verse : option pystr;
  e_book : option pystr;
  e_section : option pystr;
  e_chapter : option pystr;
  e_number : option pystr;
  e_meaning : option pystr;
  e_summary : option pystr;
  e_match_score : option Z;
  e_verse_number : option pystr
}.

Definition no_keys : entry :=
  {| e_verse := None; e_book := None; e_section := None; e_chapter := None;
     e_number := None; e_meaning := None; e_summary := None;
     e_match_score := None; e_verse_number := None |}.

(** [self.database]: the verse objects under their keys, in the order of
    the file.  The analyzer hands verse objects out by reference and writes
    into them, so the database is the store of these objects and a
    position of the list is the reference to the object kept there. *)
Definition database := list (pystr * entry).

Definition deref (db : database) (ref : nat) : entry :=
  nth ref (map snd db) no_keys.

(** Writing through a reference changes the object in the store. *)
Fixpoint write (db : database) (ref : nat) (f : entry -> entry) : database :=
  match db, ref with
  | [], _ => []
  | (k, e) :: rest, O => (k, f e) :: rest
  | item :: rest, S r => item :: write rest r f
  end.

(** [d['match_score'] = score] and [d['verse_number'] = verse_num] *)
Definition set_match_score (score : Z) (e : entry) : entry :=
  {| e_verse := e_verse e; e_book := e_book e; e_section := e_section e;
     e_chapter := e_chapter e; e_number := e_number e;
     e_meaning := e_meaning e; e_summary := e_summary e;
     e_match_score := Some score; e_verse_number := e_verse_number e |}.

Definition set_verse_number (verse_num : pystr) (e : entry) : entry :=
  {| e_verse := e_verse e; e_book := e_book e; e_section := e_section e;
     e_chapter := e_chapter e; e_number := e_number e;
     e_meaning := e_meaning e; e_summary := e_summary e;
     e_match_score := e_match_score e; e_verse_number := Some verse_num |}.

(** The locals of [_fuzzy_search] together with the store; [best_match] is
    a reference into the store. *)
Record locals := {
  best_match : option nat;
  best_score : Z;
  store : database
}.

(** The body of the loop over [self.database.items()], for the item at
    position [ref]. *)
Definition visit {F : Fuzz} (normalized_query : pystr) (threshold : Z)
    (st : locals) (ref : nat) : locals :=
  match nth_error (store st) ref with
  | None => st
  | Some (verse_num, verse_data) =>
    let verse_text := get_str (e_verse verse_data) [] in
    let normalized_verse := normalize_text verse_text in
    let score := partial_ratio normalized_query normalized_verse in
    if (best_score st <? score) && (threshold <=? score)
    then {| best_match := Some ref;
            best_score := score;
            store := write (write (store st) ref (set_match_score score))
                       ref (set_verse_number verse_num) |}
    else st
  end.

(** [_fuzzy_search]: the store as the search leaves it, and the reference
    it returns. *)
Definition _fuzzy_search {F : Fuzz} (db : database) (query : pystr)
    (threshold : Z) : database * option nat :=
  let normalized_query := normalize_text query in
  let st :=
    fold_left (visit normalized_query threshold) (seq 0 (List.length db))
      {| best_match := None; best_score := 0; store := db |} in
  (store st, best_match st).

(** The dictionary [analyze] builds from a match. *)
Record found_result := {
  r_book : pystr;
  r_section : pystr;
  r_chapter : pystr;
  number : pystr;
  r_verse : pystr;
  r_meaning : pystr;
  r_summary : pystr;
  confidence : Q
}.

(** The dictionary of [_generate_generic_analysis] (source ['generic']):
    the keys that depend on the text, and the confidence. *)
Record generic_result := {
  g_verse : pystr;
  g_meaning : pystr;
  g_confidence : Q
}.

Inductive analysis_result :=
| EmptyText
| InvalidText
| Found (r : found_result)
| Generic (g : generic_result).

Definition generic_meaning_prefix : pystr := Eval vm_compute in u "இந்த உரை ".
Definition generic_meaning_suffix : pystr :=
  Eval vm_compute in
    u " சொற்களைக் கொண்டுள்ளது. திருக்குறள் தரவுத்தளத்தில் இல்லை.".

Definition _generate_generic_analysis (text : pystr) : analysis_result :=
  let word_count := count_words text in
  Generic {| g_verse := text;
             g_meaning := generic_meaning_prefix ++ str_of_int word_count
                          ++ generic_meaning_suffix;
             g_confidence := 0.3 |}.

(** The dictionary built from the matched verse object, read through the
    reference after the search. *)
Definition found_of_entry (match' : entry) : found_result :=
  {| r_book := get_str (e_book match') thirukkural_title;
     r_section := get_str (e_section match') [];
     r_chapter := get_str (e_chapter match') [];
     number := get_str (e_verse_number match') [];
     r_verse := get_str (e_verse match') [];
     r_meaning := get_str (e_meaning match') [];
     r_summary := get_str (e_summary match') [];
     confidence :=
       (inject_Z (match e_match_score match' with
                  | Some s => s
                  | None => 0
                  end) / 100)%Q |}.

(** [analyze]: the store as the call leaves it, and the result. *)
Definition analyze {F : Fuzz} (db : database) (text : pystr)
    : database * analysis_result :=
  if isEmpty text || (len (strip text) =? 0) then (db, EmptyText)
  else
    let cleaned_text := preprocess_for_analysis text in
    if isEmpty cleaned_text then (db, InvalidText)
    else
      let '(db', match') := _fuzzy_search db cleaned_text 70 in
      match match' with
      | Some ref => (db', Found (found_of_entry (deref db' ref)))
      | None => (db', _generate_generic_analysis cleaned_text)
      end.

(** [self.database.get(key)]: the reference stored under a key. *)
Fixpoint position (key : pystr) (db : database) : option nat :=
  match db with
  | [] => None
  | (k, _) :: rest =>
    if eqb k key then Some O else option_map S (position key rest)
  end.

(** The truth value of a verse object: false for the object without
    keys. *)
Definition has_keys (e : entry) : bool :=
  match e_verse e, e_book e, e_section e, e_chapter e, e_number e,
        e_meaning e, e_summary e, e_match_score e, e_verse_number e with
  | None, None, None, None, None, None, None, None, None => false
  | _, _, _, _, _, _, _, _, _ => true
  end.

(** [search_by_number]: the store as the call leaves it, and the reference
    it returns. *)
Definition search_by_number (db : database) (verse_number' : Z)
    : database * option nat :=
  match position (str_of_int verse_number') db with
  | None => (db, None)
  | Some ref =>
    if has_keys (deref db ref)
    then (write db ref (set_verse_number (str_of_int verse_number')), Some ref)
    else (db, Some ref)
  end.

(** The order of [str]: by code points, a proper prefix first. *)
Fixpoint str_ltb (a b : pystr) : bool :=
  match a, b with
  | _, [] => false
  | [], _ :: _ => true
  | x :: a', y :: b' => (x <? y) || ((x =? y) && str_ltb a' b')
  end.

(** [sorted] on a list of distinct strings. *)
Fixpoint insert_sorted (s : pystr) (l : list pystr) : list pystr :=
  match l with
  | [] => [s]
  | h :: t => if str_ltb h s then h :: insert_sorted s t else s :: l
  end.

Definition sorted (l : list pystr) : list pystr :=
  fold_right insert_sorted [] l.

(** [get_all_sections] *)
Definition get_all_sections (db : database) : list pystr :=
  let sections := to_set (map (fun item => get_str (e_section (snd item)) []) db) in
  sorted sections.

(** *** Vocabulary for the properties of the single-book analyzer *)

(** The score of a verse object for a normalized query. *)
Definition score_of {F : Fuzz} (normalized_query : pystr) (e : entry) : Z :=
  partial_ratio normalized_query (normalize_text (get_str (e_verse e) [])).

(** Two verse objects agree on the keys of the database file: they differ
    at most in the two keys the analyzer writes. *)
Definition same_text (e1 e2 : entry) : Prop :=
  e_verse e1 = e_verse e2 /\ e_book e1 = e_book e2
  /\ e_section e1 = e_section e2 /\ e_chapter e1 = e_chapter e2
  /\ e_number e1 = e_number e2 /\ e_meaning e1 = e_meaning e2
  /\ e_summary e1 = e_summary e2.

(** Two stores hold the same verses under the same keys in the same
    order. *)
Definition same_verses (db1 db2 : database) : Prop :=
  Forall2 (fun i1 i2 => fst i1 = fst i2 /\ same_text (snd i1) (snd i2))
    db1 db2.

(** The verse at a position beats every earlier verse and clears the
    threshold: the positions the search writes to. *)
Definition record_at {F : Fuzz} (normalized_query : pystr) (threshold : Z)
    (db : database) (ref : nat) : Prop :=
  (ref < List.length db)%nat
  /\ threshold <= score_of normalized_query (deref db ref)
  /\ 0 < score_of normalized_query (deref db ref)
  /\ forall j, (j < ref)%nat ->
       score_of normalized_query (deref db j)
       < score_of normalized_query (deref db ref) \/
       score_of normalized_query (deref db j) < threshold.

(** The verse object as the search leaves it when it writes to it: the
    score of the verse and the key it is stored under. *)
Definition written_entry {F : Fuzz} (normalized_query : pystr) (key : pystr)
    (e : entry) : entry :=
  set_verse_number key (set_match_score (score_of normalized_query e) e).

(** The locals and the store when the loop has passed the first [i]
    positions of the database [db] it started from. *)
Definition loop_inv {F : Fuzz} (normalized_query : pystr) (threshold : Z)
    (db : database) (i : nat) (st : locals) : Prop :=
  List.length (store st) = List.length db
  /\ (forall j, (i <= j)%nat -> nth_error (store st) j = nth_error db j)
  /\ (forall j k e, (j < i)%nat -> nth_error db j = Some (k, e) ->
        (record_at normalized_query threshold db j ->
         nth_error (store st) j
         = Some (k, written_entry normalized_query k e))
        /\ (~ record_at normalized_query threshold db j ->
            nth_error (store st) j = Some (k, e)))
  /\ 0 <= best_score st
  /\ (forall j, (j < i)%nat -> (j < List.length db)%nat ->
        threshold <= score_of normalized_query (deref db j) ->
        score_of normalized_query (deref db j) <= best_score st)
  /\ match best_match st with
     | None => best_score st = 0
     | Some r =>
       (r < i)%nat /\ record_at normalized_query threshold db r
       /\ best_score st = score_of normalized_query (deref db r)
     end.

(** Every ['verse_number'] written into a verse object is the key the
    object is stored under. *)
Definition keys_consistent (db : database) : Prop :=
  forall k e, In (k, e) db ->
    e_verse_number e = None \/ e_verse_number e = Some k.

(** A list of strings in strictly increasing order. *)
Fixpoint increasing (l : list pystr) : Prop :=
  match l with
  | a :: (b :: _) as t => str_ltb a b = true /\ increasing t
  | _ => True
  end.

(** A verse object with its text only. *)
Definition text_entry (text : pystr) : entry :=
  {| e_verse := Some text; e_book := None; e_section := None;
     e_chapter := None; e_number := None; e_meaning := None;
     e_summary := None; e_match_score := None; e_verse_number := None |}.

(** A stand-in for the similarity package that scores 100 on equal
    strings and 0 otherwise. *)
Definition equality_only : Fuzz :=
  {| token_set_ratio := fun a b => if eqb a b then 100 else 0;
     partial_ratio := fun a b => if eqb a b then 100 else 0 |}.

End SemanticAnalyzer.

(** ** Example inputs for the scoring of one verse *)


(** A two-word sentence that names Bharata. *)
Definition bharata_came : pystr := Eval vm_compute in u "பரதன் வந்தான்".

(** A verse entry whose text is a heading without any Tamil character. *)
Definition heading_entry : verse_record :=
  {| verse_number := Some (VInt 1); verse := Some (u "Chapter 1");
     meaning := None; chapter := None; kandam := None; section := None;
     summary := None; english_meaning := None; theme := None;
     moral := None; author := None; characters := None;
     tamil_book_name := None |}.

(** A one-word verse and an eight-word query that contains it. *)
Definition aram : pystr := Eval vm_compute in u "அறம்".
Definition eight_words : pystr :=
  Eval vm_compute in u "அறம் செய விரும்பு ஆறுவது சினம் இயல்வது கரவேல் ஈவது".


(** * Properties *)

(** ** Arithmetic of the embedded numbers *)

Lemma Qlt_bool_iff (a b : Q) : Qlt_bool a b = true <-> (a < b)%Q.
Proof.
  unfold Qlt_bool. rewrite negb_true_iff.
  split; intro H.
  - apply Qnot_le_lt. intro L. apply Qle_bool_iff in L. congruence.
  - destruct (Qle_bool b a) eqn:E; [|reflexivity].
    apply Qle_bool_iff in E. exfalso. apply (Qlt_not_le _ _ H E).
Qed.

Lemma Qlt_bool_false_iff (a b : Q) : Qlt_bool a b = false <-> (b <= a)%Q.
Proof.
  unfold Qlt_bool. rewrite negb_false_iff. apply Qle_bool_iff.
Qed.

Lemma Qle_bool_false_iff (a b : Q) : Qle_bool a b = false <-> (b < a)%Q.
Proof.
  split; intro H.
  - apply Qnot_le_lt. intro L. apply Qle_bool_iff in L. congruence.
  - destruct (Qle_bool a b) eqn:E; [|reflexivity].
    apply Qle_bool_iff in E. exfalso. apply (Qlt_not_le _ _ H E).
Qed.

(** Case analysis on a boolean comparison of rationals, leaving the
    corresponding order fact in the context. *)
Ltac case_Qlt a b :=
  let E := fresh "E" in
  destruct (Qlt_bool a b) eqn:E;
  [apply Qlt_bool_iff in E | apply Qlt_bool_false_iff in E].

Ltac case_Qle a b :=
  let E := fresh "E" in
  destruct (Qle_bool a b) eqn:E;
  [apply Qle_bool_iff in E | apply Qle_bool_false_iff in E].

Lemma py_int_nonneg (x : Q) : (0 <= x)%Q -> py_int x = Qfloor x.
Proof.
  destruct x as [n d]. unfold py_int, Qfloor, Qle. simpl. intro H.
  apply Z.quot_div_nonneg; lia.
Qed.

Lemma py_int_neg (x : Q) : (x <= 0)%Q -> py_int x = Qceiling x.
Proof.
  destruct x as [n d]. unfold py_int, Qceiling, Qfloor, Qle. simpl. intro H.
  assert (Hn : n <= 0) by lia.
  replace n with (- (- n)) at 1 by lia.
  rewrite Z.quot_opp_l by lia.
  rewrite Z.quot_div_nonneg by lia. reflexivity.
Qed.

Lemma py_int_inject (z : Z) : py_int (inject_Z z) = z.
Proof. unfold py_int. simpl. apply Z.quot_1_r. Qed.

(** Truncation toward zero is monotone. *)
Lemma py_int_mono (x y : Q) : (x <= y)%Q -> py_int x <= py_int y.
Proof.
  intro H.
  destruct (Qlt_le_dec x 0) as [Hx | Hx], (Qlt_le_dec y 0) as [Hy | Hy].
  - rewrite !py_int_neg by (apply Qlt_le_weak; assumption).
    apply Qceiling_resp_le, H.
  - rewrite (py_int_neg x) by (apply Qlt_le_weak; assumption).
    rewrite (py_int_nonneg y) by assumption.
    assert (A : Qceiling x <= 0).
    { change 0 with (Qceiling 0). apply Qceiling_resp_le, Qlt_le_weak, Hx. }
    assert (B : 0 <= Qfloor y).
    { change 0 with (Qfloor 0). apply Qfloor_resp_le, Hy. }
    lia.
  - exfalso. apply (Qlt_not_le y 0 Hy). apply Qle_trans with x; assumption.
  - rewrite !py_int_nonneg by assumption. apply Qfloor_resp_le, H.
Qed.

Lemma py_int_le_inject (x : Q) (z : Z) : (x <= inject_Z z)%Q -> py_int x <= z.
Proof.
  intro H. rewrite <- (py_int_inject z). apply py_int_mono, H.
Qed.

Lemma py_max_le_l (a b : Q) : (a <= py_max a b)%Q.
Proof.
  unfold py_max. case_Qlt a b.
  - apply Qlt_le_weak, E.
  - apply Qle_refl.
Qed.

Lemma py_max_le_r (a b : Q) : (b <= py_max a b)%Q.
Proof.
  unfold py_max. case_Qlt a b.
  - apply Qle_refl.
  - assumption.
Qed.


(** ** Floats *)

Lemma round_half_even_ge (c : Z) (x : Q) :
  (inject_Z c <= x)%Q -> c <= round_half_even x.
Proof.
  intro H. apply Qfloor_resp_le in H. rewrite Qfloor_Z in H.
  unfold round_half_even.
  repeat match goal with
         | |- context [if ?b then _ else _] => destruct b
         end; lia.
Qed.

Lemma round_half_even_le (c : Z) (x : Q) :
  (x <= inject_Z c)%Q -> round_half_even x <= c.
Proof.
  intro H. pose proof (Qfloor_resp_le _ _ H) as Hf. rewrite Qfloor_Z in Hf.
  pose proof (Qfloor_le x) as Hlo.
  unfold round_half_even.
  case_Qlt (x - inject_Z (Qfloor x))%Q (1 # 2)%Q; [exact Hf|].
  assert (Hlt : Qfloor x < c).
  { destruct (Z.eq_dec (Qfloor x) c) as [Heq | Hne]; [|lia].
    exfalso. rewrite Heq in E. lra. }
  repeat match goal with
         | |- context [if ?b then _ else _] => destruct b
         end; lia.
Qed.

(** *** Rounding to an integer *)

Lemma round_half_even_Z (z : Z) : round_half_even (inject_Z z) = z.
Proof.
  pose proof (round_half_even_ge z (inject_Z z) (Qle_refl _)).
  pose proof (round_half_even_le z (inject_Z z) (Qle_refl _)).
  lia.
Qed.

Lemma round_half_even_comp (x y : Q) :
  (x == y)%Q -> round_half_even x = round_half_even y.
Proof.
  intro H. unfold round_half_even.
  rewrite (Qfloor_comp x y H).
  set (f := Qfloor y).
  case_Qlt (x - inject_Z f)%Q (1 # 2)%Q;
    case_Qlt (y - inject_Z f)%Q (1 # 2)%Q; try reflexivity; try lra.
  case_Qlt (1 # 2)%Q (x - inject_Z f)%Q;
    case_Qlt (1 # 2)%Q (y - inject_Z f)%Q; try reflexivity; lra.
Qed.

Lemma round_half_even_near (x : Q) :
  (inject_Z (round_half_even x) - (1 # 2) <= x
   <= inject_Z (round_half_even x) + (1 # 2))%Q.
Proof.
  pose proof (Qfloor_le x) as Hlo. pose proof (Qlt_floor x) as Hhi.
  rewrite inject_Z_plus in Hhi. change (inject_Z 1) with 1%Q in Hhi.
  unfold round_half_even.
  set (f := Qfloor x) in *.
  case_Qlt (x - inject_Z f)%Q (1 # 2)%Q; [lra|].
  case_Qlt (1 # 2)%Q (x - inject_Z f)%Q.
  - rewrite inject_Z_plus. change (inject_Z 1) with 1%Q. lra.
  - destruct (Z.even f); [lra|].
    rewrite inject_Z_plus. change (inject_Z 1) with 1%Q. lra.
Qed.

Lemma round_half_even_mono (x y : Q) :
  (x <= y)%Q -> round_half_even x <= round_half_even y.
Proof.
  intro H.
  destruct (Z_le_gt_dec (round_half_even x) (round_half_even y))
    as [Hle | Hgt]; [exact Hle|].
  exfalso.
  pose proof (round_half_even_near x) as [Hx _].
  pose proof (round_half_even_near y) as [_ Hy].
  assert (Hz : (inject_Z (round_half_even y) + 1
                <= inject_Z (round_half_even x))%Q).
  { change 1%Q with (inject_Z 1). rewrite <- inject_Z_plus, <- Zle_Qle. lia. }
  assert (E : (x == y)%Q) by lra.
  pose proof (round_half_even_comp x y E). lia.
Qed.

(** *** Powers of two *)

Lemma pow2_pos (k : Z) : (0 < 2 ^ k)%Q.
Proof.
  apply Qpower_0_lt. reflexivity.
Qed.

Lemma pow2_add (a b : Z) : (2 ^ (a + b) == 2 ^ a * 2 ^ b)%Q.
Proof.
  apply Qpower_plus. discriminate.
Qed.

Lemma pow2_lt (a b : Z) : a < b -> (2 ^ a < 2 ^ b)%Q.
Proof.
  intro H. apply Qpower_lt_compat_l; [exact H | reflexivity].
Qed.

Lemma pow2_le (a b : Z) : a <= b -> (2 ^ a <= 2 ^ b)%Q.
Proof.
  intro H. apply Qpower_le_compat_l; [exact H | discriminate].
Qed.

Lemma pow2_lt_inv (a b : Z) : (2 ^ a < 2 ^ b)%Q -> a < b.
Proof.
  intro H. apply (Qpower_lt_compat_l_inv 2); [exact H | reflexivity].
Qed.

Lemma pow2_Z (k : Z) : 0 <= k -> (2 ^ k == inject_Z (2 ^ k))%Q.
Proof.
  intro H. rewrite (Zpower_Qpower 2 k H). reflexivity.
Qed.

Lemma pow2_cancel (e : Z) : (2 ^ (- e) * 2 ^ e == 1)%Q.
Proof.
  rewrite <- pow2_add. replace (- e + e) with 0 by lia. reflexivity.
Qed.

(** *** The binade *)

Lemma Qmake_times_den (n : Z) (d : positive) :
  ((n # d) * inject_Z (Zpos d) == inject_Z n)%Q.
Proof.
  unfold Qeq, Qmult, inject_Z. cbn [Qnum Qden]. lia.
Qed.

Lemma binade_spec (x : Q) :
  (0 < x)%Q -> (2 ^ binade x <= x < 2 ^ (binade x + 1))%Q.
Proof.
  intro Hx. destruct x as [n d].
  assert (Hn : 0 < n) by (unfold Qlt in Hx; simpl in Hx; lia).
  unfold binade. cbn [Qnum Qden].
  destruct (Z.log2_spec n Hn) as [Hn1 Hn2].
  destruct (Z.log2_spec (Zpos d) (Pos2Z.is_pos d)) as [Hd1 Hd2].
  pose proof (Z.log2_nonneg n) as Ha. pose proof (Z.log2_nonneg (Zpos d)) as Hb.
  set (a := Z.log2 n) in *. set (b := Z.log2 (Zpos d)) in *.
  pose proof (Qmake_times_den n d) as Hnd.
  rewrite Zle_Qle, <- (pow2_Z a Ha) in Hn1.
  rewrite Zlt_Qlt, <- (pow2_Z (Z.succ a) ltac:(lia)) in Hn2.
  rewrite Zle_Qle, <- (pow2_Z b Hb) in Hd1.
  rewrite Zlt_Qlt, <- (pow2_Z (Z.succ b) ltac:(lia)) in Hd2.
  set (x := (n # d)%Q) in *.
  set (D := inject_Z (Zpos d)) in *. set (N := inject_Z n) in *.
  pose proof (pow2_pos b) as Pb. pose proof (pow2_pos (Z.succ b)) as Pb1.
  pose proof (pow2_pos (a - b - 1)) as Pl.
  (* x < 2^(a-b+1) *)
  assert (Hup : (x < 2 ^ (a - b + 1))%Q).
  { apply Qmult_lt_r with (z := (2 ^ b)%Q); [exact Pb|].
    rewrite <- pow2_add. replace (a - b + 1 + b) with (Z.succ a) by lia.
    apply Qle_lt_trans with (x * D)%Q; [|rewrite Hnd; exact Hn2].
    apply Qmult_le_l; [exact Hx | exact Hd1]. }
  assert (Hlow : (2 ^ (a - b - 1) <= x)%Q).
  { apply Qmult_le_r with (z := (2 ^ (Z.succ b))%Q); [exact Pb1|].
    rewrite <- pow2_add. replace (a - b - 1 + Z.succ b) with a by lia.
    apply Qle_trans with (x * D)%Q; [rewrite Hnd; exact Hn1|].
    apply Qmult_le_l; [exact Hx|]. apply Qlt_le_weak. exact Hd2. }
  destruct (Qle_bool (2 ^ (a - b)) x) eqn:E.
  - apply Qle_bool_iff in E. split; assumption.
  - replace (a - b - 1 + 1) with (a - b) by lia. split; [exact Hlow|].
    apply Qnot_le_lt. intro L. apply Qle_bool_iff in L. congruence.
Qed.

Lemma binade_unique (x : Q) (k : Z) :
  (0 < x)%Q -> (2 ^ k <= x < 2 ^ (k + 1))%Q -> binade x = k.
Proof.
  intros Hx [H1 H2]. destruct (binade_spec x Hx) as [B1 B2].
  assert (binade x < k + 1)
    by (apply pow2_lt_inv; apply Qle_lt_trans with x; assumption).
  assert (k < binade x + 1)
    by (apply pow2_lt_inv; apply Qle_lt_trans with x; assumption).
  lia.
Qed.

Lemma binade_mono (x y : Q) :
  (0 < x)%Q -> (x <= y)%Q -> binade x <= binade y.
Proof.
  intros Hx Hxy.
  destruct (binade_spec x Hx) as [B1 _].
  destruct (binade_spec y ltac:(lra)) as [_ B2].
  assert (binade x < binade y + 1); [|lia].
  apply pow2_lt_inv. lra.
Qed.

(** *** The nearest float *)

Lemma nearest_float_bounds (x : Q) :
  (0 < x)%Q ->
  (2 ^ binade x <= nearest_float x <= 2 ^ (binade x + 1))%Q.
Proof.
  intro Hx. destruct (binade_spec x Hx) as [B1 B2].
  unfold nearest_float. set (k := binade x) in *. set (e := k - 52).
  pose proof (pow2_pos e) as Pe. pose proof (pow2_pos (- e)) as Pne.
  set (s := (x * 2 ^ (- e))%Q).
  assert (S1 : (inject_Z (2 ^ 52) <= s)%Q).
  { rewrite <- (pow2_Z 52) by lia. replace 52 with (k + - e) by (unfold e; lia).
    rewrite pow2_add. unfold s. apply Qmult_le_compat_r; [exact B1|].
    apply Qlt_le_weak, Pne. }
  assert (S2 : (s <= inject_Z (2 ^ 53))%Q).
  { rewrite <- (pow2_Z 53) by lia.
    replace 53 with (k + 1 + - e) by (unfold e; lia).
    rewrite pow2_add. unfold s. apply Qmult_le_compat_r.
    - apply Qlt_le_weak, B2.
    - apply Qlt_le_weak, Pne. }
  apply round_half_even_ge in S1. apply round_half_even_le in S2.
  set (m := round_half_even s) in *.
  rewrite Zle_Qle, <- (pow2_Z 52) in S1 by lia.
  rewrite Zle_Qle, <- (pow2_Z 53) in S2 by lia.
  split.
  - replace k with (52 + e) by (unfold e; lia). rewrite pow2_add.
    apply Qmult_le_compat_r; [exact S1 | apply Qlt_le_weak, Pe].
  - replace (k + 1) with (53 + e) by (unfold e; lia). rewrite pow2_add.
    apply Qmult_le_compat_r; [exact S2 | apply Qlt_le_weak, Pe].
Qed.

Lemma nearest_float_pos (x : Q) : (0 < x)%Q -> (0 < nearest_float x)%Q.
Proof.
  intro Hx. destruct (nearest_float_bounds x Hx) as [H _].
  pose proof (pow2_pos (binade x)). lra.
Qed.

Lemma nearest_float_mono (x y : Q) :
  (0 < x)%Q -> (x <= y)%Q -> (nearest_float x <= nearest_float y)%Q.
Proof.
  intros Hx Hxy. assert (Hy : (0 < y)%Q) by lra.
  pose proof (binade_mono x y Hx Hxy) as Hb.
  destruct (Z.eq_dec (binade x) (binade y)) as [E | Hne].
  - unfold nearest_float. rewrite E. set (e := binade y - 52).
    apply Qmult_le_compat_r; [|apply Qlt_le_weak, pow2_pos].
    rewrite <- Zle_Qle. apply round_half_even_mono.
    apply Qmult_le_compat_r; [exact Hxy | apply Qlt_le_weak, pow2_pos].
  - destruct (nearest_float_bounds x Hx) as [_ U].
    destruct (nearest_float_bounds y Hy) as [L _].
    pose proof (pow2_le (binade x + 1) (binade y) ltac:(lia)). lra.
Qed.

(** *** [fl] *)

Lemma fl_pos (x : Q) : (0 < x)%Q -> fl x = nearest_float x.
Proof.
  destruct x as [[|p|p] d]; intro H; try reflexivity;
    unfold Qlt in H; simpl in H; lia.
Qed.

Lemma fl_neg (x : Q) : (x < 0)%Q -> fl x = (- nearest_float (- x))%Q.
Proof.
  destruct x as [[|p|p] d]; intro H; try reflexivity;
    unfold Qlt in H; simpl in H; lia.
Qed.

Lemma fl_zero (x : Q) : (x == 0)%Q -> fl x = 0%Q.
Proof.
  destruct x as [[|p|p] d]; intro H; try reflexivity;
    unfold Qeq in H; simpl in H; lia.
Qed.

Lemma fl_mono (x y : Q) : (x <= y)%Q -> (fl x <= fl y)%Q.
Proof.
  intro H.
  destruct (Q_dec x 0) as [[Hx | Hx] | Hx], (Q_dec y 0) as [[Hy | Hy] | Hy];
    try (rewrite (fl_neg x Hx)); try (rewrite (fl_pos x Hx));
    try (rewrite (fl_zero x Hx)); try (rewrite (fl_neg y Hy));
    try (rewrite (fl_pos y Hy)); try (rewrite (fl_zero y Hy));
    try lra.
  - pose proof (nearest_float_mono (- y) (- x) ltac:(lra) ltac:(lra)). lra.
  - pose proof (nearest_float_pos (- x) ltac:(lra)).
    pose proof (nearest_float_pos y Hy). lra.
  - pose proof (nearest_float_pos (- x) ltac:(lra)). lra.
  - apply nearest_float_mono; assumption.
  - pose proof (nearest_float_pos y Hy). lra.
Qed.

Lemma fl_comp (x y : Q) : (x == y)%Q -> (fl x == fl y)%Q.
Proof.
  intro H. apply Qle_antisym; apply fl_mono; lra.
Qed.

Lemma fl_nonneg (x : Q) : (0 <= x)%Q -> (0 <= fl x)%Q.
Proof.
  intro H. apply (fl_mono 0 x H).
Qed.

(** A number with at most 53 significant bits is a float. *)
Lemma fl_dyadic (m j : Z) :
  0 < m < 2 ^ 53 -> (fl (inject_Z m * 2 ^ j) == inject_Z m * 2 ^ j)%Q.
Proof.
  intros [Hm1 Hm2].
  set (x := (inject_Z m * 2 ^ j)%Q).
  assert (Hx : (0 < x)%Q).
  { unfold x. apply Qmult_lt_0_compat; [|apply pow2_pos].
    change 0%Q with (inject_Z 0). rewrite <- Zlt_Qlt. exact Hm1. }
  rewrite (fl_pos x Hx). unfold nearest_float.
  destruct (binade_spec x Hx) as [B1 B2]. set (k := binade x) in *.
  assert (Hk : k < 53 + j).
  { apply pow2_lt_inv. apply Qle_lt_trans with x; [exact B1|].
    unfold x. rewrite pow2_add.
    apply Qmult_lt_r; [apply pow2_pos|].
    rewrite (pow2_Z 53) by lia. rewrite <- Zlt_Qlt. exact Hm2. }
  set (e := k - 52).
  assert (Hs : (x * 2 ^ (- e) == inject_Z (m * 2 ^ (j - e)))%Q).
  { unfold x. rewrite inject_Z_mult, <- (pow2_Z (j - e)) by (unfold e; lia).
    rewrite <- Qmult_assoc, <- pow2_add.
    replace (j + - e) with (j - e) by lia. reflexivity. }
  rewrite (round_half_even_comp _ _ Hs), round_half_even_Z.
  rewrite inject_Z_mult, <- (pow2_Z (j - e)) by (unfold e; lia).
  rewrite <- Qmult_assoc, <- pow2_add.
  replace (j - e + e) with j by lia. reflexivity.
Qed.

Lemma fl_Z (m : Z) : 0 <= m < 2 ^ 53 -> (fl (inject_Z m) == inject_Z m)%Q.
Proof.
  intros [H1 H2]. destruct (Z.eq_dec m 0) as [-> | Hne]; [reflexivity|].
  pose proof (fl_dyadic m 0 ltac:(lia)) as H.
  change (2 ^ 0)%Q with 1%Q in H. rewrite (fl_comp _ (inject_Z m * 1)) by ring.
  rewrite H. ring.
Qed.

Lemma fl_dyadic0 (m j : Z) :
  0 <= m < 2 ^ 53 -> (fl (inject_Z m * 2 ^ j) == inject_Z m * 2 ^ j)%Q.
Proof.
  intros [H1 H2]. destruct (Z.eq_dec m 0) as [-> | Hne].
  - rewrite (fl_zero (inject_Z 0 * 2 ^ j)) by ring. ring.
  - apply fl_dyadic. lia.
Qed.

Lemma py_round2_comp (x y : Q) : (x == y)%Q -> (py_round2 x == py_round2 y)%Q.
Proof.
  intro H. unfold py_round2.
  rewrite (round_half_even_comp (x * 100) (y * 100)); [reflexivity|].
  rewrite H. reflexivity.
Qed.

Lemma py_round2_mono (x y : Q) : (x <= y)%Q -> (py_round2 x <= py_round2 y)%Q.
Proof.
  intro H. unfold py_round2, Qdiv.
  apply Qmult_le_compat_r; [|discriminate].
  rewrite <- Zle_Qle. apply round_half_even_mono. lra.
Qed.

(** The float nearest to one tenth, a truncated product and a rounded sum
    as Python computes them: [int(90 * (10 / 27) * 1.5)] is 49 and
    [round(0.7 + 3 / 8, 2)] is 1.07; and the exact-match products
    [100 * kamba_boost], which are the integers they look like. *)
Lemma float_examples :
  (fl (1 # 10) == 3602879701896397 # 36028797018963968)%Q
  /\ py_int (fl (fl (90 * fl (10 # 27)) * fl 1.5)) = 49
  /\ (py_round2 (fl (fl 0.7 + fl (3 # 8))) == 1.07)%Q
  /\ (fl (100 * fl 1.35) == 135)%Q
  /\ (fl (100 * fl 1.30) == 130)%Q
  /\ (fl (100 * fl 0.75) == 75)%Q.
Proof.
  repeat split; vm_compute; reflexivity.
Qed.

(** Facts about closed numbers, by evaluation. *)
Ltac closed_Q :=
  vm_compute; first [reflexivity | discriminate | intro; discriminate].

(** ** Monotonicity of the fuzzy branch in the word overlap *)

Section FuzzyMonotone.

Variables (f ql vl n : Z).
Hypothesis f_nonneg : 0 <= f.

Let F := inject_Z f.

Lemma raw_score_nonneg : (0 <= F)%Q.
Proof. unfold F, Qle. simpl. lia. Qed.

Lemma scaled_mono (r1 r2 : Q) : (r1 <= r2)%Q -> (F * r1 <= F * r2)%Q.
Proof.
  intro H. pose proof raw_score_nonneg as HF.
  rewrite !(Qmult_comm F). apply Qmult_le_compat_r; assumption.
Qed.

(** Every penalised value stays at or below the raw score. *)
Lemma trunc_below_raw (x : Q) : (x <= F)%Q -> py_int x <= f.
Proof. intro H. apply py_int_le_inject. exact H. Qed.

(** The rounded products, for a raw score below 95. *)
Hypothesis f_small : f < 95.

Lemma raw_dyadic (m j : Z) :
  0 <= m <= 8 -> (fl (F * (inject_Z m * 2 ^ j)) == F * (inject_Z m * 2 ^ j))%Q.
Proof.
  intro Hm.
  assert (E : (F * (inject_Z m * 2 ^ j) == inject_Z (f * m) * 2 ^ j)%Q)
    by (unfold F; rewrite inject_Z_mult; ring).
  rewrite (fl_comp _ _ E), E. apply fl_dyadic0.
  assert (2 ^ 53 = 9007199254740992) by reflexivity. nia.
Qed.

Lemma raw_times_le (c : Q) (m j : Z) :
  0 <= m <= 8 -> (c <= inject_Z m * 2 ^ j)%Q ->
  (fl (F * c) <= F * (inject_Z m * 2 ^ j))%Q.
Proof.
  intros Hm Hc. pose proof raw_score_nonneg as HF.
  rewrite <- (raw_dyadic m j Hm). apply fl_mono, scaled_mono, Hc.
Qed.


Lemma fl_le_half (r : Q) : (r <= 1 # 2)%Q -> (fl r <= inject_Z 1 * 2 ^ (-1))%Q.
Proof.
  intro H. apply Qle_trans with (fl (1 # 2)); [apply fl_mono, H | closed_Q].
Qed.

Lemma fl_le_one (r : Q) : (r <= 1)%Q -> (fl r <= inject_Z 1 * 2 ^ 0)%Q.
Proof.
  intro H. apply Qle_trans with (fl 1); [apply fl_mono, H | closed_Q].
Qed.


Lemma product_le_raw (r : Q) : (r <= 1)%Q -> (fl (F * fl r) <= F)%Q.
Proof.
  intro H. pose proof (raw_times_le (fl r) 1 0 ltac:(lia) (fl_le_one r H)) as B.
  change (inject_Z 1 * 2 ^ 0)%Q with (1 * 1)%Q in B. lra.
Qed.

Lemma product_le_half (r : Q) :
  (r <= 1 # 2)%Q -> (fl (F * fl r) <= F * (1 # 2))%Q.
Proof.
  intro H.
  pose proof (raw_times_le (fl r) 1 (-1) ltac:(lia) (fl_le_half r H)) as B.
  change (inject_Z 1 * 2 ^ (-1))%Q with (1 * (1 # 2))%Q in B. lra.
Qed.


Lemma product2_le (c r : Q) (m j : Z) :
  0 <= m <= 8 -> (0 <= fl c)%Q ->
  (fl c * (1 # 2) <= inject_Z m * 2 ^ j)%Q -> (r <= 1 # 2)%Q ->
  (fl (fl (F * fl r) * fl c) <= F * (inject_Z m * 2 ^ j))%Q.
Proof.
  intros Hm Hc0 Hc Hr. pose proof raw_score_nonneg as HF.
  pose proof (product_le_half r Hr) as Hp.
  rewrite <- (raw_dyadic m j Hm). apply fl_mono.
  apply Qle_trans with (F * (1 # 2) * fl c)%Q.
  - apply Qmult_le_compat_r; assumption.
  - rewrite <- Qmult_assoc. apply scaled_mono.
    rewrite Qmult_comm. exact Hc.
Qed.


(** The validated score of a raw score below 95 is at most the raw
    score. *)
Lemma fuzzy_validated_below (r : Q) : fuzzy_validated f ql vl n r <= f.
Proof.
  pose proof raw_score_nonneg as HF.
  unfold fuzzy_validated. fold F.
  replace (95 <=? f) with false by (symmetry; apply Z.leb_gt; exact f_small).
  assert (H34 : forall r, (r <= 1 # 2)%Q ->
            (fl (fl (F * fl r) * fl 1.5) <= F * (inject_Z 3 * 2 ^ (-2)))%Q).
  { intros r0 Hr. apply product2_le; [lia | closed_Q | closed_Q | exact Hr]. }
  assert (H58 : forall r, (r <= 1 # 2)%Q ->
            (fl (fl (F * fl r) * fl 1.2) <= F * (inject_Z 5 * 2 ^ (-3)))%Q).
  { intros r0 Hr. apply product2_le; [lia | closed_Q | closed_Q | exact Hr]. }
  assert (U85 : (fl (F * fl 0.85) <= F)%Q) by (apply product_le_raw; lra).
  assert (U65 : (fl (F * fl 0.65) <= F)%Q) by (apply product_le_raw; lra).
  change (inject_Z 3 * 2 ^ (-2))%Q with (3 * (1 # 4))%Q in *.
  change (inject_Z 5 * 2 ^ (-3))%Q with (5 * (1 # 8))%Q in *.
  destruct (n <=? 3).
  - case_Qlt r 0.7%Q; [|lia].
    apply trunc_below_raw, product_le_raw. lra.
  - destruct (85 <=? f).
    + case_Qlt r 0.4%Q; [|case_Qlt r 0.6%Q]; try lia.
      * apply trunc_below_raw. specialize (H34 r ltac:(lra)). lra.
      * apply trunc_below_raw. exact U85.
    + case_Qlt r 0.5%Q; [|case_Qlt r 0.7%Q]; try lia.
      * apply trunc_below_raw. specialize (H58 r ltac:(lra)). lra.
      * apply trunc_below_raw. exact U65.
Qed.

End FuzzyMonotone.






(** ** The query classifier *)

Lemma looks_like_verse_iff (nq : pystr) :
  looks_like_verse nq = true <-> verse_shaped nq.
Proof.
  unfold looks_like_verse, looks_like_thirukkural, looks_like_kamba,
    verse_shaped.
  rewrite !orb_true_iff, !andb_true_iff, Z.eqb_eq, !Z.leb_le, !Z.ltb_lt.
  tauto.
Qed.

Lemma looks_like_verse_false_iff (nq : pystr) :
  looks_like_verse nq = false <-> ~ verse_shaped nq.
Proof.
  rewrite <- looks_like_verse_iff.
  destruct (looks_like_verse nq); split; intro H; congruence.
Qed.

(** C6. The decision rule of the sentence analysis, in its order: a
    verse-shaped query (two lines with 6 to 10 words, or a character name,
    or more than 10 words, or more than 2 lines) is never put in strict
    mode, whatever the modern-sentence cues say, and keeps the length-banded
    threshold; a query that is not verse-shaped is put in strict mode with
    threshold 98 as soon as a modern cue fires with at least 2 words, or
    the query has at most 3 words. *)
Theorem classifier_decision_rule (normalized_query : pystr) :
  let words := query_word_count normalized_query in
  let cue := is_modern_sentence (split normalized_query) in
  let v := classify_query normalized_query in
  (verse_shaped normalized_query ->
     strict_sentence_mode v = false
     /\ threshold v = base_threshold (len normalized_query))
  /\ (~ verse_shaped normalized_query ->
      (cue = true /\ 2 <= words) \/ words <= 3 ->
      strict_sentence_mode v = true /\ threshold v = 98
      /\ sentence_threshold v = 98).
Proof.
  cbv zeta. unfold classify_query. split.
  - intro Hs. apply looks_like_verse_iff in Hs. rewrite Hs. simpl. auto.
  - intros Hs Hc. apply looks_like_verse_false_iff in Hs. rewrite Hs.
    assert (E : (is_modern_sentence (split normalized_query)
                 && (2 <=? query_word_count normalized_query)
                 || is_short_query normalized_query) = true).
    { unfold is_short_query.
      rewrite orb_true_iff, andb_true_iff, !Z.leb_le. tauto. }
    rewrite E. simpl. auto.
Qed.

Lemma classifier_decision_rule_witness :
  strict_sentence_mode
    (classify_query (u "நான் பள்ளிக்கு செல்கிறேன்")) = true
  /\ threshold (classify_query (u "நான் பள்ளிக்கு செல்கிறேன்")) = 98
  /\ sentence_threshold
       (classify_query (u "நான் பள்ளிக்கு செல்கிறேன்")) = 98.
Proof.
  apply (proj2 (classifier_decision_rule (u "நான் பள்ளிக்கு செல்கிறேன்"))).
  - intro H. apply looks_like_verse_iff in H. vm_compute in H. discriminate.
  - left. split; [reflexivity | vm_compute; discriminate].
Defined.

(** ** The fallback sentiment score *)

Lemma count_matching_pos (keywords words : list pystr) :
  existsb (matches_any keywords) words = true ->
  0 < count_matching keywords words.
Proof.
  unfold count_matching. induction words as [|w ws IH]; simpl.
  - discriminate.
  - destruct (matches_any keywords w); simpl; intro H.
    + lia.
    + apply IH, H.
Qed.

Lemma count_matching_zero (keywords words : list pystr) :
  existsb (matches_any keywords) words = false ->
  count_matching keywords words = 0.
Proof.
  unfold count_matching. induction words as [|w ws IH]; simpl.
  - reflexivity.
  - destruct (matches_any keywords w); simpl; intro H.
    + discriminate.
    + apply IH, H.
Qed.

Lemma half_of_itself (n : Z) :
  0 < n -> (inject_Z n / inject_Z (n * 2) == 1 # 2)%Q.
Proof.
  intro H. rewrite inject_Z_mult.
  assert (Hn : ~ (inject_Z n == 0)%Q).
  { unfold Qeq. simpl. lia. }
  field. exact Hn.
Qed.

(** C10. The score of the keyword sentiment analysis leaves the range 0 to
    1: a text with a word matching a negative keyword and no word matching
    a positive one scores exactly -0.2 (label Negative), and a text with a
    word matching a positive keyword and none matching a negative one
    scores exactly 1.2 (label Positive). *)
Theorem sentiment_score_leaves_unit_range (text : pystr) :
  let words := split text in
  let result := _analyze_sentiment text in
  (existsb (matches_any negative_words) words = true ->
   existsb (matches_any positive_words) words = false ->
   label result = Negative /\ (score result == -0.2)%Q
   /\ (score result < 0)%Q)
  /\ (existsb (matches_any positive_words) words = true ->
      existsb (matches_any negative_words) words = false ->
      label result = Positive /\ (score result == 1.2)%Q
      /\ (1 < score result)%Q).
Proof.
  cbv zeta. unfold _analyze_sentiment. split; intros Hyes Hno.
  - apply count_matching_pos in Hyes. apply count_matching_zero in Hno.
    rewrite Hno.
    set (n := count_matching negative_words (split text)) in *.
    replace (0 + n =? 0) with false by (symmetry; apply Z.eqb_neq; lia).
    replace (n <? 0) with false by (symmetry; apply Z.ltb_ge; lia).
    replace (0 <? n) with true by (symmetry; apply Z.ltb_lt; lia).
    cbn [label score].
    assert (E : (py_round2
                   (fl (fl 0.3 - fl (inject_Z n / inject_Z ((0 + n) * 2))))
                 == -0.2)%Q).
    { rewrite (py_round2_comp _ (fl (fl 0.3 - fl (1 # 2)))); [closed_Q|].
      apply fl_comp. apply Qplus_comp; [reflexivity|]. apply Qopp_comp.
      apply fl_comp. rewrite Z.add_0_l. apply (half_of_itself n Hyes). }
    split; [reflexivity|]. split; [exact E|]. rewrite E. reflexivity.
  - apply count_matching_pos in Hyes. apply count_matching_zero in Hno.
    rewrite Hno.
    set (p := count_matching positive_words (split text)) in *.
    replace (p + 0 =? 0) with false by (symmetry; apply Z.eqb_neq; lia).
    replace (0 <? p) with true by (symmetry; apply Z.ltb_lt; lia).
    cbn [label score].
    assert (E : (py_round2
                   (fl (fl 0.7 + fl (inject_Z p / inject_Z ((p + 0) * 2))))
                 == 1.2)%Q).
    { rewrite (py_round2_comp _ (fl (fl 0.7 + fl (1 # 2)))); [closed_Q|].
      apply fl_comp. apply Qplus_comp; [reflexivity|].
      apply fl_comp. rewrite Z.add_0_r. apply (half_of_itself p Hyes). }
    split; [reflexivity|]. split; [exact E|]. rewrite E. reflexivity.
Qed.

Lemma sentiment_score_leaves_unit_range_witness :
  (label (_analyze_sentiment (u "எனக்கு கவலை")) = Negative
   /\ (score (_analyze_sentiment (u "எனக்கு கவலை")) == -0.2)%Q
   /\ (score (_analyze_sentiment (u "எனக்கு கவலை")) < 0)%Q)
  /\ (label (_analyze_sentiment (u "மிகுந்த மகிழ்ச்சி")) = Positive
      /\ (score (_analyze_sentiment (u "மிகுந்த மகிழ்ச்சி")) == 1.2)%Q
      /\ (1 < score (_analyze_sentiment (u "மிகுந்த மகிழ்ச்சி")))%Q).
Proof.
  split.
  - apply (proj1 (sentiment_score_leaves_unit_range (u "எனக்கு கவலை")));
      vm_compute; reflexivity.
  - apply (proj2 (sentiment_score_leaves_unit_range (u "மிகுந்த மகிழ்ச்சி")));
      vm_compute; reflexivity.
Defined.

(** ** The containment branch *)

Lemma startswith_length (s p : pystr) :
  startswith s p = true -> (List.length p <= List.length s)%nat.
Proof.
  revert s. induction p as [|x p IH]; intros s H; simpl.
  - lia.
  - destruct s as [|y s]; simpl in H; [discriminate|].
    apply andb_true_iff in H. destruct H as [_ H].
    apply IH in H. simpl. lia.
Qed.

Lemma contains_length (s sub : pystr) :
  contains s sub = true -> (List.length sub <= List.length s)%nat.
Proof.
  induction s as [|c s IH]; intro H; cbn [contains] in H;
    apply orb_true_iff in H; destruct H as [H | H].
  - apply startswith_length in H. exact H.
  - discriminate.
  - apply startswith_length in H. exact H.
  - apply IH in H. simpl. lia.
Qed.

Lemma eqb_true_iff (a b : pystr) : eqb a b = true <-> a = b.
Proof.
  unfold eqb. destruct (list_eq_dec Z.eq_dec a b); split; congruence.
Qed.

Lemma eqb_false_iff (a b : pystr) : eqb a b = false <-> a <> b.
Proof.
  unfold eqb. destruct (list_eq_dec Z.eq_dec a b); split; congruence.
Qed.

Lemma eqb_refl (a : pystr) : eqb a a = true.
Proof. apply eqb_true_iff. reflexivity. Qed.

(** The two length tests of the source, as integer inequalities. *)
Lemma length_test_80 (vl ql : Z) :
  Qle_bool (inject_Z vl * 0.8) (inject_Z ql) = true <-> 4 * vl <= 5 * ql.
Proof.
  rewrite Qle_bool_iff. unfold Qle, Qmult, inject_Z. cbn [Qnum Qden]. lia.
Qed.

Lemma length_test_50 (vl ql : Z) :
  Qle_bool (inject_Z vl * 0.5) (inject_Z ql) = true <-> vl <= 2 * ql.
Proof.
  rewrite Qle_bool_iff. unfold Qle, Qmult, inject_Z. cbn [Qnum Qden]. lia.
Qed.

(** C7. A verse contained in the query scores 95 whatever its length.
    The banding compares the length of the query with the length of the
    verse, also when the verse is the shorter text.

    First input: a one-word verse inside an eight-word query.  The shorter
    text is well under half of the longer one and the word overlap is 1/8:
    banding by the longer text gives 70 * 1/8 = 8.75, the source scores
    95.

    Second input: the database holds an entry whose text is a heading
    without Tamil characters.  It normalizes to the empty string, which is
    contained in every query, so the entry is a containment match of score
    95 for a query it shares nothing with, and [analyze] reports it with
    confidence 0.95. *)
Theorem contained_verse_scores_95 (F : Fuzz) :
  let nv := normalize_text aram in
  let a := {| thirukkural_db := db_of_verses [heading_entry];
              kamba_db := empty_db |} in
  (normalize_text eight_words = eight_words
   /\ eqb eight_words nv = false
   /\ contains eight_words nv = true
   /\ is_placeholder aram = false
   /\ (word_overlap eight_words nv == 1 # 8)%Q
   /\ (spec_containment_score eight_words nv == 8.75)%Q
   /\ (forall kamba_boost : Q,
         verse_score_of kamba_boost eight_words aram nv = 95%Q))
  /\ (normalize_text (u "Chapter 1") = []
      /\ is_placeholder (u "Chapter 1") = false
      /\ (spec_containment_score
            (normalize_text (preprocess_for_analysis kural_1)) [] == 0)%Q
      /\ (exists r, analyze a kural_1 = Found r
                    /\ r_verse r = u "Chapter 1"
                    /\ (confidence r == 0.95)%Q)).
Proof.
  cbv zeta. split.
  - repeat split; try (vm_compute; reflexivity).
  - split; [vm_compute; reflexivity|].
    split; [vm_compute; reflexivity|].
    split; [vm_compute; reflexivity|].
    eexists. split; [vm_compute; reflexivity|]. repeat split.
Qed.

(** X30. The bands of a containment match as the source computes them.
    For a verse that is not a placeholder and a query whose normalized text
    differs from the verse's while one contains the other, the verse score
    is banded by the length of the query relative to the length of the
    verse: at least 80% gives 95, at least 50% gives 85, and below that 80
    when the word overlap is at least one half and the integer part of 70
    times the overlap (the float product) otherwise.  Hence a verse
    contained in the query scores 95. *)
Theorem containment_score_bands (F : Fuzz) (kamba_boost : Q)
    (normalized_query verse_text normalized_verse : pystr) :
  is_placeholder verse_text = false ->
  normalized_query <> normalized_verse ->
  contains normalized_verse normalized_query = true
  \/ contains normalized_query normalized_verse = true ->
  let s := verse_score_of kamba_boost normalized_query verse_text
             normalized_verse in
  let ql := len normalized_query in
  let vl := len normalized_verse in
  let overlap := word_overlap normalized_query normalized_verse in
  (4 * vl <= 5 * ql -> s = 95%Q)
  /\ (5 * ql < 4 * vl -> vl <= 2 * ql -> s = 85%Q)
  /\ (2 * ql < vl -> (1 # 2 <= overlap)%Q -> s = 80%Q)
  /\ (2 * ql < vl -> (overlap < 1 # 2)%Q ->
      s = inject_Z (py_int (fl (70 * fl overlap))))
  /\ (contains normalized_query normalized_verse = true -> s = 95%Q).
Proof.
  intros Hp Hne Hc. cbv zeta.
  assert (E : verse_score_of kamba_boost normalized_query verse_text
                normalized_verse
              = containment_score normalized_query normalized_verse).
  { unfold verse_score_of, is_placeholder in *.
    apply orb_false_iff in Hp. destruct Hp as [Hp1 Hp2].
    rewrite Hp1, Hp2. simpl.
    apply eqb_false_iff in Hne. rewrite Hne.
    replace (contains normalized_verse normalized_query
             || contains normalized_query normalized_verse) with true
      by (symmetry; apply orb_true_iff; exact Hc).
    reflexivity. }
  rewrite E. unfold containment_score.
  pose proof (length_test_80 (len normalized_verse) (len normalized_query))
    as T80.
  pose proof (length_test_50 (len normalized_verse) (len normalized_query))
    as T50.
  assert (Hql : 0 <= len normalized_query) by (unfold len; lia).
  assert (Hvl : 0 <= len normalized_verse) by (unfold len; lia).
  destruct (Qle_bool (inject_Z (len normalized_verse) * 0.8)
                     (inject_Z (len normalized_query))) eqn:E80.
  - assert (4 * len normalized_verse <= 5 * len normalized_query)
      by (apply T80; reflexivity).
    repeat split; intros; try reflexivity; lia.
  - assert (H80 : ~ 4 * len normalized_verse <= 5 * len normalized_query)
      by (intro A; apply T80 in A; discriminate).
    destruct (Qle_bool (inject_Z (len normalized_verse) * 0.5)
                       (inject_Z (len normalized_query))) eqn:E50.
    + assert (len normalized_verse <= 2 * len normalized_query)
        by (apply T50; reflexivity).
      repeat split; intros; try reflexivity; try lia.
      exfalso. apply H80.
      match goal with
      | Hin : contains normalized_query normalized_verse = true |- _ =>
        apply contains_length in Hin; unfold len in *; lia
      end.
    + assert (H50 : ~ len normalized_verse <= 2 * len normalized_query)
        by (intro A; apply T50 in A; discriminate).
      repeat split; intros; try lia.
      * replace (Qle_bool 0.5 (word_overlap normalized_query normalized_verse))
          with true; [reflexivity|].
        symmetry. apply Qle_bool_iff. lra.
      * replace (Qle_bool 0.5 (word_overlap normalized_query normalized_verse))
          with false; [reflexivity|].
        symmetry. apply Qle_bool_false_iff. lra.
      * exfalso. apply H80.
        match goal with
        | Hin : contains normalized_query normalized_verse = true |- _ =>
          apply contains_length in Hin; unfold len in *; lia
        end.
Qed.

Lemma containment_score_bands_witness :
  let q := u "அறம் செய விரும்பு ஆறுவது சினம் இயல்வது கரவேல் ஈவது" in
  let s := verse_score_of (F := no_similarity) 1 q (u "அறம்") (u "அறம்") in
  (4 * len (u "அறம்") <= 5 * len q -> s = 95%Q)
  /\ (5 * len q < 4 * len (u "அறம்") -> len (u "அறம்") <= 2 * len q ->
      s = 85%Q)
  /\ (2 * len q < len (u "அறம்") ->
      (1 # 2 <= word_overlap q (u "அறம்"))%Q -> s = 80%Q)
  /\ (2 * len q < len (u "அறம்") ->
      (word_overlap q (u "அறம்") < 1 # 2)%Q ->
      s = inject_Z (py_int (fl (70 * fl (word_overlap q (u "அறம்"))))))
  /\ (contains q (u "அறம்") = true -> s = 95%Q).
Proof.
  apply (containment_score_bands no_similarity 1
           (u "அறம் செய விரும்பு ஆறுவது சினம் இயல்வது கரவேல் ஈவது")
           (u "அறம்") (u "அறம்")).
  - reflexivity.
  - vm_compute. discriminate.
  - right. vm_compute. reflexivity.
Defined.

(** ** The meaning field plays no part in matching *)

Section MeaningIndependence.

Context {F : Fuzz}.

Lemma candidate_score_forget (strict : bool) (kamba_boost : Q) (nq : pystr)
    (v : verse_record) :
  candidate_score strict kamba_boost nq (forget_meaning v)
  = candidate_score strict kamba_boost nq v.
Proof. destruct v. reflexivity. Qed.

Lemma verse_num_of_forget (v : verse_record) :
  verse_num_of (forget_meaning v) = verse_num_of v.
Proof. destruct v. reflexivity. Qed.

Variables (key : book_key_t) (book_name : pystr) (kamba_boost : Q).
Variables (strict is_number_search : bool) (nq : pystr).

Lemma visit_verse_agree (s1 s2 : search_state) (v1 v2 : verse_record) :
  forget_meaning v1 = forget_meaning v2 ->
  states_agree s1 s2 ->
  steps_agree
    (visit_verse key book_name kamba_boost strict is_number_search nq s1 v1)
    (visit_verse key book_name kamba_boost strict is_number_search nq s2 v2).
Proof.
  intros Hv (Hm & Hs & Ht).
  assert (Hn : verse_num_of v1 = verse_num_of v2).
  { rewrite <- (verse_num_of_forget v1), <- (verse_num_of_forget v2).
    rewrite Hv. reflexivity. }
  assert (Hc : candidate_score strict kamba_boost nq v1
               = candidate_score strict kamba_boost nq v2).
  { rewrite <- (candidate_score_forget _ _ _ v1).
    rewrite <- (candidate_score_forget _ _ _ v2).
    rewrite Hv. reflexivity. }
  unfold visit_verse. rewrite Hn, Hc, Hs, Ht.
  destruct is_number_search.
  - destruct (eqb (strip nq) (verse_num_of v2)); simpl.
    + unfold forget_meaning_match. simpl. rewrite Hv. reflexivity.
    + repeat split; assumption.
  - destruct (Qlt_bool (best_score s2) _ && Qle_bool _ _); simpl.
    + repeat split. simpl. unfold forget_meaning_match. simpl.
      rewrite Hv. reflexivity.
    + repeat split; assumption.
Qed.

Lemma search_verses_agree (vs1 : list verse_record) :
  forall (vs2 : list verse_record) (s1 s2 : search_state),
    map forget_meaning vs1 = map forget_meaning vs2 ->
    states_agree s1 s2 ->
    steps_agree
      (search_verses key book_name kamba_boost strict is_number_search nq
         vs1 s1)
      (search_verses key book_name kamba_boost strict is_number_search nq
         vs2 s2).
Proof.
  induction vs1 as [|v1 vs1 IH]; intros [|v2 vs2] s1 s2 Hvs Hst;
    try discriminate; simpl.
  - exact Hst.
  - cbn [map] in Hvs.
    assert (Hv : forget_meaning v1 = forget_meaning v2)
      by exact (f_equal (hd (forget_meaning v1)) Hvs).
    assert (Hrest : map forget_meaning vs1 = map forget_meaning vs2)
      by exact (f_equal (@tl _) Hvs).
    pose proof (visit_verse_agree s1 s2 v1 v2 Hv Hst) as Hstep.
    destruct (visit_verse _ _ _ _ _ _ s1 v1) as [m1 | s1'],
             (visit_verse _ _ _ _ _ _ s2 v2) as [m2 | s2'];
      simpl in Hstep; try contradiction.
    + exact Hstep.
    + apply IH; assumption.
Qed.

End MeaningIndependence.

Lemma Some_inj {A : Type} (x y : A) : Some x = Some y -> x = y.
Proof.
  intro H.
  exact (f_equal (fun o => match o with Some z => z | None => x end) H).
Qed.

Lemma db_of_same_but_meanings (a1 a2 : analyzer) (key : book_key_t) :
  differ_only_in_meanings a1 a2 ->
  same_but_meanings (db_of a1 key) (db_of a2 key).
Proof. intros [Ht Hk]. destruct key; assumption. Qed.

Lemma search_book_agree {F : Fuzz} (a1 a2 : analyzer)
    (strict is_number_search : bool) (nq : pystr) (key : book_key_t)
    (s1 s2 : search_state) :
  differ_only_in_meanings a1 a2 ->
  states_agree s1 s2 ->
  steps_agree (search_book a1 strict is_number_search nq key s1)
              (search_book a2 strict is_number_search nq key s2).
Proof.
  intros Ha Hst.
  destruct (db_of_same_but_meanings a1 a2 key Ha) as [Hvs Hmeta].
  unfold search_book. rewrite Hmeta.
  destruct Hst as (Hm & Hs & Ht). rewrite Ht.
  destruct (book_structure key nq (cur_threshold s2)) as [boost th].
  destruct (verses (db_of a1 key)) as [|v1 vs1] eqn:E1,
           (verses (db_of a2 key)) as [|v2 vs2] eqn:E2;
    try discriminate.
  - repeat split; assumption.
  - apply search_verses_agree; [exact Hvs|].
    repeat split; simpl; assumption.
Qed.

Lemma search_books_agree {F : Fuzz} (a1 a2 : analyzer)
    (strict is_number_search : bool) (nq : pystr) (books : list book_key_t) :
  differ_only_in_meanings a1 a2 ->
  forall s1 s2 : search_state,
    states_agree s1 s2 ->
    steps_agree (search_books a1 strict is_number_search nq books s1)
                (search_books a2 strict is_number_search nq books s2).
Proof.
  intro Ha. induction books as [|key rest IH]; intros s1 s2 Hst; simpl.
  - exact Hst.
  - pose proof (search_book_agree a1 a2 strict is_number_search nq key s1 s2
                  Ha Hst) as Hstep.
    destruct (search_book a1 _ _ _ key s1) as [m1 | s1'],
             (search_book a2 _ _ _ key s2) as [m2 | s2'];
      simpl in Hstep; try contradiction.
    + exact Hstep.
    + apply IH, Hstep.
Qed.

Lemma found_of_match_forget (a1 a2 : analyzer) (m1 m2 : match_result) :
  differ_only_in_meanings a1 a2 ->
  forget_meaning_match m1 = forget_meaning_match m2 ->
  forget_meaning_found (found_of_match a1 m1)
  = forget_meaning_found (found_of_match a2 m2).
Proof.
  intros Ha Hm.
  assert (Hk : book_key m1 = book_key m2)
    by exact (f_equal book_key Hm).
  destruct (db_of_same_but_meanings a1 a2 (book_key m1) Ha) as [_ Hmeta].
  assert (Hr : forget_meaning (m_record m1) = forget_meaning (m_record m2))
    by exact (f_equal m_record Hm).
  unfold forget_meaning_found, found_of_match. simpl.
  rewrite <- Hk, Hmeta.
  rewrite (f_equal match_score Hm : match_score m1 = match_score m2).
  rewrite (f_equal m_verse_number Hm : m_verse_number m1 = m_verse_number m2).
  rewrite (f_equal book Hm : book m1 = book m2).
  rewrite (f_equal tamil_book_name Hr
           : tamil_book_name (m_record m1) = tamil_book_name (m_record m2)).
  rewrite (f_equal section Hr : section (m_record m1) = section (m_record m2)).
  rewrite (f_equal chapter Hr : chapter (m_record m1) = chapter (m_record m2)).
  rewrite (f_equal verse Hr : verse (m_record m1) = verse (m_record m2)).
  rewrite (f_equal summary Hr : summary (m_record m1) = summary (m_record m2)).
  rewrite (f_equal english_meaning Hr
           : english_meaning (m_record m1) = english_meaning (m_record m2)).
  rewrite (f_equal theme Hr : theme (m_record m1) = theme (m_record m2)).
  rewrite (f_equal moral Hr : moral (m_record m1) = moral (m_record m2)).
  rewrite (f_equal author Hr : author (m_record m1) = author (m_record m2)).
  rewrite (f_equal characters Hr
           : characters (m_record m1) = characters (m_record m2)).
  reflexivity.
Qed.

Lemma fuzzy_search_agree {F : Fuzz} (a1 a2 : analyzer) (query : pystr) :
  differ_only_in_meanings a1 a2 ->
  option_map forget_meaning_match (_fuzzy_search_all_books a1 query)
  = option_map forget_meaning_match (_fuzzy_search_all_books a2 query).
Proof.
  intro Ha. unfold _fuzzy_search_all_books.
  set (nq := normalize_text query).
  set (v := classify_query nq).
  set (s0 := {| best_match := None; best_score := 0;
                cur_threshold := threshold v |}).
  assert (H0 : states_agree s0 s0) by (repeat split).
  pose proof (search_books_agree a1 a2 (strict_sentence_mode v)
                (isdigit (strip nq)) nq books_to_search Ha s0 s0 H0) as Hstep.
  destruct (search_books a1 _ _ _ _ s0) as [m1 | s1],
           (search_books a2 _ _ _ _ s0) as [m2 | s2];
    simpl in Hstep; try contradiction.
  - simpl. rewrite Hstep. reflexivity.
  - destruct Hstep as (Hm & _ & _).
    destruct (best_match s1) as [m1|], (best_match s2) as [m2|];
      simpl in Hm; try discriminate; [|reflexivity].
    apply Some_inj in Hm.
    rewrite (f_equal match_score Hm : match_score m1 = match_score m2).
    destruct (strict_sentence_mode v && Qlt_bool (match_score m2) 95); simpl.
    + reflexivity.
    + rewrite Hm. reflexivity.
Qed.

(** C9. Two corpus snapshots that differ only in meaning fields give, for
    every query, the same match decision, the same selected verse (book,
    verse number, every field but the meaning) and the same score; so do
    the results of [analyze], up to the meaning text copied into them. *)
Theorem meaning_never_scored (F : Fuzz) (a1 a2 : analyzer) :
  differ_only_in_meanings a1 a2 ->
  forall text : pystr,
    option_map forget_meaning_match (_fuzzy_search_all_books a1 text)
    = option_map forget_meaning_match (_fuzzy_search_all_books a2 text)
    /\ forget_meaning_result (analyze a1 text)
       = forget_meaning_result (analyze a2 text).
Proof.
  intros Ha text. split; [apply fuzzy_search_agree, Ha|].
  unfold analyze.
  destruct (isEmpty text || (len (strip text) =? 0)); [reflexivity|].
  destruct (isEmpty (preprocess_for_analysis text)); [reflexivity|].
  pose proof (fuzzy_search_agree a1 a2 (preprocess_for_analysis text) Ha)
    as Hs.
  destruct (_fuzzy_search_all_books a1 _) as [m1|],
           (_fuzzy_search_all_books a2 _) as [m2|];
    simpl in Hs; try discriminate; [|reflexivity].
  apply Some_inj in Hs. simpl. f_equal.
  apply found_of_match_forget; assumption.
Qed.

Lemma meaning_never_scored_witness :
  let a1 :=
    {| thirukkural_db :=
         db_of_verses [with_meaning (Some kural_1_gloss)
                         (verse_of_text 1 kural_1)];
       kamba_db := empty_db |} in
  let a2 :=
    {| thirukkural_db := db_of_verses [verse_of_text 1 kural_1];
       kamba_db := empty_db |} in
  option_map forget_meaning_match
    (_fuzzy_search_all_books (F := no_similarity) a1 kural_1)
  = option_map forget_meaning_match
      (_fuzzy_search_all_books (F := no_similarity) a2 kural_1)
  /\ forget_meaning_result (analyze (F := no_similarity) a1 kural_1)
     = forget_meaning_result (analyze (F := no_similarity) a2 kural_1).
Proof.
  cbv zeta.
  apply (meaning_never_scored no_similarity
           {| thirukkural_db :=
                db_of_verses [with_meaning (Some kural_1_gloss)
                                (verse_of_text 1 kural_1)];
              kamba_db := empty_db |}
           {| thirukkural_db := db_of_verses [verse_of_text 1 kural_1];
              kamba_db := empty_db |}).
  repeat split.
Defined.

(** ** Invariants of the search loops (text search) *)

Lemma fst_book_structure (key : book_key_t) (nq : pystr) (t : Z) :
  fst (book_structure key nq t) = kamba_boost_for key nq.
Proof.
  unfold kamba_boost_for, book_structure.
  repeat match goal with
         | |- context [if ?c then _ else _] => destruct c
         end; reflexivity.
Qed.

Lemma snd_book_structure_le (key : book_key_t) (nq : pystr) (t : Z) :
  snd (book_structure key nq t) <= t.
Proof.
  unfold book_structure.
  repeat match goal with
         | |- context [if ?c then _ else _] => destruct c
         end; simpl; lia.
Qed.

Lemma kamba_boost_cases (key : book_key_t) (nq : pystr) :
  kamba_boost_for key nq = 1.35%Q \/ kamba_boost_for key nq = 1.30%Q
  \/ kamba_boost_for key nq = 0.75%Q \/ kamba_boost_for key nq = 1.0%Q.
Proof.
  unfold kamba_boost_for, book_structure.
  repeat match goal with
         | |- context [if ?c then _ else _] => destruct c
         end; simpl; auto.
Qed.

Lemma not_penalised_boost (key : book_key_t) (nq : pystr) :
  penalised key nq = false -> (1 <= kamba_boost_for key nq)%Q.
Proof.
  unfold penalised.
  destruct (kamba_boost_cases key nq) as [E | [E | [E | E]]]; rewrite E;
    intro H; try discriminate; unfold Qle; simpl; lia.
Qed.

Lemma kamba_boost_ge (key : book_key_t) (nq : pystr) :
  (0.75 <= kamba_boost_for key nq)%Q.
Proof.
  destruct (kamba_boost_cases key nq) as [E | [E | [E | E]]]; rewrite E;
    unfold Qle; simpl; lia.
Qed.

Section SearchInvariants.

Context {F : Fuzz}.
Variables (a : analyzer) (strict : bool) (nq : pystr).

Lemma visit_verse_text (key : book_key_t) (book_name : pystr)
    (st : search_state) (v : verse_record) :
  exists st',
    visit_verse key book_name (kamba_boost_for key nq) strict false nq st v
    = Next st'
    /\ advances st st'
    /\ cur_threshold st' = cur_threshold st
    /\ ((inject_Z (cur_threshold st) <= score_in strict key nq v)%Q ->
        (score_in strict key nq v <= best_score st')%Q).
Proof.
  unfold visit_verse, score_in.
  set (sc := candidate_score strict (kamba_boost_for key nq) nq v).
  case_Qlt (best_score st) sc; case_Qle (inject_Z (cur_threshold st)) sc;
    simpl; eexists; (split; [reflexivity|]); unfold advances, state_ok; simpl;
    repeat split; intros; try reflexivity; try assumption; try lia; try lra.
Qed.

Lemma search_verses_text (key : book_key_t) (book_name : pystr)
    (vs : list verse_record) :
  forall st : search_state,
  exists st',
    search_verses key book_name (kamba_boost_for key nq) strict false nq vs st
    = Next st'
    /\ advances st st'
    /\ cur_threshold st' = cur_threshold st
    /\ (forall v, In v vs ->
        (inject_Z (cur_threshold st) <= score_in strict key nq v)%Q ->
        (score_in strict key nq v <= best_score st')%Q).
Proof.
  induction vs as [|v vs IH]; intro st; cbn [search_verses].
  - exists st. unfold advances. repeat split; auto; try lia; try lra;
      intros v [].
  - destruct (visit_verse_text key book_name st v)
      as (st1 & E1 & (Ok1 & Mono1 & _) & Th1 & Hit1).
    rewrite E1.
    destruct (IH st1) as (st2 & E2 & (Ok2 & Mono2 & _) & Th2 & Hit2).
    exists st2. split; [exact E2|]. unfold advances.
    repeat split; auto; try lia; try lra.
    intros w [Hw | Hw] Hs.
    + subst w. specialize (Hit1 Hs). lra.
    + apply Hit2; [exact Hw|]. rewrite Th1. exact Hs.
Qed.

Lemma search_book_text (key : book_key_t) (st : search_state) :
  exists st',
    search_book a strict false nq key st = Next st'
    /\ advances st st'
    /\ (forall v, In v (verses (db_of a key)) ->
        (inject_Z (cur_threshold st) <= score_in strict key nq v)%Q ->
        (score_in strict key nq v <= best_score st')%Q).
Proof.
  unfold search_book.
  destruct (verses (db_of a key)) as [|v0 vs0] eqn:Ev.
  - exists st. unfold advances. repeat split; auto; try lia; try lra;
      intros v [].
  - pose proof (fst_book_structure key nq (cur_threshold st)) as Hb.
    pose proof (snd_book_structure_le key nq (cur_threshold st)) as Ht.
    destruct (book_structure key nq (cur_threshold st)) as [boost th].
    simpl in Hb, Ht. subst boost.
    set (st0 := {| best_match := best_match st; best_score := best_score st;
                   cur_threshold := th |}).
    destruct (search_verses_text key
                (get_str (title (db_metadata (db_of a key)))
                   (default_title key)) (v0 :: vs0) st0)
      as (st1 & E1 & (Ok1 & Mono1 & _) & Th1 & Hit1).
    exists st1. split; [exact E1|]. unfold advances.
    repeat split.
    + intro Hok. apply Ok1. exact Hok.
    + exact Mono1.
    + rewrite Th1. exact Ht.
    + intros v Hv Hs. apply Hit1; [exact Hv|].
      simpl. apply Qle_trans with (inject_Z (cur_threshold st)); [|exact Hs].
      rewrite <- Zle_Qle. exact Ht.
Qed.

Lemma search_books_text (books : list book_key_t) :
  forall st : search_state,
  exists st',
    search_books a strict false nq books st = Next st'
    /\ advances st st'
    /\ (forall key v, In key books -> In v (verses (db_of a key)) ->
        (inject_Z (cur_threshold st) <= score_in strict key nq v)%Q ->
        (score_in strict key nq v <= best_score st')%Q).
Proof.
  induction books as [|key rest IH]; intro st; cbn [search_books].
  - exists st. unfold advances. repeat split; auto; try lia; try lra;
      intros key v [].
  - destruct (search_book_text key st) as (st1 & E1 & (Ok1 & Mono1 & Th1) & Hit1).
    rewrite E1.
    destruct (IH st1) as (st2 & E2 & (Ok2 & Mono2 & Th2) & Hit2).
    exists st2. split; [exact E2|]. unfold advances.
    repeat split; auto; try lia; try lra.
    intros k v [Hk | Hk] Hv Hs.
    + subst k. specialize (Hit1 v Hv Hs). lra.
    + apply (Hit2 k v Hk Hv).
      apply Qle_trans with (inject_Z (cur_threshold st)); [|exact Hs].
      rewrite <- Zle_Qle. exact Th1.
Qed.

End SearchInvariants.

(** ** The two gates of [analyze] *)

Ltac not_space_range :=
  repeat match goal with
         | |- (_ || _) = false => apply orb_false_iff; split
         end;
  first [ apply Z.eqb_neq; lia
        | apply andb_false_iff; left; apply Z.leb_gt; lia
        | apply andb_false_iff; right; apply Z.leb_gt; lia ].

Lemma tamil_not_space (c : Z) : is_tamil c = true -> is_space c = false.
Proof.
  unfold is_tamil, is_space. intro H.
  apply andb_true_iff in H. destruct H as [H1 H2].
  apply Z.leb_le in H1, H2. not_space_range.
Qed.

Lemma lstrip_keeps (c : Z) (s : pystr) :
  In c s -> is_space c = false -> In c (lstrip s).
Proof.
  intros Hin Hc. induction s as [|x s IH]; simpl in *; [contradiction|].
  destruct (is_space x) eqn:Ex.
  - destruct Hin as [-> | Hin]; [congruence | apply IH, Hin].
  - exact Hin.
Qed.

Lemma strip_keeps (c : Z) (s : pystr) :
  In c s -> is_space c = false -> In c (strip s).
Proof.
  intros Hin Hc. unfold strip, rstrip.
  apply in_rev. rewrite rev_involutive.
  apply lstrip_keeps; [|exact Hc].
  apply -> in_rev. apply lstrip_keeps; assumption.
Qed.

Lemma collapse_ws_keeps (c : Z) (s : pystr) :
  forall in_run, In c s -> is_space c = false -> In c (collapse_ws s in_run).
Proof.
  induction s as [|x s IH]; intros in_run Hin Hc; simpl in *; [contradiction|].
  destruct (is_space x) eqn:Ex.
  - destruct Hin as [-> | Hin]; [congruence|].
    destruct in_run; [|right]; apply IH; assumption.
  - destruct Hin as [-> | Hin]; [left; reflexivity | right; apply IH; assumption].
Qed.

(** A text with a Tamil character passes both gates of [analyze], and its
    preprocessed form is its cleaned form. *)
Lemma valid_passes_gates (text : pystr) :
  is_valid_tamil text = true ->
  (isEmpty text || (len (strip text) =? 0)) = false
  /\ preprocess_for_analysis text = clean_text text
  /\ isEmpty (preprocess_for_analysis text) = false.
Proof.
  unfold is_valid_tamil. intro H.
  apply existsb_exists in H. destruct H as (c & Hin & Hc).
  pose proof (tamil_not_space c Hc) as Hs.
  assert (Hne : isEmpty text = false) by (destruct text; [contradiction | reflexivity]).
  assert (Hstrip : In c (strip text)) by (apply strip_keeps; assumption).
  assert (Hclean : In c (clean_text text)).
  { unfold clean_text. rewrite Hne.
    apply strip_keeps; [|exact Hs]. apply collapse_ws_keeps; assumption. }
  assert (Hvalid : is_valid_tamil (clean_text text) = true).
  { unfold is_valid_tamil. apply existsb_exists. exists c. split; assumption. }
  assert (Hpre : preprocess_for_analysis text = clean_text text).
  { unfold preprocess_for_analysis. rewrite Hvalid. reflexivity. }
  repeat split.
  - rewrite Hne. simpl. apply Z.eqb_neq. unfold len.
    destruct (strip text); [contradiction | simpl; lia].
  - exact Hpre.
  - rewrite Hpre. destruct (clean_text text); [contradiction | reflexivity].
Qed.

(** ** An exact match *)

Lemma base_threshold_le (n : Z) : base_threshold n <= 50.
Proof.
  unfold base_threshold. destruct (100 <? n), (50 <? n); lia.
Qed.

Lemma threshold_le_98 (nq : pystr) : threshold (classify_query nq) <= 98.
Proof.
  unfold classify_query. simpl.
  pose proof (base_threshold_le (len nq)).
  destruct (negb (looks_like_verse nq) && _); simpl; lia.
Qed.

Lemma threshold_not_strict (nq : pystr) :
  strict_sentence_mode (classify_query nq) = false ->
  threshold (classify_query nq) <= 50.
Proof.
  unfold classify_query. simpl.
  pose proof (base_threshold_le (len nq)).
  destruct (negb (looks_like_verse nq) && _); simpl; [discriminate | lia].
Qed.

(** The score of a verse whose normalized text is the query: the boosted
    100, unless the sentence rejection zeroes a penalised one. *)
Lemma exact_match_score {F : Fuzz} (strict : bool) (key : book_key_t)
    (v : verse_record) :
  let nq := normalize_text (get_str (verse v) []) in
  is_placeholder (get_str (verse v) []) = false ->
  penalised key nq = false \/ strict = false ->
  (100 * kamba_boost_for key nq <= score_in strict key nq v)%Q.
Proof.
  cbv zeta. intros Hp Hcase.
  unfold score_in, candidate_score, verse_score_of. unfold is_placeholder in Hp.
  apply orb_false_iff in Hp. destruct Hp as [Hp1 Hp2].
  rewrite Hp1, Hp2, eqb_refl. simpl.
  set (b := kamba_boost_for key (normalize_text (get_str (verse v) []))) in *.
  match goal with
  | |- context [final_score strict _ ?ch] => generalize ch; intro chapter_score
  end.
  unfold final_score. set (c := inject_Z chapter_score).
  pose proof (py_max_le_l (100 * b)%Q c) as Hmax.
  destruct Hcase as [Hn | ->].
  - apply not_penalised_boost in Hn. fold b in Hn.
    case_Qlt (py_max (100 * b) c) 95%Q.
    + exfalso. lra.
    + rewrite andb_false_r. lra.
  - simpl. exact Hmax.
Qed.

(** C1. An exact match that scores below 95, and one that is not found.
    The exact-match score is [100 * kamba_boost]: the structural multiplier
    of the book is folded into the score of an exact match.

    First input: the Thirukkural database holds an eleven-word verse and
    the query is that very text.  More than ten words make the query
    Kamba-shaped, the Thirukkural book is given the multiplier 0.75, and
    the exact match is stored with score 75: found, with confidence 0.75.

    Second input: the Thirukkural database holds a five-word sentence that
    names Bharata and the query is that very text.  The classifier puts the
    query in strict sentence mode, the name makes the Thirukkural book a
    mismatch (multiplier 0.75), the exact match scores 75, the sentence
    rejection sets it to 0, and nothing is found.

    Both queries have 30 characters or more and are equal to the stored
    text, so no similarity function is consulted. *)
Theorem exact_match_below_95 (F : Fuzz) :
  let a1 := {| thirukkural_db := db_of_verses [verse_of_text 1 eleven_words];
               kamba_db := empty_db |} in
  let a2 := {| thirukkural_db :=
                 db_of_verses [verse_of_text 1 bharata_sentence];
               kamba_db := empty_db |} in
  let nq1 := normalize_text (preprocess_for_analysis eleven_words) in
  let nq2 := normalize_text (preprocess_for_analysis bharata_sentence) in
  (nq1 = normalize_text eleven_words
   /\ is_placeholder eleven_words = false
   /\ kamba_boost_for thirukkural nq1 = 0.75%Q
   /\ (exists r, analyze a1 eleven_words = Found r
                 /\ source r = thirukkural
                 /\ (confidence r == 0.75)%Q
                 /\ (confidence r < 0.95)%Q))
  /\ (nq2 = normalize_text bharata_sentence
      /\ is_placeholder bharata_sentence = false
      /\ strict_sentence_mode (classify_query nq2) = true
      /\ kamba_boost_for thirukkural nq2 = 0.75%Q
      /\ score_in true thirukkural nq2 (verse_of_text 1 bharata_sentence)
         = 0%Q
      /\ found (analyze a2 bharata_sentence) = false).
Proof.
  cbv zeta. split.
  - split; [vm_compute; reflexivity|].
    split; [vm_compute; reflexivity|].
    split; [vm_compute; reflexivity|].
    eexists. split; [vm_compute; reflexivity|]. repeat split.
  - repeat split; vm_compute; reflexivity.
Qed.

(** X29. When an exact match is found.  Take a query with a Tamil
    character that is not all digits and whose normalized text is the
    normalized text of a stored verse that is not a placeholder.  If the
    verse's book is not given the multiplier 0.75 for this query,
    [analyze] finds a match with confidence at least 0.95; if the book is
    given it and strict mode is off, [analyze] finds a match with
    confidence at least 0.75.  In both cases the confidence is at least
    the book's multiplier. *)
Theorem exact_match_found (F : Fuzz) (a : analyzer) (text : pystr)
    (key : book_key_t) (v : verse_record) :
  let nq := normalize_text (preprocess_for_analysis text) in
  is_valid_tamil text = true ->
  isdigit (strip nq) = false ->
  In v (verses (db_of a key)) ->
  is_placeholder (get_str (verse v) []) = false ->
  nq = normalize_text (get_str (verse v) []) ->
  penalised key nq = false
  \/ strict_sentence_mode (classify_query nq) = false ->
  exists r,
    analyze a text = Found r
    /\ (kamba_boost_for key nq <= confidence r)%Q
    /\ (penalised key nq = false -> (0.95 <= confidence r)%Q)
    /\ (0.75 <= confidence r)%Q.
Proof.
  cbv zeta. intros Hvalid Hnum Hin Hph Heq Hcase.
  destruct (valid_passes_gates text Hvalid) as (G1 & _ & G2).
  unfold analyze. rewrite G1, G2.
  unfold _fuzzy_search_all_books.
  set (nq := normalize_text (preprocess_for_analysis text)) in *.
  set (vd := classify_query nq) in *.
  rewrite Hnum.
  set (s0 := {| best_match := None; best_score := 0;
                cur_threshold := threshold vd |}).
  destruct (search_books_text a (strict_sentence_mode vd) nq books_to_search s0)
    as (st & E & (Ok & _ & _) & Hit).
  rewrite E.
  assert (Hkey : In key books_to_search)
    by (destruct key; simpl; auto).
  specialize (Hit key v Hkey Hin).
  specialize (Ok eq_refl).
  pose proof (exact_match_score (strict_sentence_mode vd) key v Hph) as Hsc.
  cbv zeta in Hsc. rewrite <- Heq in Hsc. specialize (Hsc Hcase).
  pose proof (kamba_boost_ge key nq) as Hb.
  pose proof (threshold_le_98 nq) as T98. fold vd in T98.
  pose proof (threshold_not_strict nq) as T50. fold vd in T50.
  set (sc := score_in (strict_sentence_mode vd) key nq v) in *.
  set (b := kamba_boost_for key nq) in *.
  simpl in Hit.
  assert (Hnp : penalised key nq = false -> (1 <= b)%Q)
    by (apply not_penalised_boost).
  (* the verse clears the threshold, so it bounds the best score *)
  assert (Hth : (inject_Z (threshold vd) <= sc)%Q).
  { destruct Hcase as [Hc | Hc].
    - specialize (Hnp Hc). rewrite Zle_Qle in T98.
      change (inject_Z 98) with 98%Q in T98. lra.
    - specialize (T50 Hc). rewrite Zle_Qle in T50.
      change (inject_Z 50) with 50%Q in T50. lra. }
  specialize (Hit Hth).
  (* hence a best match exists, and it carries the best score *)
  unfold state_ok in Ok.
  destruct (best_match st) as [m|] eqn:Em.
  - assert (Hm : (sc <= match_score m)%Q) by (rewrite Ok; exact Hit).
    assert (Hveto : (strict_sentence_mode vd
                     && Qlt_bool (match_score m) 95) = false).
    { destruct Hcase as [Hc | Hc].
      - specialize (Hnp Hc). apply andb_false_iff. right.
        apply Qlt_bool_false_iff. lra.
      - rewrite Hc. reflexivity. }
    rewrite Hveto.
    exists (found_of_match a m). split; [reflexivity|].
    unfold found_of_match. cbn [confidence].
    assert (Hconf : (b <= match_score m / 100)%Q).
    { apply Qle_shift_div_l; [reflexivity|]. lra. }
    repeat split; try lra.
    intro Hc. specialize (Hnp Hc). lra.
  - exfalso. rewrite Ok in Hit. lra.
Qed.

Lemma exact_match_found_witness :
  let a := {| thirukkural_db := db_of_verses [verse_of_text 1 kural_1];
              kamba_db := empty_db |} in
  let nq := normalize_text (preprocess_for_analysis kural_1) in
  exists r,
    analyze (F := no_similarity) a kural_1 = Found r
    /\ (kamba_boost_for thirukkural nq <= confidence r)%Q
    /\ (penalised thirukkural nq = false -> (0.95 <= confidence r)%Q)
    /\ (0.75 <= confidence r)%Q.
Proof.
  cbv zeta.
  apply (exact_match_found no_similarity
           {| thirukkural_db := db_of_verses [verse_of_text 1 kural_1];
              kamba_db := empty_db |}
           kural_1 thirukkural (verse_of_text 1 kural_1)).
  - reflexivity.
  - reflexivity.
  - left. reflexivity.
  - reflexivity.
  - reflexivity.
  - left. reflexivity.
Defined.

(** ** Where the source departs from the specification *)

(** C2. The winner is chosen by the stored score, and the structural
    multiplier enters that score only for an exact match.  The query is a
    Kamba-shaped fragment contained in a Thirukkural entry (at 88% of its
    length: score 95, multiplier 0.75) and in a Kamba entry (at 59% of its
    length: score 85, multiplier 1.30).  Boosted, the Kamba entry leads
    (110.5 against 71.25); the search returns the Thirukkural entry with
    score 95. *)
Theorem winner_chosen_by_stored_score (F : Fuzz) :
  let a :=
    {| thirukkural_db := db_of_verses [verse_of_text 1 rama_fragment_plus_one];
       kamba_db := db_of_verses [verse_of_text 1 rama_fragment_plus_five] |} in
  let nq := normalize_text (preprocess_for_analysis rama_fragment) in
  strict_sentence_mode (classify_query nq) = false
  /\ score_in false thirukkural nq (verse_of_text 1 rama_fragment_plus_one)
     = 95%Q
  /\ kamba_boost_for thirukkural nq = 0.75%Q
  /\ score_in false kamba_ramayanam nq
       (verse_of_text 1 rama_fragment_plus_five) = 85%Q
  /\ kamba_boost_for kamba_ramayanam nq = 1.30%Q
  /\ (95 * 0.75 < 85 * 1.30)%Q
  /\ (exists m,
        _fuzzy_search_all_books a (preprocess_for_analysis rama_fragment)
        = Some m
        /\ book_key m = thirukkural
        /\ match_score m = 95%Q
        /\ boost_applied m = Some 0.75%Q)
  /\ (exists r,
        analyze a rama_fragment = Found r
        /\ source r = thirukkural
        /\ (confidence r == 0.95)%Q).
Proof.
  cbv zeta. repeat split; try (vm_compute; reflexivity).
  - eexists. split; [vm_compute; reflexivity|]. repeat split.
  - eexists. split; [vm_compute; reflexivity|]. repeat split.
Qed.

(** C3. A query that is only a verse number: the database holds verse 1,
    whose number prints as the query ["1"], but the query has no Tamil
    character, so [preprocess_for_analysis] returns the empty string and
    [analyze] answers with the invalid-input result; the number lookup of
    the search is never reached. *)
Theorem verse_number_query_is_rejected (F : Fuzz) :
  let a := {| thirukkural_db := db_of_verses [verse_of_text 1 kural_1];
              kamba_db := empty_db |} in
  verse_num_of (verse_of_text 1 kural_1) = u "1"
  /\ isdigit (u "1") = true
  /\ preprocess_for_analysis (u "1") = []
  /\ normalize_text (u "1") = []
  /\ analyze a (u "1") = InvalidText
  /\ found (analyze a (u "1")) = false.
Proof.
  cbv zeta. repeat split.
Qed.

(** C4. A confidence above 1: the Kamba database holds the Kamba-shaped
    fragment as a verse and the query is that text; the exact match is
    stored as 100 * 1.30 and the confidence is 1.3. *)
Theorem boosted_exact_match_confidence (F : Fuzz) :
  let a := {| thirukkural_db := empty_db;
              kamba_db := db_of_verses [verse_of_text 1 rama_fragment] |} in
  exists r,
    analyze a rama_fragment = Found r
    /\ source r = kamba_ramayanam
    /\ (confidence r == 1.3)%Q
    /\ (1 < confidence r)%Q.
Proof.
  cbv zeta. eexists. split; [vm_compute; reflexivity|]. repeat split.
Qed.

(** C5. A strict-mode query accepted below 98: the sentence has five
    words, a modern verb ending and no verse shape, so strict mode is on
    with threshold 98; it names Bharata, who is missing from the character
    list of the pre-check but present in the list of the per-book
    detection, so the Kamba book lowers the threshold to 42.  The Kamba
    entry that contains the sentence scores 95 and is returned. *)
Theorem strict_mode_accepts_below_98 (F : Fuzz) :
  let a := {| thirukkural_db := empty_db;
              kamba_db :=
                db_of_verses [verse_of_text 1 bharata_sentence_plus_one] |} in
  let nq := normalize_text (preprocess_for_analysis bharata_sentence) in
  let vd := classify_query nq in
  looks_like_verse nq = false
  /\ has_modern_verb (split nq) = true
  /\ query_word_count nq = 5
  /\ strict_sentence_mode vd = true
  /\ threshold vd = 98
  /\ has_kamba_character_precheck nq = false
  /\ has_kamba_character nq = true
  /\ snd (book_structure kamba_ramayanam nq (threshold vd)) = 42
  /\ score_in true kamba_ramayanam nq
       (verse_of_text 1 bharata_sentence_plus_one) = 95%Q
  /\ (exists r,
        analyze a bharata_sentence = Found r
        /\ source r = kamba_ramayanam
        /\ (confidence r == 0.95)%Q).
Proof.
  cbv zeta. repeat split; try (vm_compute; reflexivity).
  eexists. split; [vm_compute; reflexivity|]. repeat split.
Qed.

(** ** Normalized text has one line *)

Lemma lstrip_incl (c : Z) (s : pystr) : In c (lstrip s) -> In c s.
Proof.
  induction s as [|x s IH]; simpl; [auto|].
  destruct (is_space x); [intro H; right; apply IH, H | auto].
Qed.

Lemma strip_incl (c : Z) (s : pystr) : In c (strip s) -> In c s.
Proof.
  unfold strip, rstrip. intro H.
  apply in_rev in H. apply lstrip_incl in H. apply in_rev in H.
  apply lstrip_incl, H.
Qed.

(** After the whitespace runs are collapsed the only whitespace left is
    the space character. *)
Lemma collapse_ws_space (c : Z) (s : pystr) :
  forall in_run, In c (collapse_ws s in_run) -> is_space c = true -> c = 32.
Proof.
  induction s as [|x s IH]; intros in_run Hin Hc; simpl in Hin;
    [contradiction|].
  destruct (is_space x) eqn:Ex.
  - destruct in_run.
    + apply (IH true); assumption.
    + destruct Hin as [<- | Hin]; [reflexivity | apply (IH true); assumption].
  - destruct Hin as [<- | Hin]; [congruence | apply (IH false); assumption].
Qed.

Lemma count_char_absent (c : Z) (s : pystr) :
  ~ In c s -> count_char c s = 0.
Proof.
  unfold count_char. induction s as [|x s IH]; intro H; simpl; [reflexivity|].
  destruct (Z.eqb_spec c x) as [-> | Hne].
  - exfalso. apply H. left. reflexivity.
  - apply IH. intro Hin. apply H. right. exact Hin.
Qed.

Lemma normalize_text_no_newline (text : pystr) :
  ~ In 10 (normalize_text text).
Proof.
  unfold normalize_text. intro H. apply strip_incl in H.
  apply collapse_ws_space in H; [discriminate | reflexivity].
Qed.

Lemma normalized_query_lines (text : pystr) :
  query_lines (normalize_text text) = 1.
Proof.
  unfold query_lines.
  rewrite (count_char_absent 10 _ (normalize_text_no_newline text)).
  reflexivity.
Qed.

Lemma normalized_not_thirukkural_structure (text : pystr) :
  is_thirukkural_structure (normalize_text text) = false.
Proof.
  unfold is_thirukkural_structure. rewrite normalized_query_lines. reflexivity.
Qed.

(** X1. The query the search scores is normalized, so it has exactly one
    line: the two-line Thirukkural shape is never recognised, neither by
    the structural pre-check nor by the per-book detection, and the
    multiplier 1.35 is never applied. *)
Theorem thirukkural_shape_never_recognised (text : pystr) (key : book_key_t) :
  let nq := normalize_text text in
  query_lines nq = 1
  /\ looks_like_thirukkural nq = false
  /\ is_thirukkural_structure nq = false
  /\ kamba_boost_for key nq <> 1.35%Q.
Proof.
  cbv zeta.
  pose proof (normalized_query_lines text) as Hl.
  pose proof (normalized_not_thirukkural_structure text) as Hs.
  repeat split; try assumption.
  unfold kamba_boost_for, book_structure. rewrite Hs.
  rewrite !andb_false_r.
  destruct (book_key_eqb key kamba_ramayanam
            && is_kamba_structure (normalize_text text));
    [discriminate|].
  destruct (book_key_eqb key thirukkural
            && is_kamba_structure (normalize_text text)); discriminate.
Qed.

(** ** Strict mode away from the extra character names *)

Lemma strict_mode_iff (nq : pystr) :
  strict_sentence_mode (classify_query nq) = true
  <-> looks_like_verse nq = false
      /\ ((is_modern_sentence (split nq) = true /\ 2 <= query_word_count nq)
          \/ query_word_count nq <= 3).
Proof.
  unfold classify_query, is_short_query. simpl.
  destruct (looks_like_verse nq); simpl.
  - split; [discriminate | intros [H _]; discriminate].
  - destruct (is_modern_sentence (split nq)
              && (2 <=? query_word_count nq)
              || (query_word_count nq <=? 3)) eqn:E; simpl.
    + apply orb_true_iff in E. rewrite andb_true_iff, !Z.leb_le in E.
      split; auto.
    + apply orb_false_iff in E. destruct E as [E1 E2].
      apply andb_false_iff in E1. apply Z.leb_gt in E2.
      split; [discriminate|]. intros [_ [[H1 H2] | H]]; [|lia].
      destruct E1 as [E1 | E1]; [congruence | apply Z.leb_gt in E1; lia].
Qed.

Lemma strict_threshold (nq : pystr) :
  strict_sentence_mode (classify_query nq) = true ->
  threshold (classify_query nq) = 98.
Proof.
  unfold classify_query. simpl.
  destruct (negb (looks_like_verse nq) && _); simpl;
    [reflexivity | discriminate].
Qed.

(** Without verse shape and without any of the sixteen names, a book
    neither boosts nor lowers the threshold. *)
Lemma plain_book_structure (key : book_key_t) (nq : pystr) (t : Z) :
  looks_like_verse nq = false ->
  has_kamba_character nq = false ->
  book_structure key nq t = (1.0%Q, t).
Proof.
  unfold looks_like_verse, looks_like_kamba. intros Hv Hc.
  apply orb_false_iff in Hv. destruct Hv as [Ht Hk].
  apply orb_false_iff in Hk. destruct Hk as [Hk _].
  apply orb_false_iff in Hk. destruct Hk as [Hw Hl].
  unfold book_structure, is_kamba_structure.
  change (is_thirukkural_structure nq) with (looks_like_thirukkural nq).
  rewrite Ht, Hc, Hw, Hl. simpl. rewrite !andb_false_r. reflexivity.
Qed.

Lemma split_go_chars (c : Z) (w : pystr) (s : pystr) :
  forall cur, In w (split_go s cur) -> In c w -> In c cur \/ In c s.
Proof.
  induction s as [|x r IH]; intros cur Hw Hc; simpl in Hw.
  - destruct (isEmpty cur); [contradiction|].
    destruct Hw as [<- | []]. left. exact Hc.
  - destruct (is_space x).
    + destruct (isEmpty cur).
      * destruct (IH [] Hw Hc) as [[] | H]. right. right. exact H.
      * destruct Hw as [<- | Hw]; [left; exact Hc|].
        destruct (IH [] Hw Hc) as [[] | H]. right. right. exact H.
    + destruct (IH _ Hw Hc) as [H | H].
      * apply in_app_or in H. destruct H as [H | [<- | []]].
        -- left. exact H.
        -- right. left. reflexivity.
      * right. right. exact H.
Qed.

Lemma split_chars (c : Z) (w s : pystr) :
  In w (split s) -> In c w -> In c s.
Proof.
  intros Hw Hc. destruct (split_go_chars c w s [] Hw Hc) as [[] | H]. exact H.
Qed.

(** A word that ends with a non-empty ending has the ending's last
    character. *)
Lemma endswith_last (w e : pystr) (x : Z) :
  endswith w e = true -> hd_error (rev e) = Some x -> In x w.
Proof.
  unfold endswith. intros H Hx. apply in_rev.
  destruct (rev e) as [|y p]; [discriminate|].
  injection Hx as ->.
  destruct (rev w) as [|z q]; simpl in H; [discriminate|].
  apply andb_true_iff in H. destruct H as [H _].
  apply Z.eqb_eq in H. subst z. left. reflexivity.
Qed.

(** Every verb ending ends in a character that is neither a digit nor
    whitespace. *)
Lemma verb_endings_last :
  forall e, In e verb_endings ->
    exists x, hd_error (rev e) = Some x
              /\ is_digit_char x = false /\ is_space x = false.
Proof.
  assert (H : forallb
                (fun e => match hd_error (rev e) with
                          | Some x => negb (is_digit_char x)
                                      && negb (is_space x)
                          | None => false
                          end) verb_endings = true)
    by (vm_compute; reflexivity).
  intros e He. rewrite forallb_forall in H. specialize (H e He).
  destruct (hd_error (rev e)) as [x|]; [|discriminate].
  apply andb_true_iff in H. destruct H as [H1 H2].
  exists x. rewrite negb_true_iff in H1, H2. auto.
Qed.

(** A query with a modern verb ending is not a bare numeral. *)
Lemma modern_verb_not_number (nq : pystr) :
  has_modern_verb (split nq) = true -> isdigit (strip nq) = false.
Proof.
  unfold has_modern_verb. intro H.
  apply existsb_exists in H. destruct H as (w & Hw & He).
  apply existsb_exists in He. destruct He as (e & He & Hend).
  destruct (verb_endings_last e He) as (x & Hx & Hd & Hs).
  pose proof (endswith_last w e x Hend Hx) as Hin.
  pose proof (split_chars x w nq Hw Hin) as Hnq.
  pose proof (strip_keeps x nq Hnq Hs) as Hst.
  unfold isdigit. apply andb_false_iff. right.
  destruct (forallb is_digit_char (strip nq)) eqn:E; [|reflexivity].
  rewrite forallb_forall in E. specialize (E x Hst). congruence.
Qed.

Section BelowThreshold.

Context {F : Fuzz}.
Variables (a : analyzer) (strict : bool) (nq : pystr).

Lemma search_verses_below (key : book_key_t) (book_name : pystr)
    (st : search_state) (vs : list verse_record) :
  (forall v, In v vs ->
     (score_in strict key nq v < inject_Z (cur_threshold st))%Q) ->
  search_verses key book_name (kamba_boost_for key nq) strict false nq vs st
  = Next st.
Proof.
  induction vs as [|v vs IH]; intro H; cbn [search_verses]; [reflexivity|].
  assert (Hv : (score_in strict key nq v < inject_Z (cur_threshold st))%Q)
    by (apply H; left; reflexivity).
  unfold visit_verse. fold (score_in strict key nq v).
  replace (Qle_bool (inject_Z (cur_threshold st)) (score_in strict key nq v))
    with false by (symmetry; apply Qle_bool_false_iff; exact Hv).
  rewrite andb_false_r.
  apply IH. intros w Hw. apply H. right. exact Hw.
Qed.

Hypothesis plain : forall key t, book_structure key nq t = (1.0%Q, t).

Lemma plain_boost (key : book_key_t) : kamba_boost_for key nq = 1.0%Q.
Proof. unfold kamba_boost_for. rewrite plain. reflexivity. Qed.

Lemma search_book_below (key : book_key_t) (st : search_state) :
  (forall v, In v (verses (db_of a key)) ->
     (score_in strict key nq v < inject_Z (cur_threshold st))%Q) ->
  exists st',
    search_book a strict false nq key st = Next st'
    /\ best_match st' = best_match st
    /\ cur_threshold st' = cur_threshold st.
Proof.
  intro H. unfold search_book.
  destruct (verses (db_of a key)) as [|v0 vs0] eqn:Ev.
  - exists st. auto.
  - rewrite plain. rewrite <- (plain_boost key).
    eexists. split.
    + apply search_verses_below. simpl. exact H.
    + split; reflexivity.
Qed.

Lemma search_books_below (books : list book_key_t) :
  forall st : search_state,
    (forall key v, In v (verses (db_of a key)) ->
       (score_in strict key nq v < inject_Z (cur_threshold st))%Q) ->
    exists st',
      search_books a strict false nq books st = Next st'
      /\ best_match st' = best_match st
      /\ cur_threshold st' = cur_threshold st.
Proof.
  induction books as [|key rest IH]; intros st H; cbn [search_books].
  - exists st. auto.
  - destruct (search_book_below key st (H key)) as (st1 & E1 & M1 & T1).
    rewrite E1.
    destruct (IH st1) as (st2 & E2 & M2 & T2).
    { intros k v Hv. rewrite T1. apply H, Hv. }
    exists st2. split; [exact E2|]. split; congruence.
Qed.

End BelowThreshold.

(** X2. A query without verse shape that has a modern verb ending and at
    least two words, and that names none of the sixteen characters of the
    per-book detection, is answered with found = false whenever no verse of
    either book scores 98 or more. *)
Theorem strict_mode_rejects_below_98 (F : Fuzz) (a : analyzer) (text : pystr) :
  let nq := normalize_text (preprocess_for_analysis text) in
  ~ verse_shaped nq ->
  has_modern_verb (split nq) = true ->
  2 <= query_word_count nq ->
  has_kamba_character nq = false ->
  (forall key v, In v (verses (db_of a key)) ->
     (score_in true key nq v < 98)%Q) ->
  strict_sentence_mode (classify_query nq) = true
  /\ threshold (classify_query nq) = 98
  /\ found (analyze a text) = false.
Proof.
  cbv zeta. intros Hshape Hverb Hwords Hnames Hscores.
  set (nq := normalize_text (preprocess_for_analysis text)) in *.
  apply looks_like_verse_false_iff in Hshape.
  assert (Hstrict : strict_sentence_mode (classify_query nq) = true).
  { apply strict_mode_iff. split; [exact Hshape|]. left. split; [|exact Hwords].
    unfold is_modern_sentence. rewrite Hverb. reflexivity. }
  pose proof (strict_threshold nq Hstrict) as Hth.
  split; [exact Hstrict|]. split; [exact Hth|].
  unfold analyze.
  destruct (isEmpty text || (len (strip text) =? 0)); [reflexivity|].
  destruct (isEmpty (preprocess_for_analysis text)); [reflexivity|].
  unfold _fuzzy_search_all_books. fold nq.
  rewrite (modern_verb_not_number nq Hverb), Hstrict, Hth.
  set (s0 := {| best_match := None; best_score := 0; cur_threshold := 98 |}).
  destruct (search_books_below a true nq
              (fun key t => plain_book_structure key nq t Hshape Hnames)
              books_to_search s0)
    as (st & E & M & _).
  { intros key v Hv. simpl. apply Hscores, Hv. }
  rewrite E, M. reflexivity.
Qed.

Lemma strict_mode_rejects_below_98_witness :
  let a := {| thirukkural_db := db_of_verses [verse_of_text 1 kural_1];
              kamba_db := empty_db |} in
  let text := u "நான் பள்ளிக்கு நடந்து வந்தேன் என்று அவனிடம் சொன்னேன்" in
  let nq := normalize_text (preprocess_for_analysis text) in
  strict_sentence_mode (classify_query nq) = true
  /\ threshold (classify_query nq) = 98
  /\ found (analyze (F := no_similarity) a text) = false.
Proof.
  cbv zeta.
  apply (strict_mode_rejects_below_98 no_similarity
           {| thirukkural_db := db_of_verses [verse_of_text 1 kural_1];
              kamba_db := empty_db |}
           (u "நான் பள்ளிக்கு நடந்து வந்தேன் என்று அவனிடம் சொன்னேன்")).
  - intro H. apply looks_like_verse_iff in H. vm_compute in H. discriminate.
  - vm_compute. reflexivity.
  - vm_compute. discriminate.
  - vm_compute. reflexivity.
  - intros key v Hv. destruct key; simpl in Hv.
    + destruct Hv as [<- | []]. vm_compute. reflexivity.
    + contradiction.
Defined.

(** ** The verse-number lookup *)

Section NumberLookup.

Context {F : Fuzz}.
Variables (a : analyzer) (strict : bool) (nq : pystr).

Lemma search_verses_number (key : book_key_t) (book_name : pystr)
    (kamba_boost : Q) (st : search_state) (vs : list verse_record) :
  (forall v, In v vs -> In v (verses (db_of a key))) ->
  (exists m, search_verses key book_name kamba_boost strict true nq vs st
             = Return m /\ number_hit a nq key m)
  \/ (search_verses key book_name kamba_boost strict true nq vs st = Next st
      /\ forall v, In v vs -> verse_num_of v <> strip nq).
Proof.
  induction vs as [|v vs IH]; intro Hsub; cbn [search_verses].
  - right. split; [reflexivity | intros v []].
  - unfold visit_verse.
    destruct (eqb (strip nq) (verse_num_of v)) eqn:E.
    + left. apply eqb_true_iff in E. eexists. split; [reflexivity|].
      unfold number_hit. simpl.
      repeat split; auto. apply Hsub. left. reflexivity.
    + apply eqb_false_iff in E.
      destruct IH as [(m & Em & Hm) | (En & Hn)].
      * intros w Hw. apply Hsub. right. exact Hw.
      * left. exists m. split; assumption.
      * right. split; [exact En|].
        intros w [<- | Hw]; [congruence | apply Hn, Hw].
Qed.

Lemma search_book_number (key : book_key_t) (st : search_state) :
  (exists m, search_book a strict true nq key st = Return m
             /\ number_hit a nq key m)
  \/ (exists st', search_book a strict true nq key st = Next st')
     /\ forall v, In v (verses (db_of a key)) -> verse_num_of v <> strip nq.
Proof.
  unfold search_book.
  destruct (verses (db_of a key)) as [|v0 vs0] eqn:Ev.
  - right. split; [exists st; reflexivity | intros v []].
  - destruct (book_structure key nq (cur_threshold st)) as [boost th].
    match goal with
    | |- context [search_verses key ?bn boost strict true nq ?vs ?s0] =>
      destruct (search_verses_number key bn boost s0 vs)
        as [(m & Em & Hm) | (En & Hn)]
    end.
    + rewrite Ev. auto.
    + left. exists m. split; assumption.
    + right. split; [eexists; exact En | exact Hn].
Qed.

Lemma search_books_number (books : list book_key_t) :
  forall st : search_state,
    (exists m key, search_books a strict true nq books st = Return m
                   /\ In key books /\ number_hit a nq key m)
    \/ (exists st', search_books a strict true nq books st = Next st')
       /\ forall key v, In key books -> In v (verses (db_of a key)) ->
                        verse_num_of v <> strip nq.
Proof.
  induction books as [|key rest IH]; intro st; cbn [search_books].
  - right. split; [exists st; reflexivity | intros key v []].
  - destruct (search_book_number key st)
      as [(m & Em & Hm) | ((st1 & E1) & Hn1)].
    + left. exists m, key. rewrite Em.
      split; [reflexivity|]. split; [left; reflexivity | exact Hm].
    + rewrite E1.
      destruct (IH st1) as [(m & k & Em & Hk & Hm) | (Hnext & Hn)].
      * left. exists m, k.
        split; [exact Em|]. split; [right; exact Hk | exact Hm].
      * right. split; [exact Hnext|].
        intros k v [<- | Hk] Hv; [apply Hn1, Hv | apply (Hn k v Hk Hv)].
Qed.

End NumberLookup.

(** X3. A query of Tamil digits only that spells the stored number of a verse
    is answered with found = true and confidence 1, for a book that holds a
    verse with that number (the first such book in search order). *)
Theorem tamil_numeral_lookup (F : Fuzz) (a : analyzer) (text : pystr)
    (key : book_key_t) (v : verse_record) :
  let nq := normalize_text (preprocess_for_analysis text) in
  is_valid_tamil text = true ->
  isdigit (strip nq) = true ->
  In v (verses (db_of a key)) ->
  verse_num_of v = strip nq ->
  exists r,
    analyze a text = Found r
    /\ number r = strip nq
    /\ (confidence r == 1)%Q
    /\ (exists w, In w (verses (db_of a (source r)))
                  /\ verse_num_of w = strip nq)
    /\ (key = thirukkural -> source r = thirukkural).
Proof.
  cbv zeta. intros Hvalid Hnum Hin Hv.
  destruct (valid_passes_gates text Hvalid) as (G1 & _ & G2).
  unfold analyze. rewrite G1, G2.
  unfold _fuzzy_search_all_books.
  set (nq := normalize_text (preprocess_for_analysis text)) in *.
  rewrite Hnum.
  match goal with
  | |- context [search_books a ?s true nq books_to_search ?s0] =>
    destruct (search_books_number a s nq books_to_search s0)
      as [(m & k & Em & Hk & Hm) | (_ & Hn)];
    [ rewrite Em | ]
  end.
  - destruct Hm as (Hs & Hb & Hvn & Hrec & Hrn).
    exists (found_of_match a m). split; [reflexivity|].
    unfold found_of_match. cbn [number confidence source].
    rewrite Hs, Hb.
    repeat split; auto.
    + exists (m_record m). split; assumption.
    + intros ->. destruct k; [reflexivity|].
      (* a Kamba hit means the Thirukkural pass found nothing *)
      exfalso. revert Em. unfold books_to_search. cbn [search_books].
      match goal with
      | |- context [search_book a ?s true nq thirukkural ?s0] =>
        destruct (search_book_number a s nq thirukkural s0)
          as [(m' & Em' & Hm') | (_ & Hn')]
      end.
      * rewrite Em'. intro Em. injection Em as <-.
        destruct Hm' as (_ & Hb' & _). congruence.
      * exfalso. apply (Hn' v Hin Hv).
  - exfalso. apply (Hn key v); [destruct key; simpl; auto | exact Hin | exact Hv].
Qed.

Lemma tamil_numeral_lookup_witness :
  let a := {| thirukkural_db := db_of_verses [kural_1_tamil_number];
              kamba_db := empty_db |} in
  let nq := normalize_text (preprocess_for_analysis (u "௧")) in
  exists r,
    analyze (F := no_similarity) a (u "௧") = Found r
    /\ number r = strip nq
    /\ (confidence r == 1)%Q
    /\ (exists w, In w (verses (db_of a (source r)))
                  /\ verse_num_of w = strip nq)
    /\ (thirukkural = thirukkural -> source r = thirukkural).
Proof.
  cbv zeta.
  apply (tamil_numeral_lookup no_similarity
           {| thirukkural_db := db_of_verses [kural_1_tamil_number];
              kamba_db := empty_db |}
           (u "௧") thirukkural kural_1_tamil_number).
  - reflexivity.
  - reflexivity.
  - left. reflexivity.
  - reflexivity.
Defined.

(** ** The range of the confidence *)

Lemma fuzzy_validated_le (f ql vl n : Z) (r : Q) :
  0 <= f -> fuzzy_validated f ql vl n r <= f.
Proof.
  intro Hf. destruct (95 <=? f) eqn:E95.
  - unfold fuzzy_validated. rewrite E95.
    repeat match goal with
           | |- context [if ?c then _ else _] => destruct c
           end; lia.
  - apply Z.leb_gt in E95. apply fuzzy_validated_below; assumption.
Qed.

Lemma containment_score_le (nq nv : pystr) : (containment_score nq nv <= 95)%Q.
Proof.
  unfold containment_score.
  destruct (Qle_bool _ _); [lra|].
  destruct (Qle_bool _ _); [lra|].
  case_Qle 0.5%Q (word_overlap nq nv); [lra|].
  apply Qle_trans with (inject_Z 35); [|unfold Qle; simpl; lia].
  rewrite <- Zle_Qle. apply py_int_le_inject.
  apply Qle_trans with (fl 35); [|closed_Q].
  apply fl_mono.
  assert (H : (fl (word_overlap nq nv) <= 1 # 2)%Q).
  { apply Qle_trans with (fl (1 # 2)); [apply fl_mono; lra | closed_Q]. }
  lra.
Qed.

Section ConfidenceRange.

Context {F : Fuzz}.
Hypothesis range : fuzz_in_range F.
Variables (a : analyzer) (strict is_number_search : bool) (nq : pystr).
Hypothesis one_line : is_thirukkural_structure nq = false.

Lemma boost_le (key : book_key_t) (t : Z) :
  (fst (book_structure key nq t) <= 1.30)%Q.
Proof.
  unfold book_structure. rewrite one_line, !andb_false_r.
  repeat match goal with
         | |- context [if ?c then _ else _] => destruct c
         end; simpl; unfold Qle; simpl; lia.
Qed.

Lemma chapter_score_le (nchapter : pystr) :
  chapter_score_of nq nchapter <= 100.
Proof.
  unfold chapter_score_of.
  destruct (range nq nchapter) as [_ Hp].
  destruct (len nq <? 30); [|lia].
  destruct (partial_ratio nq nchapter <? 70); lia.
Qed.

Lemma verse_score_le (kamba_boost : Q) (verse_text nv : pystr) :
  (kamba_boost <= 1.30)%Q ->
  (verse_score_of kamba_boost nq verse_text nv <= 130)%Q.
Proof.
  intro Hb. unfold verse_score_of.
  destruct (negb _ && negb _); [|lra].
  destruct (eqb nq nv); [lra|].
  destruct (contains nv nq || contains nq nv).
  - pose proof (containment_score_le nq nv). lra.
  - unfold fuzzy_score.
    destruct (range nq nv) as [Ht Hp].
    match goal with
    | |- context [fuzzy_validated ?f ?ql ?vl ?n ?r] =>
      pose proof (fuzzy_validated_le f ql vl n r ltac:(lia)) as Hv;
      assert (Hf : f <= 100) by lia;
      generalize dependent (fuzzy_validated f ql vl n r)
    end.
    intros z Hz. assert (Hz' : z <= 130) by lia.
    rewrite Zle_Qle in Hz'. exact Hz'.
Qed.

Lemma candidate_score_le (kamba_boost : Q) (v : verse_record) :
  (kamba_boost <= 1.30)%Q ->
  (candidate_score strict kamba_boost nq v <= 130)%Q.
Proof.
  intro Hb. unfold candidate_score, final_score.
  match goal with
  | |- context [py_max ?x (inject_Z ?c)] =>
    assert (Hx : (x <= 130)%Q) by (apply verse_score_le; exact Hb);
    assert (Hc : c <= 100) by apply chapter_score_le;
    generalize dependent x; generalize dependent c
  end.
  intros c Hc x Hx.
  assert (Hm : (py_max x (inject_Z c) <= 130)%Q).
  { unfold py_max. destruct (Qlt_bool x (inject_Z c)); [|exact Hx].
    rewrite Zle_Qle in Hc. change (inject_Z 100) with 100%Q in Hc. lra. }
  destruct (strict && Qlt_bool (py_max x (inject_Z c)) 95); [lra | exact Hm].
Qed.

Lemma visit_verse_bounded (key : book_key_t) (book_name : pystr)
    (kamba_boost : Q) (st : search_state) (v : verse_record) :
  (kamba_boost <= 1.30)%Q ->
  bounded st ->
  outcome_bounded
    (visit_verse key book_name kamba_boost strict is_number_search nq st v).
Proof.
  intros Hb [H0 Hm]. unfold visit_verse.
  destruct is_number_search.
  - destruct (eqb _ _); simpl; [lra | split; assumption].
  - pose proof (candidate_score_le kamba_boost v Hb) as Hc.
    case_Qlt (best_score st) (candidate_score strict kamba_boost nq v);
      simpl; [|split; assumption].
    destruct (Qle_bool _ _); simpl; [|split; assumption].
    split; simpl; lra.
Qed.

Lemma search_verses_bounded (key : book_key_t) (book_name : pystr)
    (kamba_boost : Q) (vs : list verse_record) :
  (kamba_boost <= 1.30)%Q ->
  forall st, bounded st ->
    outcome_bounded
      (search_verses key book_name kamba_boost strict is_number_search nq
         vs st).
Proof.
  intro Hb. induction vs as [|v vs IH]; intros st Hst; cbn [search_verses].
  - exact Hst.
  - pose proof (visit_verse_bounded key book_name kamba_boost st v Hb Hst)
      as Hv.
    destruct (visit_verse _ _ _ _ _ _ st v) as [m | st']; simpl in Hv.
    + exact Hv.
    + apply IH, Hv.
Qed.

Lemma search_book_bounded (key : book_key_t) (st : search_state) :
  bounded st ->
  outcome_bounded (search_book a strict is_number_search nq key st).
Proof.
  intro Hst. unfold search_book.
  destruct (verses (db_of a key)) as [|v0 vs0]; [exact Hst|].
  pose proof (boost_le key (cur_threshold st)) as Hb.
  destruct (book_structure key nq (cur_threshold st)) as [boost th].
  apply search_verses_bounded; [exact Hb|].
  destruct Hst as [H0 Hm]. split; assumption.
Qed.

Lemma search_books_bounded (books : list book_key_t) :
  forall st, bounded st ->
    outcome_bounded (search_books a strict is_number_search nq books st).
Proof.
  induction books as [|key rest IH]; intros st Hst; cbn [search_books].
  - exact Hst.
  - pose proof (search_book_bounded key st Hst) as Hb.
    destruct (search_book _ _ _ _ key st) as [m | st']; simpl in Hb.
    + exact Hb.
    + apply IH, Hb.
Qed.

End ConfidenceRange.

(** X4. With the similarity functions in their documented range 0..100, every
    match has a score above 0 and at most 130, so a found result has a
    confidence above 0 and at most 1.3. *)
Theorem confidence_range (F : Fuzz) (a : analyzer) (text : pystr)
    (r : found_result) :
  fuzz_in_range F ->
  analyze a text = Found r ->
  (0 < confidence r <= 1.3)%Q.
Proof.
  intros Hrange. unfold analyze.
  destruct (isEmpty text || (len (strip text) =? 0)); [discriminate|].
  destruct (isEmpty (preprocess_for_analysis text)); [discriminate|].
  unfold _fuzzy_search_all_books.
  set (nq := normalize_text (preprocess_for_analysis text)).
  set (vd := classify_query nq).
  set (s0 := {| best_match := None; best_score := 0;
                cur_threshold := threshold vd |}).
  pose proof (normalized_not_thirukkural_structure
                (preprocess_for_analysis text)) as Hline.
  fold nq in Hline.
  assert (H0 : bounded s0) by (split; simpl; [lra | exact I]).
  pose proof (search_books_bounded Hrange a (strict_sentence_mode vd)
                (isdigit (strip nq)) nq Hline books_to_search s0 H0) as Hb.
  assert (Hm : forall m, (0 < match_score m <= 130)%Q ->
                         Found (found_of_match a m) = Found r ->
                         (0 < confidence r <= 1.3)%Q).
  { intros m [Hlo Hhi] E. apply (f_equal (fun x => match x with
                                                   | Found f => confidence f
                                                   | _ => 0%Q
                                                   end)) in E.
    simpl in E. rewrite <- E. split.
    - apply Qlt_shift_div_l; [reflexivity | lra].
    - apply Qle_shift_div_r; [reflexivity | lra]. }
  destruct (search_books _ _ _ _ _ s0) as [m | st]; simpl in Hb.
  - apply Hm, Hb.
  - destruct Hb as [_ Hb].
    destruct (best_match st) as [m|]; [|discriminate].
    destruct (strict_sentence_mode vd && Qlt_bool (match_score m) 95);
      [discriminate|].
    apply Hm, Hb.
Qed.

Lemma confidence_range_witness :
  exists r,
    analyze (F := no_similarity)
      {| thirukkural_db := empty_db;
         kamba_db := db_of_verses [verse_of_text 1 rama_fragment] |}
      rama_fragment = Found r
    /\ (0 < confidence r <= 1.3)%Q.
Proof.
  eexists. split; [vm_compute; reflexivity|].
  apply (confidence_range no_similarity
           {| thirukkural_db := empty_db;
              kamba_db := db_of_verses [verse_of_text 1 rama_fragment] |}
           rama_fragment).
  - intros x y. simpl. lia.
  - vm_compute. reflexivity.
Defined.

(** * Further properties of the text processor *)

(** ** Stripping, splitting and joining *)

Lemma lstrip_app (p q : pystr) :
  lstrip (p ++ q) = if isEmpty (lstrip p) then lstrip q else lstrip p ++ q.
Proof.
  induction p as [|x p IH]; simpl; [reflexivity|].
  destruct (is_space x); [exact IH | reflexivity].
Qed.

Lemma isEmpty_rev (s : pystr) : isEmpty (rev s) = isEmpty s.
Proof.
  destruct s as [|x s]; [reflexivity|]. simpl.
  destruct (rev s); reflexivity.
Qed.

Lemma rstrip_app (a b : pystr) :
  rstrip (a ++ b) = if isEmpty (rstrip b) then rstrip a else a ++ rstrip b.
Proof.
  unfold rstrip. rewrite rev_app_distr, lstrip_app, isEmpty_rev.
  destruct (isEmpty (lstrip (rev b))); [reflexivity|].
  rewrite rev_app_distr, rev_involutive. reflexivity.
Qed.

Lemma rstrip_nil : rstrip [] = [].
Proof. reflexivity. Qed.

Lemma rstrip_single (c : Z) : rstrip [c] = if is_space c then [] else [c].
Proof. unfold rstrip. simpl. destruct (is_space c); reflexivity. Qed.

Lemma rstrip_ends_in_word (cur : pystr) : ends_in_word cur -> rstrip cur = cur.
Proof.
  intros (s & c & -> & Hc). rewrite rstrip_app, rstrip_single, Hc. reflexivity.
Qed.

Lemma ends_in_word_snoc (cur : pystr) (c : Z) :
  is_space c = false -> ends_in_word (cur ++ [c]).
Proof. intro H. exists cur, c. auto. Qed.

Lemma ends_in_word_nonempty (cur : pystr) :
  ends_in_word cur -> isEmpty cur = false.
Proof. intros (s & c & -> & _). destruct s; reflexivity. Qed.

Lemma split_go_nonempty (s : pystr) :
  forall cur, Forall (fun w => w <> []) (split_go s cur).
Proof.
  induction s as [|x r IH]; intro cur; simpl.
  - destruct cur; simpl; constructor; [discriminate | constructor].
  - destruct (is_space x); [|apply IH].
    destruct cur; simpl; [apply IH|].
    constructor; [discriminate | apply IH].
Qed.

Lemma join_space_nil (ws : list pystr) :
  Forall (fun w => w <> []) ws -> join_space ws = [] -> ws = [].
Proof.
  intros H E. destruct ws as [|p rest]; [reflexivity|].
  inversion H as [|? ? Hp _]; subst. exfalso.
  destruct rest; simpl in E; [contradiction|].
  destruct p; [contradiction | discriminate].
Qed.

Lemma join_space_cons (p : pystr) (rest : list pystr) :
  join_space (p :: rest)
  = match rest with [] => p | _ => p ++ 32 :: join_space rest end.
Proof. destruct rest; reflexivity. Qed.

(** With [in_run] set, the collapsed text does not begin with whitespace. *)
Lemma lstrip_collapse_run (s : pystr) :
  lstrip (collapse_ws s true) = collapse_ws s true.
Proof.
  induction s as [|x r IH]; simpl; [reflexivity|].
  destruct (is_space x) eqn:E; [exact IH|]. simpl. rewrite E. reflexivity.
Qed.

(** Collapsing the whitespace and trimming, read against [split_go]. *)
Lemma collapse_split_go (s : pystr) :
  (forall cur, ends_in_word cur ->
     rstrip (cur ++ collapse_ws s false) = join_space (split_go s cur))
  /\ (forall in_run,
        rstrip (lstrip (collapse_ws s in_run)) = join_space (split_go s [])).
Proof.
  induction s as [|x r [IH1 IH2]]; split.
  - intros cur Hc. simpl. rewrite app_nil_r, (ends_in_word_nonempty cur Hc).
    apply rstrip_ends_in_word, Hc.
  - intro b. reflexivity.
  - intros cur Hc. simpl. destruct (is_space x) eqn:Ex.
    + rewrite (ends_in_word_nonempty cur Hc), join_space_cons.
      pose proof (IH2 true) as H2. rewrite lstrip_collapse_run in H2.
      rewrite rstrip_app.
      change (32 :: collapse_ws r true) with ([32] ++ collapse_ws r true).
      rewrite rstrip_app, H2, rstrip_single. simpl.
      destruct (split_go r []) as [|w ws] eqn:Ew.
      * simpl. apply rstrip_ends_in_word, Hc.
      * destruct (join_space (w :: ws)) as [|y j] eqn:Ej.
        -- apply join_space_nil in Ej; [discriminate|].
           rewrite <- Ew. apply split_go_nonempty.
        -- reflexivity.
    + change (cur ++ x :: collapse_ws r false)
        with (cur ++ [x] ++ collapse_ws r false).
      rewrite app_assoc. apply IH1, ends_in_word_snoc, Ex.
  - intro b. simpl. destruct (is_space x) eqn:Ex.
    + destruct b; simpl; apply (IH2 true).
    + simpl. rewrite Ex.
      change (x :: collapse_ws r false) with ([x] ++ collapse_ws r false).
      apply IH1. exists [], x. auto.
Qed.

Lemma strip_collapse_is_join_split (s : pystr) :
  strip (collapse_ws s false) = join_space (split s).
Proof. unfold strip, split. apply (proj2 (collapse_split_go s) false). Qed.

Lemma split_go_word (w s : pystr) :
  space_free w -> forall cur, split_go (w ++ s) cur = split_go s (cur ++ w).
Proof.
  induction w as [|x w IH]; intros Hw cur; simpl.
  - rewrite app_nil_r. reflexivity.
  - rewrite (Hw x (or_introl eq_refl)).
    rewrite IH by (intros c Hc; apply Hw; right; exact Hc).
    rewrite <- app_assoc. reflexivity.
Qed.

(** Splitting what was joined gives back the non-empty words. *)
Lemma split_join (ws : list pystr) :
  Forall space_free ws -> split (join_space ws) = filter nonempty ws.
Proof.
  unfold split. induction ws as [|p rest IH]; intro H; [reflexivity|].
  inversion H as [|? ? Hp Hrest]; subst.
  rewrite join_space_cons. destruct rest as [|q rest'].
  - pose proof (split_go_word p [] Hp []) as E. rewrite app_nil_r in E.
    rewrite E. simpl. unfold nonempty. destruct p; reflexivity.
  - rewrite (split_go_word p _ Hp []). cbn [app split_go].
    rewrite (eq_refl : is_space 32 = true), (IH Hrest).
    cbn [filter]. unfold nonempty at 2. destruct p; reflexivity.
Qed.

Lemma filter_nonempty_id (ws : list pystr) :
  Forall (fun w => w <> []) ws -> filter nonempty ws = ws.
Proof.
  induction 1 as [|w ws Hw _ IH]; [reflexivity|]. simpl.
  rewrite IH. destruct w; [contradiction | reflexivity].
Qed.

Lemma space_free_app (a b : pystr) :
  space_free a -> space_free b -> space_free (a ++ b).
Proof.
  intros Ha Hb c Hc. apply in_app_or in Hc. destruct Hc; auto.
Qed.

Lemma split_go_space_free (s : pystr) :
  forall cur, space_free cur -> Forall space_free (split_go s cur).
Proof.
  induction s as [|x r IH]; intros cur Hc; simpl.
  - destruct (isEmpty cur); constructor; [exact Hc | constructor].
  - destruct (is_space x) eqn:Ex.
    + assert (H0 : space_free []) by (intros c []).
      destruct (isEmpty cur); [apply IH, H0|].
      constructor; [exact Hc | apply IH, H0].
    + apply IH, space_free_app; [exact Hc|].
      intros c [<- | []]. exact Ex.
Qed.

Lemma split_space_free (s : pystr) : Forall space_free (split s).
Proof. apply split_go_space_free. intros c []. Qed.

Lemma split_nonempty (s : pystr) : Forall (fun w => w <> []) (split s).
Proof. apply split_go_nonempty. Qed.

(** A round trip: splitting the joined words of a text changes nothing. *)
Lemma split_join_split (s : pystr) : split (join_space (split s)) = split s.
Proof.
  rewrite split_join by apply split_space_free.
  apply filter_nonempty_id, split_nonempty.
Qed.

Lemma filter_kept_join (ws : list pystr) :
  filter kept (join_space ws) = join_space (map (filter kept) ws).
Proof.
  induction ws as [|p rest IH]; [reflexivity|].
  cbn [map]. rewrite !join_space_cons.
  destruct rest as [|q rest']; [reflexivity|].
  rewrite filter_app. cbn [filter]. rewrite (eq_refl : kept 32 = true).
  rewrite IH. reflexivity.
Qed.

Lemma filter_space_free (f : Z -> bool) (w : pystr) :
  space_free w -> space_free (filter f w).
Proof.
  intros H c Hc. apply filter_In in Hc. apply H, Hc.
Qed.

(** Dropping the other characters first, or word by word afterwards. *)
Lemma split_go_filter_kept (s : pystr) :
  forall cur,
    split_go (filter kept s) (filter kept cur)
    = filter nonempty (map (filter kept) (split_go s cur)).
Proof.
  induction s as [|x r IH]; intro cur.
  - cbn [filter split_go]. destruct cur as [|y cur']; [reflexivity|].
    cbn [isEmpty map]. generalize (filter kept (y :: cur')).
    intros [|z l]; reflexivity.
  - cbn [split_go]. destruct (is_space x) eqn:Ex.
    + assert (Hk : kept x = true)
        by (unfold kept; rewrite Ex; apply orb_true_r).
      change (filter kept (x :: r))
        with (if kept x then x :: filter kept r else filter kept r).
      rewrite Hk. cbn [split_go]. rewrite Ex.
      pose proof (IH []) as IH0. change (filter kept []) with (@nil Z) in IH0.
      destruct cur as [|y cur'].
      * change (filter kept []) with (@nil Z). cbn [isEmpty]. exact IH0.
      * cbn [isEmpty map]. rewrite IH0.
        generalize (filter kept (y :: cur')). intros [|z l]; reflexivity.
    + pose proof (IH (cur ++ [x])) as IHx. rewrite filter_app in IHx.
      change (filter kept [x]) with (if kept x then [x] else []) in IHx.
      change (filter kept (x :: r))
        with (if kept x then x :: filter kept r else filter kept r).
      destruct (kept x) eqn:Hk.
      * cbn [split_go]. rewrite Ex. exact IHx.
      * rewrite app_nil_r in IHx. exact IHx.
Qed.

Lemma split_filter_kept (s : pystr) :
  split (filter kept s) = filter nonempty (map (filter kept) (split s)).
Proof. apply (split_go_filter_kept s []). Qed.

Lemma normalize_text_words (text : pystr) :
  normalize_text text = join_space (split (filter kept text)).
Proof. unfold normalize_text. apply strip_collapse_is_join_split. Qed.

Lemma filter_all (f : Z -> bool) (s : pystr) :
  (forall c, In c s -> f c = true) -> filter f s = s.
Proof.
  induction s as [|x s IH]; intro H; [reflexivity|]. simpl.
  rewrite (H x (or_introl eq_refl)). f_equal.
  apply IH. intros c Hc. apply H. right. exact Hc.
Qed.

Lemma join_space_chars (c : Z) (ws : list pystr) :
  In c (join_space ws) -> c = 32 \/ exists w, In w ws /\ In c w.
Proof.
  induction ws as [|p rest IH]; [intros []|].
  rewrite join_space_cons. destruct rest as [|q rest'].
  - intro H. right. exists p. split; [left; reflexivity | exact H].
  - intro H. apply in_app_or in H. destruct H as [H | [<- | H]].
    + right. exists p. split; [left; reflexivity | exact H].
    + left. reflexivity.
    + destruct (IH H) as [-> | (w & Hw & Hc)]; [left; reflexivity|].
      right. exists w. split; [right; exact Hw | exact Hc].
Qed.

Lemma tamil_word_space_free (w : pystr) : tamil_word w -> space_free w.
Proof. intros [_ H] c Hc. apply tamil_not_space, H, Hc. Qed.

(** Tamil words joined by single spaces are already normalized. *)
Lemma normalize_join_words (ws : list pystr) :
  Forall tamil_word ws -> normalize_text (join_space ws) = join_space ws.
Proof.
  intro H. rewrite normalize_text_words.
  rewrite (filter_all kept).
  - rewrite split_join.
    + rewrite filter_nonempty_id; [reflexivity|].
      eapply Forall_impl; [|exact H]. intros w [Hw _]. exact Hw.
    + eapply Forall_impl; [|exact H]. apply tamil_word_space_free.
  - intros c Hc. apply join_space_chars in Hc.
    destruct Hc as [-> | (w & Hw & Hc)]; [reflexivity|].
    rewrite Forall_forall in H. destruct (H w Hw) as [_ Ht].
    unfold kept. rewrite (Ht c Hc). reflexivity.
Qed.

Lemma normalized_words_tamil (text : pystr) :
  Forall tamil_word (split (filter kept text)).
Proof.
  apply Forall_forall. intros w Hw. split.
  - pose proof (split_nonempty (filter kept text)) as H.
    rewrite Forall_forall in H. apply H, Hw.
  - intros c Hc.
    pose proof (split_chars c w _ Hw Hc) as Hin.
    apply filter_In in Hin. destruct Hin as [_ Hk].
    pose proof (split_space_free (filter kept text)) as Hs.
    rewrite Forall_forall in Hs. specialize (Hs w Hw c Hc).
    unfold kept in Hk. rewrite Hs, orb_false_r in Hk. exact Hk.
Qed.

(** ** [clean_text] *)

Lemma clean_text_words (text : pystr) :
  clean_text text = join_space (split text).
Proof.
  unfold clean_text. destruct text as [|x t]; [reflexivity|].
  cbn [isEmpty]. apply strip_collapse_is_join_split.
Qed.

(** X5. [clean_text] is [' '.join(text.split())]: the words of the text
    joined by single spaces.  Hence cleaning keeps the words and cleaning
    twice is cleaning once. *)
Theorem clean_text_joins_words (text : pystr) :
  clean_text text = join_space (split text)
  /\ split (clean_text text) = split text
  /\ clean_text (clean_text text) = clean_text text.
Proof.
  split; [apply clean_text_words|]. split.
  - rewrite clean_text_words. apply split_join_split.
  - rewrite (clean_text_words (clean_text text)), (clean_text_words text).
    rewrite split_join_split. reflexivity.
Qed.

(** ** [normalize_text] *)

(** X6. Normalizing is idempotent. *)
Theorem normalize_text_idempotent (text : pystr) :
  normalize_text (normalize_text text) = normalize_text text.
Proof.
  rewrite (normalize_text_words text).
  apply normalize_join_words, normalized_words_tamil.
Qed.

(** X7. Normalized text is a sequence of Tamil words separated by single
    spaces: it is the join of its own words, each word is a non-empty run
    of Tamil characters, and so every character is a Tamil character or
    the space U+0020. *)
Theorem normalize_text_normal_form (text : pystr) :
  let n := normalize_text text in
  n = join_space (split n)
  /\ Forall tamil_word (split n)
  /\ (forall c, In c n -> is_tamil c = true \/ c = 32).
Proof.
  cbv zeta. rewrite (normalize_text_words text).
  pose proof (normalized_words_tamil text) as Hw.
  set (ws := split (filter kept text)) in *.
  assert (Hs : split (join_space ws) = ws).
  { rewrite split_join.
    - apply filter_nonempty_id.
      eapply Forall_impl; [|exact Hw]. intros w [H _]. exact H.
    - eapply Forall_impl; [|exact Hw]. apply tamil_word_space_free. }
  rewrite Hs. split; [reflexivity|]. split; [exact Hw|].
  intros c Hc. apply join_space_chars in Hc.
  destruct Hc as [-> | (w & Hin & Hc)]; [right; reflexivity|].
  left. rewrite Forall_forall in Hw. apply (Hw w Hin), Hc.
Qed.

Lemma collapse_ws_incl (c : Z) (s : pystr) :
  forall in_run, In c (collapse_ws s in_run) -> c = 32 \/ In c s.
Proof.
  induction s as [|x s IH]; intros b H; simpl in H; [contradiction|].
  destruct (is_space x).
  - destruct b.
    + destruct (IH _ H); auto. right. right. assumption.
    + destruct H as [<- | H]; [left; reflexivity|].
      destruct (IH _ H); auto. right. right. assumption.
  - destruct H as [<- | H]; [right; left; reflexivity|].
    destruct (IH _ H); auto. right. right. assumption.
Qed.

(** Cleaning neither adds nor removes Tamil characters. *)
Lemma is_valid_tamil_clean (text : pystr) :
  is_valid_tamil (clean_text text) = is_valid_tamil text.
Proof.
  unfold is_valid_tamil.
  destruct (existsb is_tamil text) eqn:E.
  - apply existsb_exists in E. destruct E as (c & Hin & Hc).
    apply existsb_exists. exists c. split; [|exact Hc].
    unfold clean_text. destruct text as [|x t]; [contradiction|].
    cbn [isEmpty]. apply strip_keeps; [|apply tamil_not_space, Hc].
    apply collapse_ws_keeps; [exact Hin | apply tamil_not_space, Hc].
  - destruct (existsb is_tamil (clean_text text)) eqn:E'; [|reflexivity].
    apply existsb_exists in E'. destruct E' as (c & Hin & Hc).
    assert (Ht : In c text).
    { unfold clean_text in Hin. destruct text as [|x t]; [contradiction|].
      cbn [isEmpty] in Hin. apply strip_incl in Hin.
      apply collapse_ws_incl in Hin. destruct Hin as [-> | Hin];
        [discriminate | exact Hin]. }
    assert (E2 : existsb is_tamil text = true)
      by (apply existsb_exists; exists c; auto).
    congruence.
Qed.

(** A text without a Tamil character normalizes to the empty string. *)
Lemma normalize_text_invalid (text : pystr) :
  is_valid_tamil text = false -> normalize_text text = [].
Proof.
  intro H. rewrite normalize_text_words.
  destruct (split (filter kept text)) as [|w ws] eqn:E; [reflexivity|].
  exfalso.
  pose proof (normalized_words_tamil text) as Hw. rewrite E in Hw.
  inversion Hw as [|? ? [Hne Ht] _]; subst.
  destruct w as [|c w]; [contradiction|].
  assert (Hin : In c text).
  { assert (Hf : In c (filter kept text)).
    { apply (split_chars c (c :: w)); [rewrite E; left; reflexivity|].
      left. reflexivity. }
    apply filter_In in Hf. apply Hf. }
  assert (Hv : is_valid_tamil text = true).
  { unfold is_valid_tamil. apply existsb_exists. exists c.
    split; [exact Hin | apply Ht; left; reflexivity]. }
  congruence.
Qed.

Lemma normalize_text_clean (text : pystr) :
  normalize_text (clean_text text) = normalize_text text.
Proof.
  rewrite !normalize_text_words.
  rewrite (clean_text_words text).
  rewrite filter_kept_join, split_join.
  - rewrite split_filter_kept. reflexivity.
  - apply Forall_forall. intros w Hw. apply in_map_iff in Hw.
    destruct Hw as (w0 & <- & Hw0). apply filter_space_free.
    pose proof (split_space_free text) as Hs. rewrite Forall_forall in Hs.
    apply Hs, Hw0.
Qed.

(** ** [preprocess_for_analysis] *)

Lemma preprocess_valid (text : pystr) :
  is_valid_tamil text = true -> preprocess_for_analysis text = clean_text text.
Proof.
  intro H. unfold preprocess_for_analysis.
  rewrite is_valid_tamil_clean, H. reflexivity.
Qed.

Lemma preprocess_invalid (text : pystr) :
  is_valid_tamil text = false -> preprocess_for_analysis text = [].
Proof.
  intro H. unfold preprocess_for_analysis.
  rewrite is_valid_tamil_clean, H. reflexivity.
Qed.

(** X8. [preprocess_for_analysis] returns the empty string exactly for the
    texts without a Tamil character; for every other text it returns the
    cleaned text, which still has a Tamil character.  Preprocessing twice
    is preprocessing once. *)
Theorem preprocess_for_analysis_cases (text : pystr) :
  (preprocess_for_analysis text = [] <-> is_valid_tamil text = false)
  /\ (is_valid_tamil text = true ->
      preprocess_for_analysis text = clean_text text
      /\ is_valid_tamil (preprocess_for_analysis text) = true)
  /\ preprocess_for_analysis (preprocess_for_analysis text)
     = preprocess_for_analysis text.
Proof.
  destruct (is_valid_tamil text) eqn:E.
  - pose proof (preprocess_valid text E) as Hp.
    assert (Hv : is_valid_tamil (preprocess_for_analysis text) = true)
      by (rewrite Hp, is_valid_tamil_clean; exact E).
    split; [|split].
    + split; [|discriminate]. intro H. rewrite H in Hv. discriminate.
    + intros _. split; assumption.
    + rewrite (preprocess_valid _ Hv), Hp.
      rewrite (clean_text_words (clean_text text)), (clean_text_words text).
      rewrite split_join_split. reflexivity.
  - pose proof (preprocess_invalid text E) as Hp.
    split; [|split].
    + split; auto.
    + discriminate.
    + rewrite Hp. reflexivity.
Qed.

(** X9. The search normalizes the cleaned text to what it would normalize
    the raw text to: cleaning, and the whole of
    [preprocess_for_analysis], are invisible after [normalize_text]. *)
Theorem normalize_text_after_preprocess (text : pystr) :
  normalize_text (clean_text text) = normalize_text text
  /\ normalize_text (preprocess_for_analysis text) = normalize_text text.
Proof.
  split; [apply normalize_text_clean|].
  destruct (is_valid_tamil text) eqn:E.
  - rewrite (preprocess_valid text E). apply normalize_text_clean.
  - rewrite (preprocess_invalid text E), (normalize_text_invalid text E).
    reflexivity.
Qed.

(** ** [tokenize_words] and [count_words] *)

Lemma lstrip_word (w : pystr) : space_free w -> lstrip w = w.
Proof.
  intro H. destruct w as [|c w]; [reflexivity|]. simpl.
  rewrite (H c (or_introl eq_refl)). reflexivity.
Qed.

Lemma rstrip_word (w : pystr) : space_free w -> rstrip w = w.
Proof.
  intro H. destruct w as [|x w']; [reflexivity|].
  destruct (exists_last (l := x :: w')) as (s & c & E); [discriminate|].
  rewrite E in *.
  apply rstrip_ends_in_word. exists s, c. split; [reflexivity|].
  apply H, in_or_app. right. left. reflexivity.
Qed.

Lemma strip_word (w : pystr) : space_free w -> strip w = w.
Proof.
  intro H. unfold strip. rewrite (lstrip_word w H). apply rstrip_word, H.
Qed.

Lemma tokenize_words_split (text : pystr) : tokenize_words text = split text.
Proof.
  unfold tokenize_words.
  pose proof (split_space_free text) as Hs.
  pose proof (split_nonempty text) as Hn.
  induction (split text) as [|w ws IH]; [reflexivity|].
  inversion Hs; inversion Hn; subst. simpl.
  rewrite (strip_word w) by assumption.
  destruct w; [contradiction|]. simpl. f_equal. apply IH; assumption.
Qed.

(** X10. The filter of [tokenize_words] removes nothing: the tokens are
    the words of [split].  Joining the tokens by single spaces gives
    [clean_text], cleaning a text keeps its tokens, and [count_words]
    counts the words the search counts. *)
Theorem tokenize_words_round_trip (text : pystr) :
  tokenize_words text = split text
  /\ join_space (tokenize_words text) = clean_text text
  /\ tokenize_words (clean_text text) = tokenize_words text
  /\ count_words text = query_word_count text
  /\ count_words (clean_text text) = count_words text.
Proof.
  assert (E : tokenize_words (clean_text text) = tokenize_words text).
  { rewrite !tokenize_words_split, clean_text_words.
    apply split_join_split. }
  repeat split.
  - apply tokenize_words_split.
  - rewrite tokenize_words_split, clean_text_words. reflexivity.
  - exact E.
  - unfold count_words, query_word_count. rewrite tokenize_words_split.
    reflexivity.
  - unfold count_words. rewrite E. reflexivity.
Qed.

(** ** [extract_tamil_only] *)

Lemma tamil_runs_words (s : pystr) :
  forall cur, (forall c, In c cur -> is_tamil c = true) ->
    Forall tamil_word (tamil_runs s cur).
Proof.
  induction s as [|x r IH]; intros cur Hc; simpl.
  - destruct cur as [|y cur']; simpl; constructor; [|constructor].
    split; [discriminate | exact Hc].
  - destruct (is_tamil x) eqn:Ex.
    + apply IH. intros c Hin. apply in_app_or in Hin.
      destruct Hin as [Hin | [<- | []]]; [apply Hc, Hin | exact Ex].
    + assert (H0 : forall c, In c (@nil Z) -> is_tamil c = true)
        by (intros c []).
      destruct cur as [|y cur']; simpl; [apply IH, H0|].
      constructor; [|apply IH, H0].
      split; [discriminate | exact Hc].
Qed.

Lemma tamil_runs_incl (c : Z) (w : pystr) (s : pystr) :
  forall cur, In w (tamil_runs s cur) -> In c w -> In c cur \/ In c s.
Proof.
  induction s as [|x r IH]; intros cur Hw Hc; simpl in Hw.
  - destruct (isEmpty cur); [contradiction|].
    destruct Hw as [<- | []]. left. exact Hc.
  - destruct (is_tamil x).
    + destruct (IH _ Hw Hc) as [H | H].
      * apply in_app_or in H. destruct H as [H | [<- | []]].
        -- left. exact H.
        -- right. left. reflexivity.
      * right. right. exact H.
    + destruct (isEmpty cur).
      * destruct (IH [] Hw Hc) as [[] | H]. right. right. exact H.
      * destruct Hw as [<- | Hw]; [left; exact Hc|].
        destruct (IH [] Hw Hc) as [[] | H]. right. right. exact H.
Qed.

Lemma tamil_runs_keeps (c : Z) (s : pystr) :
  forall cur, In c cur \/ (In c s /\ is_tamil c = true) ->
    exists w, In w (tamil_runs s cur) /\ In c w.
Proof.
  induction s as [|x r IH]; intros cur H; simpl.
  - destruct H as [H | [[] _]].
    destruct cur as [|y cur']; [contradiction|].
    exists (y :: cur'). split; [left; reflexivity | exact H].
  - destruct (is_tamil x) eqn:Ex.
    + apply IH. destruct H as [H | [[<- | H] Ht]].
      * left. apply in_or_app. left. exact H.
      * left. apply in_or_app. right. left. reflexivity.
      * right. split; assumption.
    + destruct H as [H | [[<- | H] Ht]].
      * destruct cur as [|y cur']; [contradiction|].
        exists (y :: cur'). split; [left; reflexivity | exact H].
      * congruence.
      * destruct (IH [] (or_intror (conj H Ht))) as (w & Hw & Hc).
        exists w. split; [|exact Hc].
        destruct (isEmpty cur); [exact Hw | right; exact Hw].
Qed.

Lemma join_space_in (c : Z) (w : pystr) (ws : list pystr) :
  In w ws -> In c w -> In c (join_space ws).
Proof.
  induction ws as [|p rest IH]; [intros []|].
  intros Hw Hc. rewrite join_space_cons.
  destruct rest as [|q rest'].
  - destruct Hw as [<- | []]. exact Hc.
  - apply in_or_app. destruct Hw as [<- | Hw]; [left; exact Hc|].
    right. right. apply IH; assumption.
Qed.

(** X11. The output of [extract_tamil_only] is already normalized text
    (Tamil words separated by single spaces), it has a Tamil character
    exactly when the input has one, and it is empty when the input has
    none. *)
Theorem extract_tamil_only_normalized (text : pystr) :
  normalize_text (extract_tamil_only text) = extract_tamil_only text
  /\ is_valid_tamil (extract_tamil_only text) = is_valid_tamil text
  /\ (is_valid_tamil text = false -> extract_tamil_only text = []).
Proof.
  unfold extract_tamil_only.
  assert (Hw : Forall tamil_word (tamil_runs text []))
    by (apply tamil_runs_words; intros c []).
  assert (Hv : is_valid_tamil (join_space (tamil_runs text []))
               = is_valid_tamil text).
  { unfold is_valid_tamil.
    destruct (existsb is_tamil text) eqn:E.
    - apply existsb_exists in E. destruct E as (c & Hin & Hc).
      apply existsb_exists. exists c. split; [|exact Hc].
      destruct (tamil_runs_keeps c text [] (or_intror (conj Hin Hc)))
        as (w & Hin' & Hcw).
      apply (join_space_in c w); assumption.
    - destruct (existsb is_tamil (join_space (tamil_runs text []))) eqn:E';
        [|reflexivity].
      apply existsb_exists in E'. destruct E' as (c & Hin & Hc).
      apply join_space_chars in Hin.
      destruct Hin as [-> | (w & Hw' & Hcw)]; [discriminate|].
      destruct (tamil_runs_incl c w text [] Hw' Hcw) as [[] | Ht].
      assert (E2 : existsb is_tamil text = true)
        by (apply existsb_exists; exists c; auto).
      congruence. }
  split; [apply normalize_join_words, Hw|]. split; [exact Hv|].
  intro H. rewrite H in Hv. revert Hw Hv.
  destruct (tamil_runs text []) as [|w ws]; [reflexivity|]. intros Hw Hv.
  exfalso. inversion Hw as [|? ? [Hne Ht] _]; subst.
  destruct w as [|c w]; [contradiction|].
  assert (Hin : In c (join_space ((c :: w) :: ws)))
    by (apply (join_space_in c (c :: w)); left; reflexivity).
  assert (E : is_valid_tamil (join_space ((c :: w) :: ws)) = true).
  { unfold is_valid_tamil. apply existsb_exists. exists c.
    split; [exact Hin | apply Ht; left; reflexivity]. }
  pose proof (eq_trans (eq_sym E) Hv) as Habs. discriminate Habs.
Qed.

(** * Further properties of the multi-book analyzer *)

(** ** What a returned match is *)

Section ReturnedMatch.

Context {F : Fuzz}.
Variables (a : analyzer) (strict is_number_search : bool) (nq : pystr).
Variable floor : Z.
Hypothesis threshold_floor :
  forall key t, floor <= t -> floor <= snd (book_structure key nq t).

Lemma visit_verse_inv (key : book_key_t) (book_name : pystr)
    (st : search_state) (v : verse_record) :
  In v (verses (db_of a key)) ->
  search_inv a strict is_number_search nq floor st ->
  outcome_inv a strict is_number_search nq floor
    (visit_verse key book_name (kamba_boost_for key nq) strict
       is_number_search nq st v).
Proof.
  intros Hin [Hth Hm]. unfold visit_verse.
  destruct is_number_search eqn:En.
  - destruct (eqb _ _); simpl.
    + unfold stored_match. simpl. auto.
    + split; assumption.
  - fold (score_in strict key nq v).
    destruct (Qlt_bool (best_score st) (score_in strict key nq v)); simpl;
      [|split; assumption].
    case_Qle (inject_Z (cur_threshold st)) (score_in strict key nq v); simpl;
      [|split; assumption].
    split; [exact Hth|]. simpl. intros m Em. apply Some_inj in Em. subst m.
    unfold stored_match. simpl. auto.
Qed.

Lemma search_verses_inv (key : book_key_t) (book_name : pystr)
    (vs : list verse_record) :
  (forall v, In v vs -> In v (verses (db_of a key))) ->
  forall st, search_inv a strict is_number_search nq floor st ->
    outcome_inv a strict is_number_search nq floor
      (search_verses key book_name (kamba_boost_for key nq) strict
         is_number_search nq vs st).
Proof.
  induction vs as [|v vs IH]; intros Hsub st Hst; cbn [search_verses].
  - exact Hst.
  - pose proof (visit_verse_inv key book_name st v
                  (Hsub v (or_introl eq_refl)) Hst) as Hv.
    destruct (visit_verse _ _ _ _ _ _ st v) as [m | st']; simpl in Hv.
    + exact Hv.
    + apply IH; [|exact Hv]. intros w Hw. apply Hsub. right. exact Hw.
Qed.

Lemma search_book_inv (key : book_key_t) (st : search_state) :
  search_inv a strict is_number_search nq floor st ->
  outcome_inv a strict is_number_search nq floor
    (search_book a strict is_number_search nq key st).
Proof.
  intros [Hth Hm]. unfold search_book.
  destruct (verses (db_of a key)) as [|v0 vs0] eqn:Ev; [split; assumption|].
  pose proof (fst_book_structure key nq (cur_threshold st)) as Hb.
  pose proof (snd_book_structure_le key nq (cur_threshold st)) as Hle.
  pose proof (threshold_floor key (cur_threshold st) Hth) as Hfl.
  destruct (book_structure key nq (cur_threshold st)) as [boost th].
  simpl in Hb, Hle, Hfl. subst boost.
  apply search_verses_inv.
  - rewrite Ev. auto.
  - split; [exact Hfl|]. simpl. intros m Em.
    destruct (Hm m Em) as (Hn & Hs & Hc & Hsc & Hbo).
    repeat split; try apply Hs; try assumption.
    apply Qle_trans with (inject_Z (cur_threshold st)); [|exact Hc].
    rewrite <- Zle_Qle. exact Hle.
Qed.

Lemma search_books_inv (books : list book_key_t) :
  forall st, search_inv a strict is_number_search nq floor st ->
    outcome_inv a strict is_number_search nq floor
      (search_books a strict is_number_search nq books st).
Proof.
  induction books as [|key rest IH]; intros st Hst; cbn [search_books].
  - exact Hst.
  - pose proof (search_book_inv key st Hst) as Hb.
    destruct (search_book _ _ _ _ key st) as [m | st']; simpl in Hb.
    + exact Hb.
    + apply IH, Hb.
Qed.

End ReturnedMatch.

Lemma base_threshold_ge (n : Z) : 48 <= base_threshold n.
Proof.
  unfold base_threshold. destruct (100 <? n), (50 <? n); lia.
Qed.

Lemma threshold_ge_48 (nq : pystr) : 48 <= threshold (classify_query nq).
Proof.
  unfold classify_query. simpl.
  pose proof (base_threshold_ge (len nq)).
  destruct (negb (looks_like_verse nq) && _); simpl; lia.
Qed.

Lemma threshold_floor_42 (nq : pystr) (key : book_key_t) (t : Z) :
  is_thirukkural_structure nq = false ->
  42 <= t -> 42 <= snd (book_structure key nq t).
Proof.
  intros one_line H. unfold book_structure. rewrite one_line, !andb_false_r.
  repeat match goal with
         | |- context [if ?c then _ else _] => destruct c
         end; simpl; lia.
Qed.

Lemma threshold_unchanged (nq : pystr) (key : book_key_t) (t : Z) :
  is_thirukkural_structure nq = false ->
  is_kamba_structure nq = false ->
  snd (book_structure key nq t) = t.
Proof.
  intros H1 H2. unfold book_structure. rewrite H1, H2, !andb_false_r.
  reflexivity.
Qed.

(** What [_fuzzy_search_all_books] returns, read off its loops, for any
    floor that the classifier's threshold starts above and that no book
    lowers the threshold below. *)
Lemma fuzzy_search_floor {F : Fuzz} (a : analyzer) (query : pystr)
    (floor : Z) (m : match_result) :
  let nq := normalize_text query in
  let strict := strict_sentence_mode (classify_query nq) in
  (forall key t, floor <= t -> floor <= snd (book_structure key nq t)) ->
  floor <= threshold (classify_query nq) ->
  _fuzzy_search_all_books a query = Some m ->
  stored_match a m
  /\ (inject_Z floor <= match_score m)%Q
  /\ (strict = true -> (95 <= match_score m)%Q)
  /\ ((isdigit (strip nq) = true /\ match_score m = 100%Q
       /\ boost_applied m = None)
      \/ (isdigit (strip nq) = false
          /\ match_score m = score_in strict (book_key m) nq (m_record m)
          /\ boost_applied m = Some (kamba_boost_for (book_key m) nq))).
Proof.
  cbv zeta. intros Hkeep Hfloor. unfold _fuzzy_search_all_books.
  set (nq := normalize_text query) in *.
  set (vd := classify_query nq) in *.
  set (s0 := {| best_match := None; best_score := 0;
                cur_threshold := threshold vd |}).
  assert (H0 : search_inv a (strict_sentence_mode vd) (isdigit (strip nq))
                 nq floor s0).
  { split; [exact Hfloor | simpl; discriminate]. }
  pose proof (search_books_inv a (strict_sentence_mode vd)
                (isdigit (strip nq)) nq floor Hkeep
                books_to_search s0 H0) as Hout.
  assert (H100 : floor <= 100).
  { pose proof (threshold_le_98 nq) as H. fold vd in H. lia. }
  destruct (search_books a _ (isdigit (strip nq)) nq books_to_search s0)
    as [m' | st]; cbn [outcome_inv] in Hout.
  - intro E. apply Some_inj in E. subst m'.
    destruct Hout as (Hn & Hs & Hsc & Hbo). rewrite Hsc.
    split; [exact Hs|].
    split; [change 100%Q with (inject_Z 100); rewrite <- Zle_Qle; exact H100|].
    split; [intros _; unfold Qle; simpl; lia|].
    left. auto.
  - destruct Hout as [Hth Hm].
    destruct (best_match st) as [m'|] eqn:Em; [|discriminate].
    destruct (Hm m' eq_refl) as (Hn & Hs & Hc & Hsc & Hbo).
    assert (H42 : (inject_Z floor <= match_score m')%Q).
    { apply Qle_trans with (inject_Z (cur_threshold st)); [|exact Hc].
      rewrite <- Zle_Qle. exact Hth. }
    case_Qlt (match_score m') 95%Q.
    + destruct (strict_sentence_mode vd) eqn:Estrict; simpl; [discriminate|].
      intro E'. apply Some_inj in E'. subst m'.
      split; [exact Hs|]. split; [exact H42|].
      split; [discriminate|]. right. auto.
    + rewrite andb_false_r. intro E'. apply Some_inj in E'. subst m'.
      split; [exact Hs|]. split; [exact H42|]. split; [intros _; exact E|].
      right. auto.
Qed.

Lemma fuzzy_search_some {F : Fuzz} (a : analyzer) (query : pystr)
    (m : match_result) :
  let nq := normalize_text query in
  let strict := strict_sentence_mode (classify_query nq) in
  _fuzzy_search_all_books a query = Some m ->
  stored_match a m
  /\ (42 <= match_score m)%Q
  /\ (strict = true -> (95 <= match_score m)%Q)
  /\ ((isdigit (strip nq) = true /\ match_score m = 100%Q
       /\ boost_applied m = None)
      \/ (isdigit (strip nq) = false
          /\ match_score m = score_in strict (book_key m) nq (m_record m)
          /\ boost_applied m = Some (kamba_boost_for (book_key m) nq))).
Proof.
  cbv zeta. intro E.
  apply (fuzzy_search_floor a query 42 m); [| |exact E].
  - intros key t. apply threshold_floor_42.
    apply normalized_not_thirukkural_structure.
  - pose proof (threshold_ge_48 (normalize_text query)). lia.
Qed.

(** ** The gates of [analyze] *)

Lemma lstrip_blank (s : pystr) : blank s -> lstrip s = [].
Proof.
  induction s as [|x s IH]; intro H; [reflexivity|]. simpl.
  rewrite (H x (or_introl eq_refl)). apply IH.
  intros c Hc. apply H. right. exact Hc.
Qed.

Lemma strip_blank_iff (s : pystr) : strip s = [] <-> blank s.
Proof.
  split.
  - intros E c Hc. destruct (is_space c) eqn:Ec; [reflexivity|].
    pose proof (strip_keeps c s Hc Ec) as H. rewrite E in H. contradiction.
  - intro H. unfold strip. rewrite (lstrip_blank s H). reflexivity.
Qed.

Lemma first_gate_iff (text : pystr) :
  (isEmpty text || (len (strip text) =? 0)) = true <-> blank text.
Proof.
  rewrite <- strip_blank_iff. split.
  - intro H. apply orb_true_iff in H. destruct H as [H | H].
    + destruct text; [reflexivity | discriminate].
    + apply Z.eqb_eq in H. unfold len in H.
      destruct (strip text); [reflexivity | simpl in H; lia].
  - intro E. rewrite E. apply orb_true_r.
Qed.

Lemma valid_not_blank (text : pystr) :
  is_valid_tamil text = true -> ~ blank text.
Proof.
  unfold is_valid_tamil. intros H Hb.
  apply existsb_exists in H. destruct H as (c & Hin & Hc).
  pose proof (tamil_not_space c Hc) as Hs. rewrite (Hb c Hin) in Hs.
  discriminate.
Qed.

Lemma second_gate_iff (text : pystr) :
  isEmpty (preprocess_for_analysis text) = true
  <-> is_valid_tamil text = false.
Proof.
  destruct (is_valid_tamil text) eqn:E.
  - destruct (valid_passes_gates text E) as (_ & _ & G). rewrite G.
    split; discriminate.
  - rewrite (preprocess_invalid text E). split; reflexivity.
Qed.

(** X12. The three outcomes of the gates of [analyze]: the empty-text
    result exactly for the empty and the all-whitespace texts, the
    invalid-input result exactly for the other texts without a Tamil
    character, and for a text with a Tamil character the outcome of the
    search on the cleaned text (a match or the generic analysis). *)
Theorem analyze_gates (F : Fuzz) (a : analyzer) (text : pystr) :
  (analyze a text = EmptyText <-> blank text)
  /\ (analyze a text = InvalidText
      <-> ~ blank text /\ is_valid_tamil text = false)
  /\ (is_valid_tamil text = true ->
      analyze a text
      = match _fuzzy_search_all_books a (clean_text text) with
        | Some m => Found (found_of_match a m)
        | None => Generic (_analyze_sentiment (clean_text text))
        end).
Proof.
  unfold analyze.
  pose proof (first_gate_iff text) as G1.
  pose proof (second_gate_iff text) as G2.
  destruct (isEmpty text || (len (strip text) =? 0)) eqn:E1.
  - assert (Hb : blank text) by (apply G1; reflexivity).
    split; [split; [intros _; exact Hb | reflexivity] |].
    split; [split; [discriminate | intros [Hn _]; contradiction] |].
    intro Hv. exfalso. apply (valid_not_blank text Hv Hb).
  - assert (Hb : ~ blank text) by (intro H; apply G1 in H; discriminate).
    destruct (isEmpty (preprocess_for_analysis text)) eqn:E2.
    + assert (Hv : is_valid_tamil text = false) by (apply G2; reflexivity).
      split; [split; [discriminate | intro H; contradiction] |].
      split; [split; [intros _; split; assumption | reflexivity] |].
      rewrite Hv. discriminate.
    + assert (Hv : is_valid_tamil text = true).
      { destruct (is_valid_tamil text); [reflexivity|].
        destruct G2 as [_ G2]. discriminate (G2 eq_refl). }
      rewrite (preprocess_valid text Hv).
      split; [split; [| intro H; contradiction] |].
      { destruct (_fuzzy_search_all_books a (clean_text text)); discriminate. }
      split; [split; [| intros [_ H]; rewrite Hv in H; discriminate] |].
      { destruct (_fuzzy_search_all_books a (clean_text text)); discriminate. }
      intros _. reflexivity.
Qed.

(** ** What [analyze] reports *)

Lemma analyze_found {F : Fuzz} (a : analyzer) (text : pystr)
    (r : found_result) :
  analyze a text = Found r ->
  exists m,
    _fuzzy_search_all_books a (preprocess_for_analysis text) = Some m
    /\ r = found_of_match a m.
Proof.
  unfold analyze.
  destruct (isEmpty text || (len (strip text) =? 0)); [discriminate|].
  destruct (isEmpty (preprocess_for_analysis text)); [discriminate|].
  destruct (_fuzzy_search_all_books a (preprocess_for_analysis text)) as [m|];
    [|discriminate].
  intro E. exists m. split; [reflexivity|].
  apply (f_equal (fun x => match x with
                           | Found f => f
                           | _ => found_of_match a m
                           end)) in E.
  symmetry. exact E.
Qed.

(** X13. Every found result reports a verse that is stored in the book the
    result names: number, text, meaning, chapter, section and summary are
    that verse's own, and the confidence is 1 for a query of digits and one
    hundredth of that verse's own score for any other query. *)
Theorem found_result_is_stored_verse (F : Fuzz) (a : analyzer) (text : pystr)
    (r : found_result) :
  let nq := normalize_text (preprocess_for_analysis text) in
  let strict := strict_sentence_mode (classify_query nq) in
  analyze a text = Found r ->
  exists v,
    In v (verses (db_of a (source r)))
    /\ number r = verse_num_of v
    /\ r_verse r = get_str (verse v) []
    /\ r_meaning r = get_str (meaning v) []
    /\ r_chapter r = get_str (chapter v) []
    /\ r_section r = get_str (section v) []
    /\ r_summary r = get_str (summary v) []
    /\ (if isdigit (strip nq)
        then (confidence r == 1)%Q
        else (confidence r == score_in strict (source r) nq v / 100)%Q).
Proof.
  cbv zeta. intro E.
  destruct (analyze_found a text r E) as (m & Em & Er).
  destruct (fuzzy_search_some a (preprocess_for_analysis text) m Em)
    as ((Hin & Hnum) & _ & _ & Hcases).
  exists (m_record m). subst r. cbn [found_of_match source number r_verse
    r_meaning r_chapter r_section r_summary confidence].
  split; [exact Hin|]. split; [exact Hnum|].
  do 5 (split; [reflexivity|]).
  destruct Hcases as [(Hd & Hs & _) | (Hd & Hs & _)]; rewrite Hd, Hs.
  - reflexivity.
  - reflexivity.
Qed.

Lemma found_result_is_stored_verse_witness :
  exists v,
    In v [verse_of_text 1 kural_1]
    /\ u "1" = verse_num_of v
    /\ kural_1 = get_str (verse v) [].
Proof.
  pose (a := {| thirukkural_db := db_of_verses [verse_of_text 1 kural_1];
                kamba_db := empty_db |}).
  destruct (found_result_is_stored_verse no_similarity a kural_1
              (found_of_match a
                 {| m_record := verse_of_text 1 kural_1;
                    match_score := (100 * 1.0)%Q;
                    m_verse_number := u "1"; book_key := thirukkural;
                    book := default_title thirukkural;
                    boost_applied := Some 1.0%Q |}))
    as (v & Hin & Hn & Hv & _).
  - vm_compute. reflexivity.
  - exists v. split; [exact Hin|]. split; [exact Hn | exact Hv].
Defined.

Lemma confidence_of_score (a : analyzer) (m : match_result) (lo : Q) :
  (lo * 100 <= match_score m)%Q -> (lo <= confidence (found_of_match a m))%Q.
Proof.
  intro H. cbn [found_of_match confidence].
  apply Qle_shift_div_l; [reflexivity | exact H].
Qed.

(** X14. The floor of the confidence of a found result: never below 0.42;
    never below 0.95 when the classifier put the query in strict sentence
    mode; and, when the query has no Kamba structure (none of the sixteen
    character names, at most ten words), never below one hundredth of the
    classifier's threshold, which is at least 48. *)
Theorem confidence_floor (F : Fuzz) (a : analyzer) (text : pystr)
    (r : found_result) :
  let nq := normalize_text (preprocess_for_analysis text) in
  analyze a text = Found r ->
  (0.42 <= confidence r)%Q
  /\ (strict_sentence_mode (classify_query nq) = true ->
      (0.95 <= confidence r)%Q)
  /\ (is_kamba_structure nq = false ->
      (inject_Z (threshold (classify_query nq)) / 100 <= confidence r)%Q
      /\ (0.48 <= confidence r)%Q).
Proof.
  cbv zeta. intro E.
  destruct (analyze_found a text r E) as (m & Em & Er). subst r.
  set (nq := normalize_text (preprocess_for_analysis text)).
  destruct (fuzzy_search_some a (preprocess_for_analysis text) m Em)
    as (_ & H42 & H95 & _).
  fold nq in H95.
  split; [apply confidence_of_score; lra|].
  split; [intro Hs; specialize (H95 Hs); apply confidence_of_score; lra|].
  intro Hk.
  destruct (fuzzy_search_floor a (preprocess_for_analysis text)
              (threshold (classify_query nq)) m) as (_ & Hth & _).
  - intros key t Ht. fold nq.
    rewrite (threshold_unchanged nq key t
               (normalized_not_thirukkural_structure _) Hk).
    exact Ht.
  - fold nq. lia.
  - exact Em.
  - pose proof (threshold_ge_48 nq) as H48. rewrite Zle_Qle in H48.
    change (inject_Z 48) with 48%Q in H48.
    set (t := inject_Z (threshold (classify_query nq))) in *.
    split.
    + cbn [found_of_match confidence]. unfold Qdiv.
      apply Qmult_le_compat_r; [exact Hth | discriminate].
    + apply confidence_of_score. lra.
Qed.

Lemma confidence_floor_witness :
  (0.42 <= 95 / 100)%Q /\ (0.95 <= 95 / 100)%Q.
Proof.
  pose (a := {| thirukkural_db := empty_db;
                kamba_db :=
                  db_of_verses [verse_of_text 1 bharata_sentence_plus_one] |}).
  destruct (confidence_floor no_similarity a bharata_sentence
              (found_of_match a
                 {| m_record := verse_of_text 1 bharata_sentence_plus_one;
                    match_score := 95;
                    m_verse_number := u "1"; book_key := kamba_ramayanam;
                    book := default_title kamba_ramayanam;
                    boost_applied := Some 1.30%Q |}))
    as (H42 & H95 & _).
  - vm_compute. reflexivity.
  - split; [exact H42|]. apply H95. vm_compute. reflexivity.
Defined.

(** ** Reaching the threshold *)

Lemma threshold_reached {F : Fuzz} (a : analyzer) (query : pystr)
    (key : book_key_t) (v : verse_record) :
  let nq := normalize_text query in
  let strict := strict_sentence_mode (classify_query nq) in
  isdigit (strip nq) = false ->
  In v (verses (db_of a key)) ->
  (inject_Z (threshold (classify_query nq)) <= score_in strict key nq v)%Q ->
  exists m,
    _fuzzy_search_all_books a query = Some m
    /\ (score_in strict key nq v <= match_score m)%Q.
Proof.
  cbv zeta. intros Hnum Hin Hth.
  unfold _fuzzy_search_all_books.
  set (nq := normalize_text query) in *.
  set (vd := classify_query nq) in *.
  rewrite Hnum.
  set (s0 := {| best_match := None; best_score := 0;
                cur_threshold := threshold vd |}).
  destruct (search_books_text a (strict_sentence_mode vd) nq books_to_search s0)
    as (st & E & (Ok & _ & _) & Hit).
  rewrite E.
  assert (Hkey : In key books_to_search) by (destruct key; simpl; auto).
  specialize (Hit key v Hkey Hin Hth). specialize (Ok eq_refl).
  pose proof (threshold_ge_48 nq) as H48. fold vd in H48.
  rewrite Zle_Qle in H48. change (inject_Z 48) with 48%Q in H48.
  set (sc := score_in (strict_sentence_mode vd) key nq v) in *.
  unfold state_ok in Ok.
  destruct (best_match st) as [m|] eqn:Em.
  - assert (Hm : (sc <= match_score m)%Q) by (rewrite Ok; exact Hit).
    assert (Hveto : (strict_sentence_mode vd
                     && Qlt_bool (match_score m) 95) = false).
    { destruct (strict_sentence_mode vd) eqn:Es; [|reflexivity].
      pose proof (strict_threshold nq Es) as H98. fold vd in H98.
      rewrite H98 in Hth. change (inject_Z 98) with 98%Q in Hth.
      apply Qlt_bool_false_iff. lra. }
    rewrite Hveto. exists m. split; [reflexivity | exact Hm].
  - exfalso. rewrite Ok in Hit. lra.
Qed.

(** X15. A stored verse whose score reaches the classifier's threshold
    guarantees a found result, with a confidence of at least one hundredth
    of that score (for a query with a Tamil character that is not all
    digits). *)
Theorem verse_reaching_threshold_is_found (F : Fuzz) (a : analyzer)
    (text : pystr) (key : book_key_t) (v : verse_record) :
  let nq := normalize_text (preprocess_for_analysis text) in
  let strict := strict_sentence_mode (classify_query nq) in
  is_valid_tamil text = true ->
  isdigit (strip nq) = false ->
  In v (verses (db_of a key)) ->
  (inject_Z (threshold (classify_query nq)) <= score_in strict key nq v)%Q ->
  exists r,
    analyze a text = Found r
    /\ (score_in strict key nq v / 100 <= confidence r)%Q.
Proof.
  cbv zeta. intros Hvalid Hnum Hin Hth.
  destruct (valid_passes_gates text Hvalid) as (G1 & _ & G2).
  destruct (threshold_reached a (preprocess_for_analysis text) key v
              Hnum Hin Hth) as (m & Em & Hm).
  unfold analyze. rewrite G1, G2, Em.
  exists (found_of_match a m). split; [reflexivity|].
  cbn [found_of_match confidence]. unfold Qdiv.
  apply Qmult_le_compat_r; [exact Hm | discriminate].
Qed.

Lemma verse_reaching_threshold_is_found_witness :
  exists r,
    analyze (F := no_similarity)
      {| thirukkural_db := db_of_verses [verse_of_text 1 rama_fragment_plus_one];
         kamba_db := empty_db |}
      rama_fragment = Found r
    /\ (95 / 100 <= confidence r)%Q.
Proof.
  apply (verse_reaching_threshold_is_found no_similarity
           {| thirukkural_db :=
                db_of_verses [verse_of_text 1 rama_fragment_plus_one];
              kamba_db := empty_db |}
           rama_fragment thirukkural (verse_of_text 1 rama_fragment_plus_one)).
  - vm_compute. reflexivity.
  - vm_compute. reflexivity.
  - simpl. left. reflexivity.
  - vm_compute. discriminate.
Defined.

(** X16. For a query without Kamba structure (and not all digits), a
    result is found exactly when some stored verse of either book scores at
    least the classifier's threshold. *)
Theorem found_iff_threshold_reached (F : Fuzz) (a : analyzer) (text : pystr) :
  let nq := normalize_text (preprocess_for_analysis text) in
  let strict := strict_sentence_mode (classify_query nq) in
  is_valid_tamil text = true ->
  isdigit (strip nq) = false ->
  is_kamba_structure nq = false ->
  (found (analyze a text) = true
   <-> exists key v,
         In v (verses (db_of a key))
         /\ (inject_Z (threshold (classify_query nq))
             <= score_in strict key nq v)%Q).
Proof.
  cbv zeta. intros Hvalid Hnum Hk.
  set (nq := normalize_text (preprocess_for_analysis text)) in *.
  split.
  - destruct (analyze a text) as [| | r |] eqn:E; try discriminate.
    intros _.
    destruct (analyze_found a text r E) as (m & Em & Er).
    destruct (fuzzy_search_floor a (preprocess_for_analysis text)
                (threshold (classify_query nq)) m)
      as ((Hin & _) & Hth & _ & Hcases).
    + intros key t Ht. fold nq.
      rewrite (threshold_unchanged nq key t
                 (normalized_not_thirukkural_structure _) Hk).
      exact Ht.
    + fold nq. lia.
    + exact Em.
    + fold nq in Hcases.
      destruct Hcases as [(Hd & _) | (_ & Hs & _)]; [congruence|].
      exists (book_key m), (m_record m). split; [exact Hin|].
      rewrite <- Hs. exact Hth.
  - intros (key & v & Hin & Hth).
    destruct (valid_passes_gates text Hvalid) as (G1 & _ & G2).
    destruct (threshold_reached a (preprocess_for_analysis text) key v
                Hnum Hin Hth) as (m & Em & _).
    unfold analyze. rewrite G1, G2, Em. reflexivity.
Qed.

Lemma found_iff_threshold_reached_witness :
  found (analyze (F := no_similarity)
           {| thirukkural_db := db_of_verses [verse_of_text 1 kural_1];
              kamba_db := empty_db |} kural_1) = true
  <-> exists key v,
        In v (verses (db_of {| thirukkural_db :=
                                 db_of_verses [verse_of_text 1 kural_1];
                               kamba_db := empty_db |} key))
        /\ (inject_Z (threshold
                        (classify_query
                           (normalize_text (preprocess_for_analysis kural_1))))
            <= score_in (F := no_similarity)
                 (strict_sentence_mode
                    (classify_query
                       (normalize_text (preprocess_for_analysis kural_1))))
                 key (normalize_text (preprocess_for_analysis kural_1)) v)%Q.
Proof.
  apply (found_iff_threshold_reached no_similarity
           {| thirukkural_db := db_of_verses [verse_of_text 1 kural_1];
              kamba_db := empty_db |} kural_1).
  - vm_compute. reflexivity.
  - vm_compute. reflexivity.
  - vm_compute. reflexivity.
Defined.

(** ** Databases that failed to load *)

Lemma search_books_no_verses {F : Fuzz} (a : analyzer)
    (strict is_number_search : bool) (nq : pystr) (books : list book_key_t) :
  (forall key, verses (db_of a key) = []) ->
  forall st,
    search_books a strict is_number_search nq books st = Next st.
Proof.
  intro Hempty. induction books as [|key rest IH]; intro st;
    cbn [search_books]; [reflexivity|].
  unfold search_book. rewrite (Hempty key). apply IH.
Qed.

(** X17. When neither database holds a verse (a database file that is
    missing or unreadable loads as the empty object), no text is found:
    every text with a Tamil character is answered with the generic
    analysis, carrying the keyword sentiment of the cleaned text. *)
Theorem no_verses_generic_analysis (F : Fuzz) (a : analyzer) (text : pystr) :
  verses (thirukkural_db a) = [] ->
  verses (kamba_db a) = [] ->
  found (analyze a text) = false
  /\ (is_valid_tamil text = true ->
      analyze a text = Generic (_analyze_sentiment (clean_text text))).
Proof.
  intros Ht Hk.
  assert (Hempty : forall key, verses (db_of a key) = [])
    by (intros []; assumption).
  assert (Hnone : forall q, _fuzzy_search_all_books a q = None).
  { intro q. unfold _fuzzy_search_all_books.
    rewrite (search_books_no_verses a _ _ _ _ Hempty). reflexivity. }
  split.
  - unfold analyze.
    destruct (isEmpty text || (len (strip text) =? 0)); [reflexivity|].
    destruct (isEmpty (preprocess_for_analysis text)); [reflexivity|].
    rewrite Hnone. reflexivity.
  - intro Hv. destruct (valid_passes_gates text Hv) as (G1 & _ & G2).
    unfold analyze. rewrite G1, G2, Hnone, (preprocess_valid text Hv).
    reflexivity.
Qed.

Lemma no_verses_generic_analysis_witness :
  found (analyze (F := no_similarity)
           {| thirukkural_db := empty_db; kamba_db := empty_db |} kural_1)
  = false.
Proof.
  apply (no_verses_generic_analysis no_similarity
           {| thirukkural_db := empty_db; kamba_db := empty_db |} kural_1);
    reflexivity.
Defined.

(** ** Lookup by book and number *)

Lemma lookup_verses_some (key : pystr) (n : Z) (vs : list verse_record)
    (r : lookup_result) :
  lookup_verses key n vs = Some r ->
  exists pre post,
    vs = pre ++ l_record r :: post
    /\ number_is (l_record r) n = true
    /\ (forall w, In w pre -> number_is w n = false)
    /\ l_verse_number r = str_of_int n
    /\ l_book_key r = key.
Proof.
  induction vs as [|v vs IH]; cbn [lookup_verses]; [discriminate|].
  destruct (number_is v n) eqn:E.
  - intro H. apply Some_inj in H. subst r. exists [], vs. cbn [l_record
      l_verse_number l_book_key]. repeat split; auto. intros w [].
  - intro H. destruct (IH H) as (pre & post & Hvs & Hn & Hpre & Hnum & Hk).
    exists (v :: pre), post. rewrite Hvs. repeat split; auto.
    intros w [Hw | Hw]; [subst w; exact E | apply Hpre, Hw].
Qed.

Lemma lookup_verses_none (key : pystr) (n : Z) (vs : list verse_record) :
  lookup_verses key n vs = None
  <-> forall w, In w vs -> number_is w n = false.
Proof.
  induction vs as [|v vs IH]; cbn [lookup_verses].
  - split; [intros _ w [] | reflexivity].
  - destruct (number_is v n) eqn:E.
    + split; [discriminate|]. intro H.
      rewrite (H v (or_introl eq_refl)) in E. discriminate.
    + rewrite IH. split.
      * intros H w [Hw | Hw]; [subst w; exact E | apply H, Hw].
      * intros H w Hw. apply H. right. exact Hw.
Qed.

Lemma number_is_true (v : verse_record) (n : Z) :
  number_is v n = true <-> verse_number v = Some (VInt n).
Proof.
  unfold number_is. destruct (verse_number v) as [[k | s]|].
  - rewrite Z.eqb_eq. split; [intro; subst; reflexivity|].
    intro H. apply Some_inj in H. congruence.
  - split; discriminate.
  - split; discriminate.
Qed.

(** X18. [search_by_book_and_number] returns the first verse of the
    selected database whose stored number is the integer asked for, under
    the printed number and the book key as given; it returns nothing
    exactly when no verse stores that integer, so a verse whose number is
    stored as a string is never returned.  Every key other than
    ['thirukkural'] selects the Kamba database. *)
Theorem search_by_book_and_number_first (a : analyzer) (key : pystr) (n : Z) :
  let db := select_db a key in
  (forall r, search_by_book_and_number a key n = Some r ->
     exists pre post,
       verses db = pre ++ l_record r :: post
       /\ verse_number (l_record r) = Some (VInt n)
       /\ (forall w, In w pre -> verse_number w <> Some (VInt n))
       /\ l_verse_number r = str_of_int n
       /\ l_verse_number r = verse_num_of (l_record r)
       /\ l_book_key r = key)
  /\ (search_by_book_and_number a key n = None
      <-> forall w, In w (verses db) -> verse_number w <> Some (VInt n))
  /\ (forall r s, search_by_book_and_number a key n = Some r ->
        verse_number (l_record r) <> Some (VStr s))
  /\ (key <> thirukkural_key -> db = kamba_db a)
  /\ (key = thirukkural_key -> db = thirukkural_db a).
Proof.
  cbv zeta. unfold search_by_book_and_number.
  split; [|split; [|split; [|split]]].
  - intros r H.
    destruct (lookup_verses_some key n _ r H)
      as (pre & post & Hvs & Hn & Hpre & Hnum & Hk).
    apply number_is_true in Hn.
    exists pre, post. split; [exact Hvs|]. split; [exact Hn|].
    split.
    + intros w Hw Habs. apply number_is_true in Habs.
      rewrite (Hpre w Hw) in Habs. discriminate.
    + split; [exact Hnum|]. split; [|exact Hk].
      unfold verse_num_of. rewrite Hn. exact Hnum.
  - rewrite lookup_verses_none. split; intros H w Hw.
    + intro Habs. apply number_is_true in Habs.
      rewrite (H w Hw) in Habs. discriminate.
    + destruct (number_is w n) eqn:E; [|reflexivity].
      apply number_is_true in E. exfalso. apply (H w Hw E).
  - intros r s H.
    destruct (lookup_verses_some key n _ r H) as (_ & _ & _ & Hn & _).
    apply number_is_true in Hn. rewrite Hn. discriminate.
  - intro Hk. unfold select_db. apply eqb_false_iff in Hk. rewrite Hk.
    reflexivity.
  - intro Hk. unfold select_db. apply eqb_true_iff in Hk. rewrite Hk.
    reflexivity.
Qed.

(** ** Queries written below the Tamil block *)

Lemma below_tamil_invalid (text : pystr) :
  below_tamil text -> is_valid_tamil text = false.
Proof.
  intro H. unfold is_valid_tamil.
  destruct (existsb is_tamil text) eqn:E; [|reflexivity].
  apply existsb_exists in E. destruct E as (c & Hc & Ht).
  specialize (H c Hc). unfold is_tamil in Ht.
  apply andb_true_iff in Ht. destruct Ht as [Ht _].
  apply Z.leb_le in Ht. lia.
Qed.

Lemma digits_go_chars (fuel : nat) :
  forall n acc,
    0 <= n ->
    (forall c, In c acc -> 48 <= c <= 57) ->
    forall c, In c (digits_go fuel n acc) -> 48 <= c <= 57.
Proof.
  induction fuel as [|f IH]; intros n acc Hn Hacc c; cbn [digits_go].
  - apply Hacc.
  - assert (Hacc' : forall d, In d ((48 + n mod 10) :: acc) -> 48 <= d <= 57).
    { intros d [Hd | Hd]; [|apply Hacc, Hd].
      pose proof (Z.mod_pos_bound n 10 ltac:(lia)). lia. }
    destruct (n <? 10); [apply Hacc'|].
    apply IH; [|exact Hacc'].
    apply Z.div_pos; lia.
Qed.

Lemma digits_go_last (fuel : nat) :
  forall n acc d, In d acc -> In d (digits_go fuel n acc).
Proof.
  induction fuel as [|f IH]; intros n acc d Hd; cbn [digits_go];
    [exact Hd|].
  destruct (n <? 10); [right; exact Hd|].
  apply IH. right. exact Hd.
Qed.

Lemma str_of_int_chars (n : Z) :
  str_of_int n <> []
  /\ forall c, In c (str_of_int n) -> 45 <= c <= 57.
Proof.
  unfold str_of_int. destruct (n <? 0) eqn:E.
  - split; [discriminate|]. apply Z.ltb_lt in E.
    intros c [Hc | Hc]; [lia|].
    pose proof (digits_go_chars _ (- n) [] ltac:(lia)
                  (fun c (H : In c []) => match H with end) c Hc).
    lia.
  - apply Z.ltb_ge in E. split.
    + cbn [digits_go]. intro Habs.
      destruct (n <? 10).
      * discriminate Habs.
      * pose proof (digits_go_last (Z.to_nat (Z.log2 n)) (n / 10)
                      [48 + n mod 10] (48 + n mod 10) (or_introl eq_refl))
          as Hin.
        rewrite Habs in Hin. destruct Hin.
    + intros c Hc.
      pose proof (digits_go_chars _ n [] E
                    (fun c (H : In c []) => match H with end) c Hc).
      lia.
Qed.

(** X19. A text that is not blank and is written with characters below the
    Tamil block only (Latin letters, ASCII digits, punctuation) is answered
    with the invalid-input result whatever the databases hold; in
    particular the decimal writing of every integer is, so no verse can be
    asked for by its number through [analyze]. *)
Theorem text_below_tamil_is_invalid (F : Fuzz) (a : analyzer) :
  (forall text, below_tamil text -> ~ blank text ->
     analyze a text = InvalidText)
  /\ (forall n : Z,
        preprocess_for_analysis (str_of_int n) = []
        /\ analyze a (str_of_int n) = InvalidText).
Proof.
  assert (Hgen : forall text, below_tamil text -> ~ blank text ->
                   analyze a text = InvalidText).
  { intros text Hb Hnb. unfold analyze.
    destruct (isEmpty text || (len (strip text) =? 0)) eqn:E1.
    - exfalso. apply Hnb. apply first_gate_iff. exact E1.
    - rewrite (preprocess_invalid text (below_tamil_invalid text Hb)).
      reflexivity. }
  split; [exact Hgen|]. intro n.
  destruct (str_of_int_chars n) as [Hne Hc].
  assert (Hb : below_tamil (str_of_int n)).
  { intros c Hin. specialize (Hc c Hin). lia. }
  split.
  - apply preprocess_invalid, below_tamil_invalid, Hb.
  - apply Hgen; [exact Hb|]. intro Hbl.
    destruct (str_of_int n) as [|c s]; [apply Hne; reflexivity|].
    specialize (Hc c (or_introl eq_refl)).
    specialize (Hbl c (or_introl eq_refl)).
    unfold is_space in Hbl.
    repeat (apply orb_true_iff in Hbl; destruct Hbl as [Hbl | Hbl]);
      repeat match goal with
             | H : (_ && _) = true |- _ => apply andb_true_iff in H; destruct H
             | H : (_ <=? _) = true |- _ => apply Z.leb_le in H
             | H : (_ =? _) = true |- _ => apply Z.eqb_eq in H
             end; lia.
Qed.

(** ** Search by author *)

Lemma startswith_iff (s p : pystr) :
  startswith s p = true <-> exists post, s = p ++ post.
Proof.
  revert s. induction p as [|x p IH]; intro s.
  - split; [intros _; exists s; reflexivity | destruct s; reflexivity].
  - destruct s as [|y s]; cbn [startswith].
    + split; [discriminate | intros [post H]; discriminate].
    + rewrite andb_true_iff, Z.eqb_eq, IH. split.
      * intros [Hxy [post Hs]]. exists post. subst. reflexivity.
      * intros [post Hs]. simpl in Hs.
        split; [congruence|]. exists post. congruence.
Qed.

Lemma contains_iff (s sub : pystr) :
  contains s sub = true <-> exists pre post, s = pre ++ sub ++ post.
Proof.
  induction s as [|c s IH]; cbn [contains].
  - rewrite orb_false_r, startswith_iff. split.
    + intros [post H]. exists [], post. exact H.
    + intros (pre & post & H). symmetry in H.
      apply app_eq_nil in H. destruct H as [_ H].
      apply app_eq_nil in H. destruct H as [H _]. subst sub.
      exists []. reflexivity.
  - rewrite orb_true_iff, startswith_iff, IH. split.
    + intros [[post H] | (pre & post & H)].
      * exists [], post. exact H.
      * exists (c :: pre), post. simpl. rewrite H. reflexivity.
    + intros (pre & post & H). destruct pre as [|d pre].
      * left. exists post. exact H.
      * right. simpl in H. exists pre, post. congruence.
Qed.

Lemma contains_trans (s a b : pystr) :
  contains s a = true -> contains a b = true -> contains s b = true.
Proof.
  rewrite !contains_iff.
  intros (p1 & q1 & H1) (p2 & q2 & H2).
  exists (p1 ++ p2), (q2 ++ q1). subst s a.
  rewrite <- !app_assoc. reflexivity.
Qed.

Lemma contains_empty_string (sub : pystr) :
  contains [] sub = true -> sub = [].
Proof.
  rewrite contains_iff. intros (pre & post & H). symmetry in H.
  apply app_eq_nil in H. destruct H as [_ H].
  apply app_eq_nil in H. apply H.
Qed.

(** X20. [search_by_author] lists a book exactly when the name asked for
    occurs inside the author of the book's metadata, Thirukkural first.
    The empty name lists both books whatever the databases hold; a book
    without an author in its metadata is listed for the empty name only;
    and a name that occurs inside another name lists at least the books
    that the longer name lists. *)
Theorem search_by_author_substring (a : analyzer) (name : pystr) :
  let tk := get_str (meta_author (db_metadata (thirukkural_db a))) [] in
  let kr := get_str (meta_author (db_metadata (kamba_db a))) [] in
  (In thirukkural_key (search_by_author a name)
   <-> exists pre post, tk = pre ++ name ++ post)
  /\ (In kamba_ramayanam_key (search_by_author a name)
      <-> exists pre post, kr = pre ++ name ++ post)
  /\ (forall k, In k (search_by_author a name) ->
        k = thirukkural_key \/ k = kamba_ramayanam_key)
  /\ search_by_author a [] = [thirukkural_key; kamba_ramayanam_key]
  /\ (meta_author (db_metadata (thirukkural_db a)) = None ->
      meta_author (db_metadata (kamba_db a)) = None ->
      name <> [] -> search_by_author a name = [])
  /\ (forall longer, contains longer name = true ->
        forall k, In k (search_by_author a longer) ->
                  In k (search_by_author a name)).
Proof.
  cbv zeta. unfold search_by_author.
  set (tk := get_str (meta_author (db_metadata (thirukkural_db a))) []).
  set (kr := get_str (meta_author (db_metadata (kamba_db a))) []).
  split; [|split; [|split; [|split; [|split]]]].
  - rewrite <- contains_iff.
    destruct (contains tk name), (contains kr name); simpl; split;
      auto; try discriminate;
      intros [H | H]; try discriminate H; try contradiction.
  - rewrite <- contains_iff.
    destruct (contains tk name), (contains kr name); simpl; split;
      auto; try discriminate;
      intros [H | H]; try discriminate H; try contradiction.
  - destruct (contains tk name), (contains kr name); simpl;
      intros k H; repeat (destruct H as [H | H]; auto); contradiction.
  - assert (E : forall s, contains s [] = true)
      by (intro s; destruct s; reflexivity).
    rewrite !E. reflexivity.
  - intros Ht Hk Hne. subst tk kr. rewrite Ht, Hk. cbn [get_str].
    destruct (contains [] name) eqn:E; [|reflexivity].
    exfalso. apply Hne. apply contains_empty_string. exact E.
  - intros longer Hsub k.
    destruct (contains tk longer) eqn:E1, (contains kr longer) eqn:E2;
      try rewrite (contains_trans tk longer name E1 Hsub);
      try rewrite (contains_trans kr longer name E2 Hsub);
      simpl; intro H; repeat (destruct H as [H | H]; auto);
      try contradiction;
      destruct (contains tk name), (contains kr name); simpl; auto.
Qed.

(** ** The bands of the keyword sentiment *)

Lemma count_matching_range (keywords words : list pystr) :
  0 <= count_matching keywords words <= Z.of_nat (List.length words).
Proof.
  unfold count_matching.
  pose proof (filter_length_le (matches_any keywords) words). lia.
Qed.

(** The share of one count in twice the total, between bounds. *)
Lemma share_bounds (k t : Z) :
  0 < t -> 0 <= k <= t ->
  (0 <= inject_Z k / inject_Z (t * 2) <= 1 # 2)%Q
  /\ (t <= 2 * k -> (1 # 4 <= inject_Z k / inject_Z (t * 2))%Q).
Proof.
  intros Ht Hk.
  assert (Hd : (0 < inject_Z (t * 2))%Q) by (unfold Qlt; simpl; lia).
  split; [split|].
  - apply Qle_shift_div_l; [exact Hd|].
    unfold Qle, Qmult, inject_Z; cbn [Qnum Qden]; lia.
  - apply Qle_shift_div_r; [exact Hd|].
    unfold Qle, Qmult, inject_Z; cbn [Qnum Qden]; lia.
  - intro H. apply Qle_shift_div_l; [exact Hd|].
    unfold Qle, Qmult, inject_Z; cbn [Qnum Qden]; lia.
Qed.

(** X21. The keyword sentiment: the label is decided by comparing the
    positive and negative counts, and each label has its own band of
    scores: Positive at least 0.95 (and at most 1.2), Negative at most
    0.05 (and at least -0.2), Neutral and Mixed exactly 0.5.  Neither
    count exceeds the number of words of the text. *)
Theorem sentiment_label_bands (text : pystr) :
  let r := _analyze_sentiment text in
  let p := n_positive_words r in
  let n := n_negative_words r in
  (label r = Positive <-> n < p)
  /\ (label r = Negative <-> p < n)
  /\ (label r = Mixed <-> p = n /\ 0 < p)
  /\ (label r = Neutral <-> p = 0 /\ n = 0)
  /\ (label r = Positive -> (0.95 <= score r <= 1.2)%Q)
  /\ (label r = Negative -> (-0.2 <= score r <= 0.05)%Q)
  /\ (label r = Neutral \/ label r = Mixed -> (score r == 0.5)%Q)
  /\ 0 <= p <= count_words text
  /\ 0 <= n <= count_words text.
Proof.
  cbv zeta. unfold _analyze_sentiment, count_words.
  rewrite tokenize_words_split.
  pose proof (count_matching_range positive_words (split text)) as Hp.
  pose proof (count_matching_range negative_words (split text)) as Hn.
  set (p := count_matching positive_words (split text)) in *.
  set (n := count_matching negative_words (split text)) in *.
  destruct (p + n =? 0) eqn:E0.
  { apply Z.eqb_eq in E0. cbn [label score n_positive_words n_negative_words].
    repeat split; try discriminate; try lia; intros; try lia;
      try reflexivity. }
  apply Z.eqb_neq in E0.
  assert (Ht : 0 < p + n) by lia.
  destruct (n <? p) eqn:E1.
  { apply Z.ltb_lt in E1.
    destruct (share_bounds p (p + n) Ht ltac:(lia)) as [[Hlo Hhi] Hq].
    specialize (Hq ltac:(lia)).
    set (q := (inject_Z p / inject_Z ((p + n) * 2))%Q) in *.
    cbn [label score n_positive_words n_negative_words].
    pose proof (fl_mono _ _ Hq) as Fq1. pose proof (fl_mono _ _ Hhi) as Fq2.
    assert (B1 : (0.95 <= py_round2 (fl (fl 0.7 + fl q)))%Q).
    { apply Qle_trans with (py_round2 (fl (fl 0.7 + fl (1 # 4))));
        [closed_Q|].
      apply py_round2_mono, fl_mono. lra. }
    assert (B2 : (py_round2 (fl (fl 0.7 + fl q)) <= 1.2)%Q).
    { apply Qle_trans with (py_round2 (fl (fl 0.7 + fl (1 # 2))));
        [|closed_Q].
      apply py_round2_mono, fl_mono. lra. }
    repeat split; try discriminate; try lia; intros; try lia;
      try assumption; try reflexivity;
      match goal with
      | H : _ \/ _ |- _ => destruct H; discriminate
      end. }
  apply Z.ltb_ge in E1.
  destruct (p <? n) eqn:E2.
  { apply Z.ltb_lt in E2.
    destruct (share_bounds n (p + n) Ht ltac:(lia)) as [[Hlo Hhi] Hq].
    specialize (Hq ltac:(lia)).
    set (q := (inject_Z n / inject_Z ((p + n) * 2))%Q) in *.
    cbn [label score n_positive_words n_negative_words].
    pose proof (fl_mono _ _ Hq) as Fq1. pose proof (fl_mono _ _ Hhi) as Fq2.
    assert (B1 : (-0.2 <= py_round2 (fl (fl 0.3 - fl q)))%Q).
    { apply Qle_trans with (py_round2 (fl (fl 0.3 - fl (1 # 2))));
        [closed_Q|].
      apply py_round2_mono, fl_mono. lra. }
    assert (B2 : (py_round2 (fl (fl 0.3 - fl q)) <= 0.05)%Q).
    { apply Qle_trans with (py_round2 (fl (fl 0.3 - fl (1 # 4))));
        [|closed_Q].
      apply py_round2_mono, fl_mono. lra. }
    repeat split; try discriminate; try lia; intros; try lia;
      try assumption; try reflexivity;
      match goal with
      | H : _ \/ _ |- _ => destruct H; discriminate
      end. }
  apply Z.ltb_ge in E2.
  cbn [label score n_positive_words n_negative_words].
  repeat split; try discriminate; try lia; intros; try lia; try reflexivity.
Qed.

(** * Properties of the single-book analyzer *)

Section SingleBook.

Import SemanticAnalyzer.

(** ** The store *)

Lemma write_length (db : database) (f : entry -> entry) :
  forall ref, List.length (write db ref f) = List.length db.
Proof.
  induction db as [|[k e] db IH]; intros [|r]; simpl; auto.
Qed.

Lemma nth_error_write_same (db : database) (f : entry -> entry) :
  forall ref k e,
    nth_error db ref = Some (k, e) ->
    nth_error (write db ref f) ref = Some (k, f e).
Proof.
  induction db as [|[k0 e0] db IH]; intros [|r] k e; simpl;
    try discriminate.
  - intro H. apply Some_inj in H. inversion H. reflexivity.
  - apply IH.
Qed.

Lemma nth_error_write_other (db : database) (f : entry -> entry) :
  forall ref j, ref <> j ->
    nth_error (write db ref f) j = nth_error db j.
Proof.
  induction db as [|[k0 e0] db IH]; intros [|r] [|j] H; simpl; auto;
    try contradiction.
Qed.

Lemma deref_nth_error (db : database) :
  forall ref k e, nth_error db ref = Some (k, e) -> deref db ref = e.
Proof.
  unfold deref.
  induction db as [|[k0 e0] db IH]; intros [|r] k e; simpl;
    try discriminate.
  - intro H. apply Some_inj in H. inversion H. reflexivity.
  - apply IH.
Qed.

Lemma nth_error_in_range (db : database) (j : nat) :
  (j < List.length db)%nat -> exists k e, nth_error db j = Some (k, e).
Proof.
  intro H. destruct (nth_error db j) as [[k e]|] eqn:E.
  - exists k, e. reflexivity.
  - apply nth_error_None in E. lia.
Qed.

(** ** The loop of [_fuzzy_search] *)

Lemma visit_inv {F : Fuzz} (nq : pystr) (th : Z) (db : database) (i : nat)
    (st : locals) :
  (i < List.length db)%nat ->
  loop_inv nq th db i st ->
  loop_inv nq th db (S i) (visit nq th st i).
Proof.
  intros Hi (Hlen & Hrest & Hdone & H0 & Hmax & Hbest).
  destruct (nth_error_in_range db i Hi) as (k & e & Ei).
  pose proof (deref_nth_error db i k e Ei) as Hd.
  unfold visit. rewrite (Hrest i (Nat.le_refl i)), Ei.
  fold (score_of nq e).
  destruct ((best_score st <? score_of nq e) && (th <=? score_of nq e))
    eqn:Ec.
  - apply andb_true_iff in Ec. destruct Ec as [Ec1 Ec2].
    apply Z.ltb_lt in Ec1. apply Z.leb_le in Ec2.
    assert (Hrec : record_at nq th db i).
    { unfold record_at. rewrite Hd.
      split; [exact Hi|]. split; [exact Ec2|]. split; [lia|].
      intros j Hj.
      destruct (Z_lt_le_dec (score_of nq (deref db j)) th) as [Hlt | Hge];
        [right; exact Hlt|].
      left. specialize (Hmax j Hj ltac:(lia) Hge). lia. }
    assert (Esti : nth_error (store st) i = Some (k, e))
      by (rewrite (Hrest i (Nat.le_refl i)); exact Ei).
    unfold loop_inv. cbn [store best_score best_match].
    split; [rewrite !write_length; exact Hlen|].
    split.
    { intros j Hj. rewrite !nth_error_write_other by lia.
      apply Hrest. lia. }
    split.
    { intros j k' e' Hj Ej.
      destruct (Nat.eq_dec j i) as [-> | Hne].
      - rewrite Ei in Ej. apply Some_inj in Ej. inversion Ej. subst k' e'.
        split; [|intro Hn; contradiction].
        intros _.
        rewrite (nth_error_write_same _ _ i k (set_match_score (score_of nq e) e)).
        + reflexivity.
        + apply nth_error_write_same. exact Esti.
      - rewrite !nth_error_write_other by lia.
        apply Hdone; [lia | exact Ej]. }
    split; [lia|].
    split.
    { intros j Hj Hjl Hge.
      destruct (Nat.eq_dec j i) as [-> | Hne]; [rewrite Hd; lia|].
      specialize (Hmax j ltac:(lia) Hjl Hge). lia. }
    split; [lia|]. split; [exact Hrec|]. rewrite Hd. reflexivity.
  - assert (Hc : score_of nq e <= best_score st \/ score_of nq e < th).
    { apply andb_false_iff in Ec. destruct Ec as [Ec | Ec].
      - left. apply Z.ltb_ge in Ec. exact Ec.
      - right. apply Z.leb_gt in Ec. exact Ec. }
    assert (Hnrec : ~ record_at nq th db i).
    { intros (_ & Hth & Hpos & Hprev). rewrite Hd in Hth, Hpos, Hprev.
      destruct Hc as [Hc | Hc]; [|lia].
      destruct (best_match st) as [r|].
      - destruct Hbest as (Hr & (_ & Hrth & _) & Hbs).
        specialize (Hprev r Hr). lia.
      - lia. }
    unfold loop_inv.
    split; [exact Hlen|].
    split; [intros j Hj; apply Hrest; lia|].
    split.
    { intros j k' e' Hj Ej.
      destruct (Nat.eq_dec j i) as [-> | Hne].
      - rewrite Ei in Ej. apply Some_inj in Ej. inversion Ej. subst k' e'.
        split; [intro Hn; contradiction|].
        intros _. rewrite (Hrest i (Nat.le_refl i)). exact Ei.
      - apply Hdone; [lia | exact Ej]. }
    split; [exact H0|].
    split.
    { intros j Hj Hjl Hge.
      destruct (Nat.eq_dec j i) as [-> | Hne].
      - rewrite Hd in *. lia.
      - apply Hmax; [lia | exact Hjl | exact Hge]. }
    destruct (best_match st) as [r|]; [|exact Hbest].
    destruct Hbest as (Hr & Hrec & Hbs). split; [lia|]. split; assumption.
Qed.

Lemma fold_visit_inv {F : Fuzz} (nq : pystr) (th : Z) (db : database) :
  forall n i st,
    (i + n = List.length db)%nat ->
    loop_inv nq th db i st ->
    loop_inv nq th db (List.length db)
      (fold_left (visit nq th) (seq i n) st).
Proof.
  induction n as [|n IH]; intros i st Hn Hinv; cbn [seq fold_left].
  - rewrite Nat.add_0_r in Hn. rewrite <- Hn. exact Hinv.
  - apply IH; [lia|]. apply visit_inv; [lia | exact Hinv].
Qed.

Lemma loop_inv_start {F : Fuzz} (nq : pystr) (th : Z) (db : database) :
  loop_inv nq th db 0
    {| best_match := None; best_score := 0; store := db |}.
Proof.
  unfold loop_inv. cbn [store best_score best_match].
  split; [reflexivity|]. split; [reflexivity|].
  split; [intros j k e Hj; lia|]. split; [lia|].
  split; [intros j Hj; lia | reflexivity].
Qed.

(** What [_fuzzy_search] leaves and returns. *)
Lemma fuzzy_search_inv {F : Fuzz} (db : database) (query : pystr) (th : Z) :
  exists st,
    _fuzzy_search db query th = (store st, best_match st)
    /\ loop_inv (normalize_text query) th db (List.length db) st.
Proof.
  unfold _fuzzy_search. eexists. split; [reflexivity|].
  apply fold_visit_inv; [reflexivity | apply loop_inv_start].
Qed.

(** ** [analyze] through the store *)

Lemma analyze_valid {F : Fuzz} (db : database) (text : pystr) :
  is_valid_tamil text = true ->
  exists st,
    loop_inv (normalize_text (preprocess_for_analysis text)) 70 db
      (List.length db) st
    /\ analyze db text
       = (store st,
          match best_match st with
          | Some ref => Found (found_of_entry (deref (store st) ref))
          | None => _generate_generic_analysis (clean_text text)
          end).
Proof.
  intro Hv. destruct (valid_passes_gates text Hv) as (G1 & _ & G2).
  destruct (fuzzy_search_inv db (preprocess_for_analysis text) 70)
    as (st & E & Hinv).
  exists st. split; [exact Hinv|].
  unfold analyze. rewrite G1, G2, E.
  rewrite (preprocess_valid text Hv).
  destruct (best_match st); reflexivity.
Qed.

Lemma analyze_not_valid {F : Fuzz} (db : database) (text : pystr) :
  is_valid_tamil text = false ->
  analyze db text = (db, EmptyText) \/ analyze db text = (db, InvalidText).
Proof.
  intro Hv. unfold analyze.
  destruct (isEmpty text || (len (strip text) =? 0)); [left; reflexivity|].
  rewrite (preprocess_invalid text Hv). right. reflexivity.
Qed.

Lemma valid_or_not (text : pystr) :
  is_valid_tamil text = true \/ is_valid_tamil text = false.
Proof.
  destruct (is_valid_tamil text); auto.
Qed.

(** The winner of a finished loop, read off the invariant. *)
Lemma loop_inv_winner {F : Fuzz} (nq : pystr) (th : Z) (db : database)
    (st : locals) (ref : nat) :
  loop_inv nq th db (List.length db) st ->
  best_match st = Some ref ->
  exists key e,
    nth_error db ref = Some (key, e)
    /\ deref (store st) ref = written_entry nq key e
    /\ th <= score_of nq e
    /\ 0 < score_of nq e
    /\ (forall j k' e', nth_error db j = Some (k', e') ->
          th <= score_of nq e' -> score_of nq e' <= score_of nq e)
    /\ (forall j k' e', (j < ref)%nat -> nth_error db j = Some (k', e') ->
          th <= score_of nq e' -> score_of nq e' < score_of nq e).
Proof.
  intros (Hlen & Hrest & Hdone & H0 & Hmax & Hbest) Eb.
  rewrite Eb in Hbest. destruct Hbest as (Hr & Hrec & Hbs).
  destruct (nth_error_in_range db ref Hr) as (key & e & Er).
  pose proof (deref_nth_error db ref key e Er) as Hd.
  exists key, e. split; [exact Er|].
  split.
  { apply (deref_nth_error _ ref key).
    apply (proj1 (Hdone ref key e Hr Er) Hrec). }
  destruct Hrec as (_ & Hth & Hpos & Hprev). rewrite Hd in *.
  split; [exact Hth|]. split; [exact Hpos|].
  split.
  - intros j k' e' Ej Hge.
    assert (Hj : (j < List.length db)%nat)
      by (apply nth_error_Some; rewrite Ej; discriminate).
    specialize (Hmax j Hj Hj).
    rewrite (deref_nth_error db j k' e' Ej) in Hmax.
    specialize (Hmax Hge). lia.
  - intros j k' e' Hj Ej Hge. specialize (Hprev j Hj).
    rewrite (deref_nth_error db j k' e' Ej) in Hprev. lia.
Qed.

(** X22. A found result of the single-book analyzer reports the first
    verse of the database with the greatest similarity to the query: the
    number is the key the verse is stored under, the texts are the verse's
    own, the confidence is one hundredth of the verse's similarity, which
    is at least 70, no verse is more similar and no earlier verse is as
    similar.  With the similarity in its documented range the confidence
    lies between 0.7 and 1. *)
Theorem single_book_first_best_verse (F : Fuzz) (db : database)
    (text : pystr) (r : found_result) :
  let nq := normalize_text (preprocess_for_analysis text) in
  snd (analyze db text) = Found r ->
  exists ref key e,
    nth_error db ref = Some (key, e)
    /\ number r = key
    /\ r_verse r = get_str (e_verse e) []
    /\ r_book r = get_str (e_book e) thirukkural_title
    /\ r_section r = get_str (e_section e) []
    /\ r_chapter r = get_str (e_chapter e) []
    /\ r_meaning r = get_str (e_meaning e) []
    /\ r_summary r = get_str (e_summary e) []
    /\ confidence r = (inject_Z (score_of nq e) / 100)%Q
    /\ 70 <= score_of nq e
    /\ (forall j k' e', nth_error db j = Some (k', e') ->
          score_of nq e' <= score_of nq e)
    /\ (forall j k' e', (j < ref)%nat -> nth_error db j = Some (k', e') ->
          score_of nq e' < score_of nq e)
    /\ (fuzz_in_range F -> (0.7 <= confidence r <= 1)%Q).
Proof.
  cbv zeta. intro E.
  destruct (valid_or_not text) as [Hv | Hv].
  2: { destruct (analyze_not_valid db text Hv) as [H | H];
         rewrite H in E; discriminate. }
  destruct (analyze_valid db text Hv) as (st & Hinv & Ea).
  rewrite Ea in E. cbn [snd] in E.
  destruct (best_match st) as [ref|] eqn:Eb; [|discriminate].
  destruct (loop_inv_winner _ 70 db st ref Hinv Eb)
    as (key & e & Er & Hd & Hth & Hpos & Hmax & Hprev).
  rewrite Hd in E.
  assert (Hr : r = found_of_entry
                     (written_entry
                        (normalize_text (preprocess_for_analysis text))
                        key e)).
  { apply (f_equal (fun x => match x with
                             | Found f => f
                             | _ => r
                             end)) in E. symmetry. exact E. }
  exists ref, key, e. subst r.
  cbn [found_of_entry written_entry set_verse_number set_match_score
       number r_verse r_book r_section r_chapter r_meaning r_summary
       confidence e_verse e_book e_section e_chapter e_meaning e_summary
       e_match_score e_verse_number get_str].
  set (nq := normalize_text (preprocess_for_analysis text)) in *.
  split; [exact Er|]. do 8 (split; [reflexivity|]).
  split; [exact Hth|].
  split.
  { intros j k' e' Ej.
    destruct (Z_lt_le_dec (score_of nq e') 70) as [Hlt | Hge]; [lia|].
    apply (Hmax j k' e' Ej Hge). }
  split.
  { intros j k' e' Hj Ej.
    destruct (Z_lt_le_dec (score_of nq e') 70) as [Hlt | Hge]; [lia|].
    apply (Hprev j k' e' Hj Ej Hge). }
  intro Hrange.
  assert (H100 : score_of nq e <= 100).
  { unfold score_of. apply (Hrange nq _). }
  split.
  - apply Qle_shift_div_l; [reflexivity|].
    rewrite Zle_Qle in Hth. change (inject_Z 70) with 70%Q in Hth. lra.
  - apply Qle_shift_div_r; [reflexivity|].
    rewrite Zle_Qle in H100. change (inject_Z 100) with 100%Q in H100. lra.
Qed.

Lemma single_book_first_best_verse_witness :
  exists ref key e,
    nth_error [(u "1", text_entry kural_1)] ref = Some (key, e)
    /\ u "1" = key.
Proof.
  destruct (single_book_first_best_verse equality_only
              [(u "1", text_entry kural_1)] kural_1
              (found_of_entry
                 (written_entry (F := equality_only)
                    (normalize_text (preprocess_for_analysis kural_1))
                    (u "1") (text_entry kural_1))))
    as (ref & key & e & Hn & Hk & _).
  - vm_compute. reflexivity.
  - exists ref, key, e. split; [exact Hn | exact Hk].
Defined.

(** X23. For a text with a Tamil character the single-book analyzer finds
    a verse exactly when some verse of the database has a similarity of at
    least 70 to the normalized text; otherwise it returns the generic
    analysis, whose confidence is 0.3, whose verse is the cleaned text and
    whose meaning quotes the number of words of the text. *)
Theorem single_book_found_iff (F : Fuzz) (db : database) (text : pystr) :
  let nq := normalize_text (preprocess_for_analysis text) in
  is_valid_tamil text = true ->
  ((exists r, snd (analyze db text) = Found r)
   <-> exists j k e, nth_error db j = Some (k, e) /\ 70 <= score_of nq e)
  /\ ((exists r, snd (analyze db text) = Found r)
      \/ snd (analyze db text)
         = Generic {| g_verse := clean_text text;
                      g_meaning :=
                        generic_meaning_prefix
                        ++ str_of_int (count_words text)
                        ++ generic_meaning_suffix;
                      g_confidence := 0.3 |}).
Proof.
  cbv zeta. intro Hv.
  destruct (analyze_valid db text Hv) as (st & Hinv & Ea).
  rewrite Ea. cbn [snd].
  set (nq := normalize_text (preprocess_for_analysis text)) in *.
  destruct (best_match st) as [ref|] eqn:Eb.
  - destruct (loop_inv_winner nq 70 db st ref Hinv Eb)
      as (key & e & Er & _ & Hth & _).
    split; [|left; eexists; reflexivity].
    split; [intros _; exists ref, key, e; auto | intros _; eexists; reflexivity].
  - destruct Hinv as (_ & _ & _ & _ & Hmax & Hbest). rewrite Eb in Hbest.
    split.
    + split; [intros [r H]; discriminate|].
      intros (j & k & e & Ej & Hge). exfalso.
      assert (Hj : (j < List.length db)%nat)
        by (apply nth_error_Some; rewrite Ej; discriminate).
      specialize (Hmax j Hj Hj).
      rewrite (deref_nth_error db j k e Ej) in Hmax.
      specialize (Hmax Hge). lia.
    + right. unfold _generate_generic_analysis.
      assert (Hc : count_words (clean_text text) = count_words text).
      { unfold count_words. rewrite !tokenize_words_split.
        rewrite clean_text_words, split_join_split. reflexivity. }
      rewrite Hc. reflexivity.
Qed.

Lemma single_book_found_iff_witness :
  (exists r,
     snd (analyze (F := equality_only) [(u "1", text_entry kural_1)] kural_1)
     = Found r)
  <-> exists j k e,
        nth_error [(u "1", text_entry kural_1)] j = Some (k, e)
        /\ 70 <= score_of (F := equality_only)
                   (normalize_text (preprocess_for_analysis kural_1)) e.
Proof.
  apply (single_book_found_iff equality_only
           [(u "1", text_entry kural_1)] kural_1).
  vm_compute. reflexivity.
Defined.

(** ** What a search writes into the database *)

Lemma same_text_refl (e : entry) : same_text e e.
Proof.
  unfold same_text. repeat split.
Qed.

Lemma same_text_written {F : Fuzz} (nq key : pystr) (e : entry) :
  same_text e (written_entry nq key e).
Proof.
  unfold same_text. repeat split.
Qed.

Lemma same_verses_pointwise (db1 : database) :
  forall db2,
    List.length db1 = List.length db2 ->
    (forall j k e, nth_error db1 j = Some (k, e) ->
       exists e', nth_error db2 j = Some (k, e') /\ same_text e e') ->
    same_verses db1 db2.
Proof.
  unfold same_verses.
  induction db1 as [|[k1 e1] db1 IH]; intros [|[k2 e2] db2] Hlen Hp;
    try discriminate Hlen.
  - constructor.
  - constructor.
    + destruct (Hp O k1 e1 eq_refl) as (e' & E & Hs).
      apply Some_inj in E. inversion E. subst. split; [reflexivity | exact Hs].
    + apply IH.
      * simpl in Hlen. lia.
      * intros j k e Ej. apply (Hp (S j) k e Ej).
Qed.

Lemma same_verses_nth (db1 db2 : database) :
  same_verses db1 db2 ->
  List.length db1 = List.length db2
  /\ forall j k e, nth_error db1 j = Some (k, e) ->
       exists e', nth_error db2 j = Some (k, e') /\ same_text e e'.
Proof.
  unfold same_verses. induction 1 as [|[k1 e1] [k2 e2] l1 l2 [Hk Hs] _ IH].
  - split; [reflexivity|]. intros [|j] k e H; discriminate H.
  - destruct IH as [Hlen Hp]. split; [simpl; lia|].
    intros [|j] k e Ej.
    + apply Some_inj in Ej. inversion Ej. subst. simpl in Hk. subst k2.
      exists e2. split; [reflexivity | exact Hs].
    + apply (Hp j k e Ej).
Qed.

Lemma bounded_forall_decided (P : nat -> Prop) :
  (forall j, P j \/ ~ P j) ->
  forall n, (forall j, (j < n)%nat -> P j) \/ ~ (forall j, (j < n)%nat -> P j).
Proof.
  intros Hdec. induction n as [|n [IH | IH]].
  - left. intros j Hj. lia.
  - destruct (Hdec n) as [Hn | Hn].
    + left. intros j Hj. destruct (Nat.eq_dec j n) as [-> | Hne];
        [exact Hn | apply IH; lia].
    + right. intro H. apply Hn, H. lia.
  - right. intro H. apply IH. intros j Hj. apply H. lia.
Qed.

Lemma classic_record_at {F : Fuzz} (nq : pystr) (th : Z) (db : database)
    (ref : nat) :
  record_at nq th db ref \/ ~ record_at nq th db ref.
Proof.
  unfold record_at.
  destruct (lt_dec ref (List.length db)) as [H1 | H1];
    [|right; intros [H _]; contradiction].
  destruct (Z_le_dec th (score_of nq (deref db ref))) as [H2 | H2];
    [|right; intros (_ & H & _); contradiction].
  destruct (Z_lt_dec 0 (score_of nq (deref db ref))) as [H3 | H3];
    [|right; intros (_ & _ & H & _); contradiction].
  destruct (bounded_forall_decided
              (fun j => score_of nq (deref db j) < score_of nq (deref db ref)
                        \/ score_of nq (deref db j) < th)) with (n := ref)
    as [H4 | H4].
  - intro j.
    destruct (Z_lt_dec (score_of nq (deref db j))
                (score_of nq (deref db ref))); [left; left; assumption|].
    destruct (Z_lt_dec (score_of nq (deref db j)) th);
      [left; right; assumption|].
    right. intros [H | H]; contradiction.
  - left. auto.
  - right. intros (_ & _ & _ & H). contradiction.
Qed.

Lemma loop_inv_same_verses {F : Fuzz} (nq : pystr) (th : Z) (db : database)
    (st : locals) :
  loop_inv nq th db (List.length db) st -> same_verses db (store st).
Proof.
  intros (Hlen & _ & Hdone & _).
  apply same_verses_pointwise; [symmetry; exact Hlen|].
  intros j k e Ej.
  assert (Hj : (j < List.length db)%nat)
    by (apply nth_error_Some; rewrite Ej; discriminate).
  destruct (Hdone j k e Hj Ej) as [Hw Hn].
  destruct (classic_record_at nq th db j) as [Hr | Hr].
  - exists (written_entry nq k e). split; [apply Hw, Hr|].
    apply same_text_written.
  - exists e. split; [apply Hn, Hr | apply same_text_refl].
Qed.

(** X24. What [analyze] of the single-book analyzer leaves in the
    database it holds: the verses, their keys and their order are kept and
    only ['match_score'] and ['verse_number'] are written; a text without a
    Tamil character leaves the database untouched; a search writes its
    score and the key into every verse that, on its turn, reaches 70 and
    beats all verses before it, not only into the verse it returns, and
    leaves every other verse as it was. *)
Theorem single_book_search_writes (F : Fuzz) (db : database) (text : pystr) :
  let nq := normalize_text (preprocess_for_analysis text) in
  let db' := fst (analyze db text) in
  same_verses db db'
  /\ (is_valid_tamil text = false -> db' = db)
  /\ (is_valid_tamil text = true ->
      forall j k e, nth_error db j = Some (k, e) ->
        (record_at nq 70 db j ->
         nth_error db' j = Some (k, written_entry nq k e))
        /\ (~ record_at nq 70 db j -> nth_error db' j = Some (k, e))).
Proof.
  cbv zeta.
  assert (Hsame : same_verses db db).
  { apply same_verses_pointwise; [reflexivity|].
    intros j k e Ej. exists e. split; [exact Ej | apply same_text_refl]. }
  destruct (valid_or_not text) as [Hv | Hv].
  - destruct (analyze_valid db text Hv) as (st & Hinv & Ea).
    rewrite Ea. cbn [fst].
    split; [exact (loop_inv_same_verses _ 70 db st Hinv)|].
    split; [rewrite Hv; discriminate|].
    intros _ j k e Ej.
    destruct Hinv as (_ & _ & Hdone & _).
    apply Hdone; [|exact Ej].
    apply nth_error_Some. rewrite Ej. discriminate.
  - assert (E : fst (analyze db text) = db)
      by (destruct (analyze_not_valid db text Hv) as [H | H];
          rewrite H; reflexivity).
    rewrite E. split; [exact Hsame|]. split; [reflexivity|].
    rewrite Hv. discriminate.
Qed.

(** ** Earlier searches do not change later answers *)

Lemma same_text_score {F : Fuzz} (nq : pystr) (e1 e2 : entry) :
  same_text e1 e2 -> score_of nq e1 = score_of nq e2.
Proof.
  intros (Hv & _). unfold score_of. rewrite Hv. reflexivity.
Qed.

Lemma same_text_found {F : Fuzz} (nq key : pystr) (e1 e2 : entry) :
  same_text e1 e2 ->
  found_of_entry (written_entry nq key e1)
  = found_of_entry (written_entry nq key e2).
Proof.
  intro Hs. pose proof (same_text_score nq e1 e2 Hs) as Hsc.
  destruct Hs as (H1 & H2 & H3 & H4 & H5 & H6 & H7).
  unfold found_of_entry, written_entry, set_verse_number, set_match_score.
  cbn [e_verse e_book e_section e_chapter e_meaning e_summary e_match_score
       e_verse_number].
  rewrite H1, H2, H3, H4, H6, H7, Hsc. reflexivity.
Qed.

Lemma loop_inv_none {F : Fuzz} (nq : pystr) (th : Z) (db : database)
    (st : locals) :
  loop_inv nq th db (List.length db) st ->
  best_match st = None ->
  forall j k e, nth_error db j = Some (k, e) ->
    th <= score_of nq e -> score_of nq e <= 0.
Proof.
  intros (_ & _ & _ & _ & Hmax & Hbest) Eb j k e Ej Hge.
  rewrite Eb in Hbest.
  assert (Hj : (j < List.length db)%nat)
    by (apply nth_error_Some; rewrite Ej; discriminate).
  specialize (Hmax j Hj Hj). rewrite (deref_nth_error db j k e Ej) in Hmax.
  specialize (Hmax Hge). lia.
Qed.

(** Two finished searches over databases with the same verses return the
    same reference. *)
Lemma same_verses_same_winner {F : Fuzz} (nq : pystr) (th : Z)
    (db1 db2 : database) (st1 st2 : locals) :
  same_verses db1 db2 ->
  loop_inv nq th db1 (List.length db1) st1 ->
  loop_inv nq th db2 (List.length db2) st2 ->
  best_match st1 = best_match st2.
Proof.
  intros Hsame H1 H2.
  destruct (same_verses_nth db1 db2 Hsame) as [Hlen H12].
  destruct (best_match st1) as [r1|] eqn:E1,
           (best_match st2) as [r2|] eqn:E2.
  - destruct (loop_inv_winner nq th db1 st1 r1 H1 E1)
      as (k1 & e1 & Er1 & _ & Hth1 & _ & Hmax1 & Hprev1).
    destruct (loop_inv_winner nq th db2 st2 r2 H2 E2)
      as (k2 & e2 & Er2 & _ & Hth2 & _ & Hmax2 & Hprev2).
    destruct (H12 r1 k1 e1 Er1) as (e1' & Er1' & Hs1).
    pose proof (same_text_score nq e1 e1' Hs1) as Hsc1.
    specialize (Hmax2 r1 k1 e1' Er1' ltac:(lia)).
    destruct (lt_eq_lt_dec r1 r2) as [[Hlt | Heq] | Hgt].
    + specialize (Hprev2 r1 k1 e1' Hlt Er1' ltac:(lia)).
      assert (Hr2 : (r2 < List.length db1)%nat).
      { rewrite Hlen. apply nth_error_Some. rewrite Er2. discriminate. }
      destruct (nth_error_in_range db1 r2 Hr2) as (k2' & e2' & Er2').
      destruct (H12 r2 k2' e2' Er2') as (e2'' & Er2'' & Hs2).
      rewrite Er2 in Er2''. apply Some_inj in Er2''. inversion Er2''.
      subst k2' e2''.
      pose proof (same_text_score nq e2' e2 Hs2) as Hsc2.
      specialize (Hmax1 r2 k2 e2' Er2' ltac:(lia)). lia.
    + subst r2. reflexivity.
    + assert (Hr2 : (r2 < List.length db1)%nat).
      { rewrite Hlen. apply nth_error_Some. rewrite Er2. discriminate. }
      destruct (nth_error_in_range db1 r2 Hr2) as (k2' & e2' & Er2').
      destruct (H12 r2 k2' e2' Er2') as (e2'' & Er2'' & Hs2).
      rewrite Er2 in Er2''. apply Some_inj in Er2''. inversion Er2''.
      subst k2' e2''.
      pose proof (same_text_score nq e2' e2 Hs2) as Hsc2.
      specialize (Hprev1 r2 k2 e2' Hgt Er2' ltac:(lia)). lia.
  - exfalso.
    destruct (loop_inv_winner nq th db1 st1 r1 H1 E1)
      as (k1 & e1 & Er1 & _ & Hth1 & Hpos1 & _).
    destruct (H12 r1 k1 e1 Er1) as (e1' & Er1' & Hs1).
    pose proof (same_text_score nq e1 e1' Hs1) as Hsc1.
    pose proof (loop_inv_none nq th db2 st2 H2 E2 r1 k1 e1' Er1'
                  ltac:(lia)). lia.
  - exfalso.
    destruct (loop_inv_winner nq th db2 st2 r2 H2 E2)
      as (k2 & e2 & Er2 & _ & Hth2 & Hpos2 & _).
    assert (Hr2 : (r2 < List.length db1)%nat).
    { rewrite Hlen. apply nth_error_Some. rewrite Er2. discriminate. }
    destruct (nth_error_in_range db1 r2 Hr2) as (k2' & e2' & Er2').
    destruct (H12 r2 k2' e2' Er2') as (e2'' & Er2'' & Hs2).
    rewrite Er2 in Er2''. apply Some_inj in Er2''. inversion Er2''.
    subst k2' e2''.
    pose proof (same_text_score nq e2' e2 Hs2) as Hsc2.
    pose proof (loop_inv_none nq th db1 st1 H1 E1 r2 k2 e2' Er2'
                  ltac:(lia)). lia.
  - reflexivity.
Qed.

Lemma same_verses_same_result {F : Fuzz} (db1 db2 : database) (text : pystr) :
  same_verses db1 db2 ->
  snd (analyze db1 text) = snd (analyze db2 text)
  /\ same_verses (fst (analyze db1 text)) (fst (analyze db2 text)).
Proof.
  intro Hsame.
  destruct (valid_or_not text) as [Hv | Hv].
  - destruct (analyze_valid db1 text Hv) as (st1 & H1 & E1).
    destruct (analyze_valid db2 text Hv) as (st2 & H2 & E2).
    rewrite E1, E2. cbn [fst snd].
    set (nq := normalize_text (preprocess_for_analysis text)) in *.
    pose proof (same_verses_same_winner nq 70 db1 db2 st1 st2 Hsame H1 H2)
      as Hw.
    split.
    + rewrite <- Hw.
      destruct (best_match st1) as [r|] eqn:Eb1; [|reflexivity].
      symmetry in Hw.
      destruct (loop_inv_winner nq 70 db1 st1 r H1 Eb1)
        as (k1 & e1 & Er1 & Hd1 & _).
      destruct (loop_inv_winner nq 70 db2 st2 r H2 Hw)
        as (k2 & e2 & Er2 & Hd2 & _).
      destruct (same_verses_nth db1 db2 Hsame) as [_ H12].
      destruct (H12 r k1 e1 Er1) as (e2' & Er2' & Hs).
      rewrite Er2 in Er2'. apply Some_inj in Er2'. inversion Er2'.
      subst k2 e2'.
      rewrite Hd1, Hd2, (same_text_found nq k1 e1 e2 Hs). reflexivity.
    + pose proof (loop_inv_same_verses nq 70 db1 st1 H1) as S1.
      pose proof (loop_inv_same_verses nq 70 db2 st2 H2) as S2.
      destruct (same_verses_nth _ _ Hsame) as [L0 P0].
      destruct (same_verses_nth _ _ S1) as [L1 P1].
      destruct (same_verses_nth _ _ S2) as [L2 P2].
      apply same_verses_pointwise; [lia|].
      intros j k e Ej.
      assert (Hj : (j < List.length db1)%nat).
      { rewrite L1. apply nth_error_Some. rewrite Ej. discriminate. }
      destruct (nth_error_in_range db1 j Hj) as (k1 & e1 & Ej1).
      destruct (P1 j k1 e1 Ej1) as (e1' & Ej1' & Hs1).
      rewrite Ej in Ej1'. apply Some_inj in Ej1'. inversion Ej1'.
      subst k1 e1'.
      destruct (P0 j k e1 Ej1) as (e2 & Ej2 & Hs0).
      destruct (P2 j k e2 Ej2) as (e2' & Ej2' & Hs2).
      exists e2'. split; [exact Ej2'|].
      unfold same_text in *.
      destruct Hs0 as (A1 & A2 & A3 & A4 & A5 & A6 & A7).
      destruct Hs1 as (B1 & B2 & B3 & B4 & B5 & B6 & B7).
      destruct Hs2 as (C1 & C2 & C3 & C4 & C5 & C6 & C7).
      repeat split; congruence.
  - destruct (analyze_not_valid db1 text Hv) as [E1 | E1];
      destruct (analyze_not_valid db2 text Hv) as [E2 | E2];
      rewrite E1, E2; cbn [fst snd]; split; try exact Hsame;
      try reflexivity; exfalso.
    + assert (H : snd (analyze db1 text) = snd (analyze db2 text)).
      { unfold analyze.
        destruct (isEmpty text || (len (strip text) =? 0)); [reflexivity|].
        rewrite (preprocess_invalid text Hv). reflexivity. }
      rewrite E1, E2 in H. discriminate H.
    + assert (H : snd (analyze db1 text) = snd (analyze db2 text)).
      { unfold analyze.
        destruct (isEmpty text || (len (strip text) =? 0)); [reflexivity|].
        rewrite (preprocess_invalid text Hv). reflexivity. }
      rewrite E1, E2 in H. discriminate H.
Qed.

(** X25. The answer of the single-book analyzer does not depend on what
    earlier calls wrote into the database: two databases with the same
    verses under the same keys give the same result for every text, and so
    the result for a text after any earlier [analyze] call is the result
    on the database as loaded. *)
Theorem single_book_result_ignores_history (F : Fuzz) (db1 db2 : database)
    (text : pystr) :
  same_verses db1 db2 ->
  snd (analyze db1 text) = snd (analyze db2 text)
  /\ same_verses (fst (analyze db1 text)) (fst (analyze db2 text))
  /\ forall earlier,
       snd (analyze (fst (analyze db1 earlier)) text)
       = snd (analyze db2 text).
Proof.
  intro Hsame.
  destruct (same_verses_same_result db1 db2 text Hsame) as [Hr Hs].
  split; [exact Hr|]. split; [exact Hs|].
  intro earlier.
  assert (Hback : same_verses (fst (analyze db1 earlier)) db2).
  { destruct (valid_or_not earlier) as [Hv | Hv].
    - destruct (analyze_valid db1 earlier Hv) as (st & Hinv & Ea).
      rewrite Ea. cbn [fst].
      pose proof (loop_inv_same_verses _ 70 db1 st Hinv) as S1.
      destruct (same_verses_nth _ _ Hsame) as [L0 P0].
      destruct (same_verses_nth _ _ S1) as [L1 P1].
      apply same_verses_pointwise; [lia|].
      intros j k e Ej.
      assert (Hj : (j < List.length db1)%nat).
      { rewrite L1. apply nth_error_Some. rewrite Ej. discriminate. }
      destruct (nth_error_in_range db1 j Hj) as (k1 & e1 & Ej1).
      destruct (P1 j k1 e1 Ej1) as (e1' & Ej1' & Hs1').
      rewrite Ej in Ej1'. apply Some_inj in Ej1'. inversion Ej1'.
      subst k1 e1'.
      destruct (P0 j k e1 Ej1) as (e2 & Ej2 & Hs0).
      exists e2. split; [exact Ej2|].
      unfold same_text in *.
      destruct Hs0 as (A1 & A2 & A3 & A4 & A5 & A6 & A7).
      destruct Hs1' as (B1 & B2 & B3 & B4 & B5 & B6 & B7).
      repeat split; congruence.
    - destruct (analyze_not_valid db1 earlier Hv) as [E | E];
        rewrite E; exact Hsame. }
  apply (same_verses_same_result _ _ text Hback).
Qed.

Lemma single_book_result_ignores_history_witness :
  snd (analyze (F := equality_only) [(u "1", text_entry kural_1)] kural_1)
  = snd (analyze (F := equality_only)
           [(u "1", set_match_score 12 (text_entry kural_1))] kural_1).
Proof.
  apply (single_book_result_ignores_history equality_only
           [(u "1", text_entry kural_1)]
           [(u "1", set_match_score 12 (text_entry kural_1))] kural_1).
  constructor; [|constructor].
  split; [reflexivity|]. unfold same_text. repeat split.
Defined.

(** ** Lookup by number *)

Lemma position_some (key : pystr) (db : database) :
  forall ref, position key db = Some ref ->
    exists e,
      nth_error db ref = Some (key, e)
      /\ forall j k' e', (j < ref)%nat -> nth_error db j = Some (k', e') ->
           k' <> key.
Proof.
  induction db as [|[k e] db IH]; intros ref; cbn [position];
    [discriminate|].
  destruct (eqb k key) eqn:E.
  - intro H. apply Some_inj in H. subst ref. apply eqb_true_iff in E.
    subst k. exists e. split; [reflexivity|]. intros j k' e' Hj. lia.
  - destruct (position key db) as [r|] eqn:Ep; [|discriminate].
    intro H. apply Some_inj in H. subst ref.
    destruct (IH r eq_refl) as (e0 & Er & Hprev).
    exists e0. split; [exact Er|].
    intros [|j] k' e' Hj Ej.
    + apply Some_inj in Ej. inversion Ej. subst k' e'.
      apply eqb_false_iff. exact E.
    + apply (Hprev j k' e'); [lia | exact Ej].
Qed.

Lemma position_none (key : pystr) (db : database) :
  position key db = None <-> forall k e, In (k, e) db -> k <> key.
Proof.
  induction db as [|[k e] db IH]; cbn [position].
  - split; [intros _ k e [] | reflexivity].
  - destruct (eqb k key) eqn:E.
    + split; [discriminate|]. intro H. apply eqb_true_iff in E.
      exfalso. apply (H k e (or_introl eq_refl) E).
    + apply eqb_false_iff in E.
      destruct (position key db) as [r|].
      * split; [discriminate|]. intro H. destruct IH as [_ IH].
        assert (Hn : Some r = None); [|discriminate Hn].
        apply IH. intros k' e' Hin. apply (H k' e'). right. exact Hin.
      * split; [|reflexivity]. intros _ k' e' [Hin | Hin].
        -- inversion Hin. subst. exact E.
        -- apply (proj1 IH eq_refl k' e' Hin).
Qed.

Lemma position_write (key : pystr) (f : entry -> entry) (db : database) :
  forall ref, position key (write db ref f) = position key db.
Proof.
  induction db as [|[k e] db IH]; intros [|r]; cbn [write position];
    try reflexivity.
  rewrite IH. reflexivity.
Qed.

Lemma write_write (db : database) (f : entry -> entry) :
  (forall e, f (f e) = f e) ->
  forall ref, write (write db ref f) ref f = write db ref f.
Proof.
  intro Hf. induction db as [|[k e] db IH]; intros [|r]; cbn [write];
    try reflexivity.
  - rewrite Hf. reflexivity.
  - rewrite IH. reflexivity.
Qed.

Lemma deref_write_same (db : database) (f : entry -> entry) (ref : nat)
    (k : pystr) (e : entry) :
  nth_error db ref = Some (k, e) -> deref (write db ref f) ref = f e.
Proof.
  intro H. apply (deref_nth_error _ ref k).
  apply nth_error_write_same. exact H.
Qed.

(** X26. [search_by_number] returns nothing exactly when no verse is
    stored under the printed number; otherwise it returns the verse stored
    under that key, writes the key into it as its ['verse_number'] (unless
    the verse object has no key at all) and changes nothing else; asking a
    second time returns the same verse and leaves the database as the
    first call left it. *)
Theorem search_by_number_writes_key (db : database) (n : Z) :
  let key := str_of_int n in
  let db' := fst (search_by_number db n) in
  (snd (search_by_number db n) = None
   <-> forall k e, In (k, e) db -> k <> key)
  /\ (forall ref, snd (search_by_number db n) = Some ref ->
        exists e,
          nth_error db ref = Some (key, e)
          /\ (forall j k' e', (j < ref)%nat ->
                nth_error db j = Some (k', e') -> k' <> key)
          /\ (has_keys e = true ->
              nth_error db' ref = Some (key, set_verse_number key e))
          /\ (has_keys e = false -> db' = db)
          /\ (forall j, j <> ref -> nth_error db' j = nth_error db j))
  /\ same_verses db db'
  /\ search_by_number db' n = search_by_number db n.
Proof.
  cbv zeta. unfold search_by_number.
  assert (Hsame : same_verses db db).
  { apply same_verses_pointwise; [reflexivity|].
    intros j k e Ej. exists e. split; [exact Ej | apply same_text_refl]. }
  destruct (position (str_of_int n) db) as [ref|] eqn:Ep.
  - destruct (position_some _ db ref Ep) as (e & Er & Hprev).
    rewrite (deref_nth_error db ref _ e Er).
    destruct (has_keys e) eqn:Ek; cbn [fst snd].
    + split.
      { split; [discriminate|]. intro H. exfalso.
        apply (H (str_of_int n) e); [|reflexivity].
        apply (nth_error_In _ _ Er). }
      split.
      { intros r H. apply Some_inj in H. subst r. exists e.
        split; [exact Er|]. split; [exact Hprev|].
        split; [intros _; apply nth_error_write_same; exact Er|].
        split; [intro H; rewrite Ek in H; discriminate H|].
        intros j Hj. apply nth_error_write_other. auto. }
      split.
      { apply same_verses_pointwise; [symmetry; apply write_length|].
        intros j k e' Ej.
        destruct (Nat.eq_dec ref j) as [<- | Hne].
        - rewrite Er in Ej. apply Some_inj in Ej. inversion Ej. subst k e'.
          exists (set_verse_number (str_of_int n) e).
          split; [apply nth_error_write_same; exact Er|].
          unfold same_text. repeat split.
        - exists e'. split; [|apply same_text_refl].
          rewrite nth_error_write_other by exact Hne. exact Ej. }
      rewrite position_write, Ep.
      rewrite (deref_write_same db _ ref _ e Er).
      assert (Hk : has_keys (set_verse_number (str_of_int n) e) = true).
      { unfold has_keys, set_verse_number.
        cbn [e_verse e_book e_section e_chapter e_number e_meaning e_summary
             e_match_score e_verse_number].
        destruct (e_verse e), (e_book e), (e_section e), (e_chapter e),
          (e_number e), (e_meaning e), (e_summary e), (e_match_score e);
          reflexivity. }
      rewrite Hk, write_write; [reflexivity|].
      intro e0. reflexivity.
    + split.
      { split; [discriminate|]. intro H. exfalso.
        apply (H (str_of_int n) e); [|reflexivity].
        apply (nth_error_In _ _ Er). }
      split.
      { intros r H. apply Some_inj in H. subst r. exists e.
        split; [exact Er|]. split; [exact Hprev|].
        split; [intro H; rewrite Ek in H; discriminate H|].
        split; reflexivity. }
      split; [exact Hsame|].
      rewrite Ep, (deref_nth_error db ref _ e Er), Ek. reflexivity.
  - cbn [fst snd]. split.
    { split; [intros _; apply position_none; exact Ep | reflexivity]. }
    split; [intros r H; discriminate H|].
    split; [exact Hsame|]. rewrite Ep. reflexivity.
Qed.

(** ** The written verse numbers *)

Lemma keys_consistent_pointwise (db : database) :
  keys_consistent db
  <-> forall j k e, nth_error db j = Some (k, e) ->
        e_verse_number e = None \/ e_verse_number e = Some k.
Proof.
  unfold keys_consistent. split.
  - intros H j k e Ej. apply (H k e). apply (nth_error_In _ _ Ej).
  - intros H k e Hin. apply In_nth_error in Hin. destruct Hin as [j Ej].
    apply (H j k e Ej).
Qed.

(** X27. The ['verse_number'] of a verse object of the single-book
    database is never anything but the key the verse is stored under: if
    this holds of the database (as it does of a database file without
    ['verse_number'] keys), it holds after every [analyze] and every
    [search_by_number], and every found result then reports as its number
    the key of a verse of the database. *)
Theorem single_book_verse_number_is_key (F : Fuzz) (db : database)
    (text : pystr) (n : Z) :
  keys_consistent db ->
  keys_consistent (fst (analyze db text))
  /\ keys_consistent (fst (search_by_number db n))
  /\ forall r, snd (analyze db text) = Found r ->
       exists e, In (number r, e) (fst (analyze db text))
                 /\ e_verse_number e = Some (number r).
Proof.
  intro Hc. rewrite keys_consistent_pointwise in Hc.
  split; [|split].
  - apply keys_consistent_pointwise. intros j k e' Ej.
    destruct (valid_or_not text) as [Hv | Hv].
    + destruct (analyze_valid db text Hv) as (st & Hinv & Ea).
      rewrite Ea in Ej. cbn [fst] in Ej.
      destruct Hinv as (Hlen & _ & Hdone & _).
      assert (Hj : (j < List.length db)%nat).
      { rewrite <- Hlen. apply nth_error_Some. rewrite Ej. discriminate. }
      destruct (nth_error_in_range db j Hj) as (k0 & e0 & E0).
      destruct (Hdone j k0 e0 Hj E0) as [Hw Hn].
      destruct (classic_record_at
                  (normalize_text (preprocess_for_analysis text)) 70 db j)
        as [Hr | Hr].
      * rewrite (Hw Hr) in Ej. apply Some_inj in Ej. inversion Ej.
        right. reflexivity.
      * rewrite (Hn Hr) in Ej. apply Some_inj in Ej. inversion Ej.
        subst k e'. apply (Hc j k0 e0 E0).
    + assert (E : fst (analyze db text) = db)
        by (destruct (analyze_not_valid db text Hv) as [H | H];
            rewrite H; reflexivity).
      rewrite E in Ej. apply (Hc j k e' Ej).
  - apply keys_consistent_pointwise. intros j k e' Ej.
    unfold search_by_number in Ej.
    destruct (position (str_of_int n) db) as [ref|] eqn:Ep;
      [|apply (Hc j k e' Ej)].
    destruct (position_some _ db ref Ep) as (e & Er & _).
    destruct (has_keys (deref db ref)); cbn [fst] in Ej;
      [|apply (Hc j k e' Ej)].
    destruct (Nat.eq_dec ref j) as [<- | Hne].
    + rewrite (nth_error_write_same db _ ref _ e Er) in Ej.
      apply Some_inj in Ej. inversion Ej. right. reflexivity.
    + rewrite nth_error_write_other in Ej by exact Hne.
      apply (Hc j k e' Ej).
  - intros r E.
    destruct (valid_or_not text) as [Hv | Hv].
    2: { destruct (analyze_not_valid db text Hv) as [H | H];
           rewrite H in E; discriminate. }
    destruct (analyze_valid db text Hv) as (st & Hinv & Ea).
    rewrite Ea in E |- *. cbn [fst snd] in E |- *.
    destruct (best_match st) as [ref|] eqn:Eb; [|discriminate].
    destruct (loop_inv_winner _ 70 db st ref Hinv Eb)
      as (key & e & Er & Hd & _).
    rewrite Hd in E.
    assert (Hnum : number r = key).
    { apply (f_equal (fun x => match x with
                               | Found f => number f
                               | _ => key
                               end)) in E. symmetry. exact E. }
    destruct Hinv as (_ & _ & Hdone & _ & _ & Hbest).
    rewrite Eb in Hbest. destruct Hbest as (Hr & Hrec & _).
    exists (written_entry (normalize_text (preprocess_for_analysis text))
              key e).
    rewrite Hnum. split; [|reflexivity].
    apply (nth_error_In _ ref).
    apply (proj1 (Hdone ref key e Hr Er) Hrec).
Qed.

Lemma single_book_verse_number_is_key_witness :
  keys_consistent
    (fst (analyze (F := equality_only) [(u "1", text_entry kural_1)] kural_1)).
Proof.
  apply (single_book_verse_number_is_key equality_only
           [(u "1", text_entry kural_1)] kural_1 1).
  intros k e [H | []]. inversion H. left. reflexivity.
Defined.

(** ** The list of sections *)

Lemma str_ltb_irrefl (a : pystr) : str_ltb a a = false.
Proof.
  induction a as [|x a IH]; cbn [str_ltb]; [reflexivity|].
  rewrite Z.ltb_irrefl, Z.eqb_refl, IH. reflexivity.
Qed.

Lemma str_ltb_total (a : pystr) :
  forall b, str_ltb a b = false -> a <> b -> str_ltb b a = true.
Proof.
  induction a as [|x a IH]; intros [|y b] H Hne; cbn [str_ltb] in *;
    try reflexivity; try discriminate; try contradiction.
  apply orb_false_iff in H. destruct H as [H1 H2].
  apply Z.ltb_ge in H1.
  destruct (Z.eq_dec x y) as [-> | Hxy].
  - rewrite Z.eqb_refl in H2 |- *. cbn [andb] in H2 |- *.
    rewrite (IH b H2); [apply orb_true_r|].
    intro E. apply Hne. rewrite E. reflexivity.
  - apply orb_true_iff. left. apply Z.ltb_lt. lia.
Qed.

Lemma str_ltb_trans (a : pystr) :
  forall b c, str_ltb a b = true -> str_ltb b c = true -> str_ltb a c = true.
Proof.
  induction a as [|x a IH]; intros [|y b] [|z c] H1 H2; cbn [str_ltb] in *;
    try reflexivity; try discriminate.
  apply orb_true_iff in H1. apply orb_true_iff in H2. apply orb_true_iff.
  rewrite !andb_true_iff, !Z.ltb_lt, !Z.eqb_eq in *.
  destruct H1 as [H1 | [H1 H1']], H2 as [H2 | [H2 H2']].
  - left. lia.
  - left. lia.
  - left. lia.
  - right. split; [lia|]. apply (IH b c H1' H2').
Qed.

Lemma insert_sorted_in (s : pystr) (l : list pystr) (x : pystr) :
  In x (insert_sorted s l) <-> x = s \/ In x l.
Proof.
  induction l as [|h t IH]; cbn [insert_sorted].
  - simpl. split; intros [H | H]; auto.
  - destruct (str_ltb h s); simpl; rewrite ?IH; split; intro H;
      repeat (destruct H as [H | H]); auto.
Qed.

Lemma increasing_cons (a : pystr) (l : list pystr) :
  increasing l ->
  (forall b, hd_error l = Some b -> str_ltb a b = true) ->
  increasing (a :: l).
Proof.
  intros Hl Hh. destruct l as [|b t]; [exact I|].
  split; [apply Hh; reflexivity | exact Hl].
Qed.

Lemma increasing_tail (a : pystr) (l : list pystr) :
  increasing (a :: l) -> increasing l.
Proof.
  destruct l as [|b t]; [intros _; exact I | intros [_ H]; exact H].
Qed.

Lemma insert_sorted_increasing (s : pystr) (l : list pystr) :
  increasing l -> ~ In s l -> increasing (insert_sorted s l).
Proof.
  induction l as [|h t IH]; intros Hl Hn; cbn [insert_sorted].
  - exact I.
  - destruct (str_ltb h s) eqn:E.
    + apply increasing_cons.
      * apply IH; [apply (increasing_tail h), Hl|].
        intro H. apply Hn. right. exact H.
      * intros b Hb. destruct t as [|h' t']; cbn [insert_sorted] in Hb.
        -- apply Some_inj in Hb. subst b. exact E.
        -- destruct (str_ltb h' s); apply Some_inj in Hb; subst b;
             [apply Hl | exact E].
    + split; [|exact Hl].
      apply str_ltb_total; [exact E|].
      intro H. apply Hn. left. exact H.
Qed.

Lemma sorted_in (l : list pystr) (x : pystr) : In x (sorted l) <-> In x l.
Proof.
  unfold sorted. induction l as [|a l IH]; cbn [fold_right].
  - reflexivity.
  - rewrite insert_sorted_in, IH. simpl. split; intros [H | H]; auto.
Qed.

Lemma sorted_increasing (l : list pystr) : NoDup l -> increasing (sorted l).
Proof.
  unfold sorted. induction 1 as [|a l Hn Hd IH]; cbn [fold_right].
  - exact I.
  - apply insert_sorted_increasing; [exact IH|].
    intro H. apply Hn. apply (sorted_in l a). exact H.
Qed.

Lemma increasing_all (a : pystr) (l : list pystr) :
  increasing (a :: l) -> forall b, In b l -> str_ltb a b = true.
Proof.
  revert a. induction l as [|h t IH]; intros a Hl b Hb; [destruct Hb|].
  destruct Hl as [Hah Ht].
  destruct Hb as [-> | Hb]; [exact Hah|].
  apply (str_ltb_trans a h b Hah). apply (IH h Ht b Hb).
Qed.

(** X28. [get_all_sections] lists exactly the sections of the verses of
    the database (the empty string for a verse without one), each once, in
    strictly increasing order of code points: every section in the list
    comes before all sections after it. *)
Theorem get_all_sections_sorted (db : database) :
  (forall s, In s (get_all_sections db)
             <-> exists k e, In (k, e) db /\ get_str (e_section e) [] = s)
  /\ increasing (get_all_sections db)
  /\ NoDup (get_all_sections db)
  /\ (forall before s after,
        get_all_sections db = before ++ s :: after ->
        forall t, In t after -> str_ltb s t = true).
Proof.
  unfold get_all_sections, to_set.
  set (sections := map (fun item => get_str (e_section (snd item)) []) db).
  assert (Hinc : increasing (sorted (nodup (list_eq_dec Z.eq_dec) sections)))
    by (apply sorted_increasing, NoDup_nodup).
  assert (Hlater : forall l before s after,
            increasing l -> l = before ++ s :: after ->
            forall t, In t after -> str_ltb s t = true).
  { intros l before. revert l.
    induction before as [|b before IH]; intros l s after Hl E t Ht.
    - subst l. apply (increasing_all s after Hl t Ht).
    - subst l. apply (IH _ s after (increasing_tail b _ Hl) eq_refl t Ht). }
  split; [|split; [exact Hinc|split]].
  - intro s. rewrite sorted_in, nodup_In. unfold sections.
    rewrite in_map_iff. split.
    + intros ([k e] & Hs & Hin). exists k, e. auto.
    + intros (k & e & Hin & Hs). exists (k, e). auto.
  - generalize Hinc.
    generalize (sorted (nodup (list_eq_dec Z.eq_dec) sections)).
    induction l as [|a l IH]; intro Hl; constructor.
    + intro Hin. pose proof (increasing_all a l Hl a Hin) as H.
      rewrite str_ltb_irrefl in H. discriminate.
    + apply IH. apply (increasing_tail a), Hl.
  - intros before s after E. apply (Hlater _ before s after Hinc E).
Qed.

End SingleBook.
